(** * Terrain API worker (worker.js): a shallow embedding and its properties

    The worker answers [GET /?q=...|lat=..&lon=..&size=..&grid=..] with a
    grid of elevation samples.  The [fetch] handler of [worker.js] is
    embedded as a program of a small free monad [io] whose events are the
    handler's awaited calls: the global [fetch], the KV namespace
    [env.CACHE] and [setTimeout].  JavaScript numbers are binary64 values
    (Rocq's primitive floats), JSON payloads are trees of type [value], and
    the built-ins of the JavaScript runtime that the handler calls
    ([parseFloat], [parseInt], [Math.cos], [toFixed], ...) are the fields of
    a [Runtime] interface.

    Telemetry ([Sentry.setTag], [Sentry.setContext], [Sentry.startSpan]
    around a callback, ...) has no effect on control flow or on returned
    values and is left out of the handler: [Sentry.startSpan(opts, cb)]
    is [cb()].  The options that [worker.js] hands to the telemetry
    wrapper, with their [beforeSend] filter, are in the module [Sentry].

    [parseInt] yields an integer-valued number or NaN; the embedding keeps
    that integer as a [Z], which is exact on the safe-integer range.

    Four more conventions bound what the embedding says of the engine.
    A string is a string of bytes, so that [length] and [slice] count
    bytes: they are the code units of JavaScript on ASCII text.  The KV
    namespace and the timer always resolve.  A call with spread
    arguments ([Math.min(...xs)], [push(...xs)]) takes any number of
    them, where an engine throws a [RangeError] past the size of its
    stack.  An object converts to a string and to a number through the
    [toString] it inherits: a JSON object with a property of that name
    makes the conversion throw a [TypeError] in JavaScript, and converts
    like any other object here.

    The handler is parameterised by a [Revision]: [worker.js] and the
    earlier batched worker differ in the pacing delay, in the synthesised
    name and in the debug route.  The earlier worker also collects the
    elevations of a batch with a [for ... of] loop where [worker.js]
    calls [map]; the two differ only on a [results] that is a string:
    the handler follows [worker.js] there, and the module [Earlier] has
    the earlier worker as it is written.  The oldest worker,
    which asks another elevation service for all points in one call and
    has no cache, is the module [OpenMeteo]. *)

From Stdlib Require Import Floats ZArith Bool List Ascii String Lia.
From stdpp Require Import base option list strings gmap pretty.

Local Open Scope string_scope.
Local Open Scope Z_scope.

(* ================================================================== *)
(** * JavaScript values *)
(* ================================================================== *)

Module Js.

(** A JavaScript value as the handler meets them: the result of
    [JSON.parse], or [undefined] from a missing property.  An object keeps
    its own properties in enumeration order. *)
#[warnings="-register-all"]
Inductive value : Type :=
| VUndef
| VNull
| VBool (b : bool)
| VNum (n : float)
| VStr (s : string)
| VArr (elems : list value)
| VObj (props : list (string * value)).

(** An exception value: [new Error(msg)], a [TypeError] of the engine, a
    [SyntaxError] of [JSON.parse], or the reason of a rejected promise. *)
Record Error : Type := mkError { ename : string; message : string }.

Definition new_Error (msg : string) : Error := mkError "Error" msg.
Definition TypeError (msg : string) : Error := mkError "TypeError" msg.
Definition SyntaxError (msg : string) : Error := mkError "SyntaxError" msg.

(** [Error.prototype.toString] *)
Definition Error_toString (e : Error) : string :=
  if String.eqb (ename e) "" then message e
  else if String.eqb (message e) "" then ename e
  else ename e ++ ": " ++ message e.

(** The built-ins of the runtime that the handler calls.  They are not
    code of the worker; every theorem below holds for all of them. *)
Class Runtime : Type := {
  (** [parseFloat(s)] on a string *)
  parseFloat_string : string -> float;
  (** [parseInt(s)] on a string, no radix; [None] is NaN *)
  parseInt_string : string -> option Z;
  (** [Number(s)] on a string (StringToNumber) *)
  StringToNumber : string -> float;
  (** [Number.prototype.toFixed(digits)] *)
  toFixed : float -> nat -> string;
  (** [Number.prototype.toString()] *)
  Number_toString : float -> string;
  (** [Math.cos] *)
  Math_cos : float -> float;
  (** [encodeURIComponent] *)
  encodeURIComponent : string -> string
}.

(** [Math.PI] *)
Definition Math_PI : float := 0x1.921fb54442d18p+1%float.

(** The number that an integer denotes, rounded to nearest-even. *)
Definition float_of_Z (z : Z) : float :=
  SF2Prim (binary_normalize prec emax z 0 false).

Definition float_of_nat (n : nat) : float := float_of_Z (Z.of_nat n).

(** [Math.min] and [Math.max] on numbers already coerced, as
    ECMAScript's algorithm has them: NaN is contagious, -0 is below +0. *)
Definition is_neg_zero (x : float) : bool :=
  match classify x with NZero => true | _ => false end.
Definition is_pos_zero (x : float) : bool :=
  match classify x with PZero => true | _ => false end.

Definition min_step (lowest : option float) (n : float) : option float :=
  match lowest with
  | None => None
  | Some lowest =>
      if is_nan n then None
      else if is_neg_zero n && is_pos_zero lowest then Some n
      else if PrimFloat.ltb n lowest then Some n
      else Some lowest
  end.

Definition max_step (highest : option float) (n : float) : option float :=
  match highest with
  | None => None
  | Some highest =>
      if is_nan n then None
      else if is_pos_zero n && is_neg_zero highest then Some n
      else if PrimFloat.ltb highest n then Some n
      else Some highest
  end.

Definition Math_min (coerced : list float) : float :=
  match fold_left min_step coerced (Some infinity) with
  | Some lowest => lowest
  | None => nan
  end.

Definition Math_max (coerced : list float) : float :=
  match fold_left max_step coerced (Some neg_infinity) with
  | Some highest => highest
  | None => nan
  end.

(** [Array.prototype.slice(start, end)] for indices within [nat] *)
Definition slice {A} (l : list A) (start stop : nat) : list A :=
  take (stop - start) (drop start l).

(** [s.startsWith(p)] and [s.slice(n)] on strings *)
Fixpoint startsWith (s p : string) {struct p} : bool :=
  match p with
  | EmptyString => true
  | String a p' =>
      match s with
      | EmptyString => false
      | String b s' => Ascii.eqb a b && startsWith s' p'
      end
  end.
Definition string_slice_from (n : nat) (s : string) : string :=
  String.substring n (String.length s - n) s.

Section Coercions.
Context {RT : Runtime}.

(** ToBoolean *)
Definition truthy (v : value) : bool :=
  match v with
  | VUndef | VNull => false
  | VBool b => b
  | VNum n => negb (is_nan n || PrimFloat.eqb n 0)
  | VStr s => negb (String.eqb s "")
  | VArr _ | VObj _ => true
  end.

(** ToString.  An array joins its elements with commas, [null] and
    [undefined] elements printing as the empty string. *)
Fixpoint ToString (v : value) : string :=
  match v with
  | VUndef => "undefined"
  | VNull => "null"
  | VBool b => if b then "true" else "false"
  | VNum n => Number_toString n
  | VStr s => s
  | VArr elems =>
      String.concat ","
        ((fix each (l : list value) : list string :=
            match l with
            | [] => []
            | VUndef :: l' => "" :: each l'
            | VNull :: l' => "" :: each l'
            | e :: l' => ToString e :: each l'
            end) elems)
  | VObj _ => "[object Object]"
  end.

(** ToNumber.  Arrays and objects go through ToPrimitive, which for
    parsed JSON is their [toString]. *)
Definition ToNumber (v : value) : float :=
  match v with
  | VUndef => nan
  | VNull => 0%float
  | VBool b => if b then 1%float else 0%float
  | VNum n => n
  | VStr s => StringToNumber s
  | VArr _ | VObj _ => StringToNumber (ToString v)
  end.

(** The global [isNaN] *)
Definition isNaN (v : value) : bool := is_nan (ToNumber v).

(** The globals [parseFloat(x)] and [parseInt(x)]: the argument is
    first converted to a string.  The strings of [undefined], [null],
    a boolean and an object start no numeric literal: the result is NaN
    whatever the runtime. *)
Definition parseFloat (v : value) : float :=
  match v with
  | VStr s => parseFloat_string s
  | VNum _ | VArr _ => parseFloat_string (ToString v)
  | VUndef | VNull | VBool _ | VObj _ => nan
  end.

Definition parseInt (v : value) : option Z :=
  match v with
  | VStr s => parseInt_string s
  | VNum _ | VArr _ => parseInt_string (ToString v)
  | VUndef | VNull | VBool _ | VObj _ => None
  end.
End Coercions.

(** An own property of an object, by key: the first binding. *)
Fixpoint lookup_prop (k : string) (props : list (string * value)) : option value :=
  match props with
  | [] => None
  | (k', v) :: rest => if String.eqb k' k then Some v else lookup_prop k rest
  end.

(** A decimal index, as a property key *)
Definition index_key (i : nat) : string := pretty (Z.of_nat i).

Definition find_index (k : string) (n : nat) : option nat :=
  List.find (fun i => String.eqb (index_key i) k) (seq 0 n).

(** [v[k]] or [v.k] on a value that is neither [null] nor [undefined]:
    own data properties and [length]; no JSON value carries a method. *)
Definition get_prop (v : value) (k : string) : value :=
  match v with
  | VObj props => default VUndef (lookup_prop k props)
  | VArr elems =>
      if String.eqb k "length" then VNum (float_of_nat (List.length elems))
      else match find_index k (List.length elems) with
           | Some i => nth i elems VUndef
           | None => VUndef
           end
  | VStr s =>
      if String.eqb k "length" then VNum (float_of_nat (String.length s))
      else match find_index k (String.length s) with
           | Some i => VStr (String.substring i 1 s)
           | None => VUndef
           end
  | _ => VUndef
  end.

(** Strict equality with a string, with [null], and with the number 0 *)
Definition strict_eq_string (v : value) (s : string) : bool :=
  match v with VStr s' => String.eqb s' s | _ => false end.
Definition strict_eq_null (v : value) : bool :=
  match v with VNull => true | _ => false end.
Definition strict_eq_zero (v : value) : bool :=
  match v with VNum n => PrimFloat.eqb n 0 | _ => false end.

(** [JSON.stringify] followed by [JSON.parse]: the JSON tree that a value
    serialises to.  [undefined] and non-finite numbers become [null] in an
    array, a property whose value is [undefined] is dropped, and -0 prints
    as 0. *)
Definition json_number (n : float) : value :=
  match classify n with
  | NaN | PInf | NInf => VNull
  | PZero | NZero => VNum 0%float
  | _ => VNum n
  end.

Fixpoint to_json (v : value) : value :=
  match v with
  | VUndef => VNull
  | VNull => VNull
  | VBool b => VBool b
  | VNum n => json_number n
  | VStr s => VStr s
  | VArr elems => VArr (List.map to_json elems)
  | VObj props =>
      VObj ((fix each (l : list (string * value)) : list (string * value) :=
               match l with
               | [] => []
               | (k, VUndef) :: l' => each l'
               | (k, e) :: l' => (k, to_json e) :: each l'
               end) props)
  end.

(** The properties of the JSON tree of an object *)
Definition json_props (props : list (string * value)) : list (string * value) :=
  match to_json (VObj props) with
  | VObj l => l
  | _ => []
  end.

(** Assigning a property: in place when the key exists, appended
    otherwise. *)
Fixpoint set_prop (k : string) (x : value) (props : list (string * value))
  : list (string * value) :=
  match props with
  | [] => [(k, x)]
  | (k', v) :: rest =>
      if String.eqb k' k then (k', x) :: rest else (k', v) :: set_prop k x rest
  end.

(** The own enumerable properties that an object spread [{...v}] copies *)
Definition spread (v : value) : list (string * value) :=
  match v with
  | VObj props => props
  | VArr elems => imap (fun i e => (index_key i, e)) elems
  | VStr s =>
      List.map (fun i => (index_key i, VStr (String.substring i 1 s)))
               (seq 0 (String.length s))
  | _ => []
  end.

(** A computation that returns or throws, and awaits nothing *)
Definition result (A : Type) : Type := (Error + A)%type.

Definition rbind {A B} (m : result A) (f : A -> result B) : result B :=
  match m with
  | inl e => inl e
  | inr a => f a
  end.

(** [v.k] where [v] may be [null] or [undefined]: a [TypeError] then *)
Definition member (v : value) (k : string) : result value :=
  match v with
  | VUndef =>
      inl (TypeError ("Cannot read properties of undefined (reading '"
                      ++ k ++ "')"))
  | VNull =>
      inl (TypeError ("Cannot read properties of null (reading '"
                      ++ k ++ "')"))
  | _ => inr (get_prop v k)
  end.

Fixpoint mapM {A B} (f : A -> result B) (l : list A) : result (list B) :=
  match l with
  | [] => inr []
  | x :: l' =>
      match f x with
      | inl e => inl e
      | inr y => match mapM f l' with
                 | inl e => inl e
                 | inr ys => inr (y :: ys)
                 end
      end
  end.

End Js.

(* ================================================================== *)
(** * Awaited calls and their interpretation *)
(* ================================================================== *)

Module Io.
Import Js.

(** What [await fetch(url)] resolves to.  [json] is the outcome of
    [res.json()]: [None] when the body is not JSON. *)
Record HttpResponse : Type := {
  ok : bool;
  status : Z;
  text : string;
  json : option value
}.

(** The calls the handler awaits. *)
Inductive event : Type -> Type :=
| Fetch (url : string) (headers : list (string * string)) : event HttpResponse
| CacheGet (key : string) : event value
| CachePut (key : string) (stored : value) (expirationTtl : Z) : event unit
| SetTimeout (ms : Z) : event unit.

(** A handler body: it returns, throws, or awaits a call and goes on
    with what the call settled to (a rejection or a value). *)
Inductive io (A : Type) : Type :=
| Ret (a : A)
| Throw (e : Error)
| Vis {X : Type} (ev : event X) (k : Error + X -> io A).

Arguments Ret {A} a.
Arguments Throw {A} e.
Arguments Vis {A X} ev k.

Fixpoint bind {A B} (m : io A) (f : A -> io B) : io B :=
  match m with
  | Ret a => f a
  | Throw e => Throw e
  | Vis ev k => Vis ev (fun r => bind (k r) f)
  end.

(** [try { m } catch (error) { h error }] *)
Fixpoint try_catch {A} (m : io A) (h : Error -> io A) : io A :=
  match m with
  | Ret a => Ret a
  | Throw e => h e
  | Vis ev k => Vis ev (fun r => try_catch (k r) h)
  end.

(** [await] of one call: a rejection is thrown. *)
Definition await {X} (ev : event X) : io X :=
  Vis ev (fun r => match r with inl e => Throw e | inr x => Ret x end).

(** A computation without calls, as a handler body *)
Definition lift {A} (r : result A) : io A :=
  match r with
  | inl e => Throw e
  | inr a => Ret a
  end.

Module Notations.
Notation "x <- m ;; k" := (bind m (fun x => k))
  (at level 100, m at next level, right associativity).
Notation "m ;;; k" := (bind m (fun _ => k))
  (at level 100, right associativity).
Notation "x <~ m ;; k" := (rbind m (fun x => k))
  (at level 100, m at next level, right associativity).
End Notations.

(** One settled call, as it appears in the trace of a run. *)
Inductive call : Type :=
| CallFetch (url : string) (reply : Error + HttpResponse)
| CallCacheGet (key : string) (reply : value)
| CallCachePut (key : string) (stored : value) (expirationTtl : Z)
| CallSetTimeout (ms : Z).

(** The outside world of one run: what the [n]-th [fetch] of the run
    settles to, given its URL. *)
Definition Network : Type := nat -> string -> Error + HttpResponse.

(** The state a run threads: the KV namespace, the number of fetches
    issued so far, and the calls so far, oldest first. *)
Record State : Type := mkState {
  kv : gmap string value;
  fetches : nat;
  trace : list call
}.

Definition init (store : gmap string value) : State := mkState store 0 [].

Definition log (c : call) (s : State) : State :=
  mkState (kv s) (fetches s) (trace s ++ [c]).

(** [env.CACHE.get(key, 'json')] resolves to the parsed entry or [null];
    [put] overwrites the entry, kept as its JSON tree; the namespace and
    the timer always resolve, and an entry does not expire within a
    run. *)
Definition perform (net : Network) {X} (ev : event X) (s : State)
  : (Error + X) * State :=
  match ev in event X return (Error + X) * State with
  | Fetch url _ =>
      let r := net (fetches s) url in
      (r, mkState (kv s) (S (fetches s)) (trace s ++ [CallFetch url r]))
  | CacheGet key =>
      let v := default VNull (kv s !! key) in
      (inr v, log (CallCacheGet key v) s)
  | CachePut key stored ttl =>
      (inr tt, log (CallCachePut key stored ttl)
                   (mkState (<[key := stored]> (kv s)) (fetches s) (trace s)))
  | SetTimeout ms => (inr tt, log (CallSetTimeout ms) s)
  end.

(** Running a handler body against the world: the value returned or the
    exception that escaped, and the final state. *)
Fixpoint run (net : Network) {A} (m : io A) (s : State) : (Error + A) * State :=
  match m with
  | Ret a => (inr a, s)
  | Throw e => (inl e, s)
  | Vis ev k => let '(r, s') := perform net ev s in run net (k r) s'
  end.

End Io.

(* ================================================================== *)
(** * The worker *)
(* ================================================================== *)

Module Worker.
Import Js Io Io.Notations.

(** What the handler reads of the incoming request. *)
Record Request : Type := {
  method : string;
  pathname : string;
  (** the query string, in order *)
  searchParams : list (string * string);
  (** [request.headers.get('Authorization')] *)
  authorization : option string
}.

(** What the handler reads of its bindings: whether the KV namespace
    [CACHE] is bound, and the admin key. *)
Record Env : Type := {
  CACHE : bool;
  ADMIN_API_KEY : option string
}.

(** A [Response].  [body] is the JSON tree of the serialised payload;
    [None] is the [null] body of the preflight answer. *)
Record Response : Type := {
  rstatus : Z;
  body : option value;
  headers : list (string * string)
}.

(** The two revisions of the batched worker differ in the pacing delay,
    in the synthesised name and in the debug route. *)
Record Revision : Type := {
  pacing_ms : Z;
  degree_mark : string;
  debug_endpoint : bool
}.

(** [worker.js] *)
Definition worker_js : Revision :=
  {| pacing_ms := 2000; degree_mark := ""; debug_endpoint := true |}.

(** The earlier revision with KV caching and batches *)
Definition worker_earlier : Revision :=
  {| pacing_ms := 100; degree_mark := "°"; debug_endpoint := false |}.

(** [url.searchParams.get(name)]: the first value, or [null] *)
Fixpoint searchParams_get (name : string) (ps : list (string * string))
  : option string :=
  match ps with
  | [] => None
  | (k, v) :: rest =>
      if String.eqb k name then Some v else searchParams_get name rest
  end.

(** A query parameter as a value: a string or [null] *)
Definition param (o : option string) : value :=
  match o with Some s => VStr s | None => VNull end.

(** The string of a parameter that is truthy: present and not empty *)
Definition truthy_param (o : option string) : option string :=
  match o with
  | Some s => if String.eqb s "" then None else Some s
  | None => None
  end.

Definition corsHeaders : list (string * string) :=
  [ ("Access-Control-Allow-Origin", "*");
    ("Access-Control-Allow-Methods", "GET, OPTIONS");
    ("Access-Control-Allow-Headers", "Content-Type") ].

(** [new Response(JSON.stringify(payload), { status, headers })] *)
Definition json_response (status : Z) (payload : value) : Response :=
  {| rstatus := status;
     body := Some (to_json payload);
     headers := corsHeaders ++ [("Content-Type", "application/json")] |}.

Definition error_body (msg : string) : value := VObj [("error", VStr msg)].

(** The resolved center point *)
Record Center : Type := {
  centerLat : float;
  centerLon : float;
  name : value
}.

(** One grid point, as pushed on [locations] *)
Record Location : Type := { lat : string; lon : string }.

(** The record [result] *)
Record TerrainResult : Type := {
  res_name : value;
  res_center : float * float;
  elevations : list value;
  minElev : float;
  maxElev : float;
  res_grid : Z
}.

Definition BATCH_SIZE : nat := 100.
Definition kmPerDegLat : float := 111%float.
Definition expirationTtl : Z := 60 * 60 * 24 * 30.

Section Handler.
Context {RT : Runtime} (rev : Revision).

(** [parseFloat(url.searchParams.get('size')) || 10] *)
Definition size_of (request : Request) : float :=
  let parsed := parseFloat (param (searchParams_get "size" (searchParams request))) in
  if truthy (VNum parsed) then parsed else 10%float.

(** [parseInt(url.searchParams.get('grid')) || 40] *)
Definition grid_of (request : Request) : Z :=
  match parseInt (param (searchParams_get "grid" (searchParams request))) with
  | Some parsed => if parsed =? 0 then 40 else parsed
  | None => 40
  end.

(** [await res.json()] *)
Definition res_json (res : HttpResponse) : result value :=
  match json res with
  | Some v => inr v
  | None => inl (SyntaxError "Unexpected token in JSON")
  end.

Definition geoUrl (q : string) : string :=
  "https://nominatim.openstreetmap.org/search?format=json&q="
  ++ encodeURIComponent q ++ "&limit=1".

(** The status check on the geocoding response, and its JSON *)
Definition read_geocode (geoRes : HttpResponse) : result value :=
  if negb (ok geoRes)
  then inl (new_Error ("Geocoding failed: " ++ pretty (status geoRes)))
  else res_json geoRes.

(** From the geocoder's answer: the 404 response, or the center of the
    first candidate *)
Definition first_candidate (geoResult : value) : result (Response + Center) :=
  if negb (truthy geoResult)
     || strict_eq_zero (get_prop geoResult "length")
  then inr (inl (json_response 404 (error_body "Location not found")))
  else
    let first := get_prop geoResult "0" in
    geoLat <~ member first "lat" ;;
    geoLon <~ member first "lon" ;;
    display_name <~ member first "display_name" ;;
    inr (inr {| centerLat := parseFloat geoLat;
                centerLon := parseFloat geoLon;
                name := display_name |}).

(** The center of an explicit [lat]/[lon] pair *)
Definition explicit_center (lat lon : string) : Center :=
  let centerLat := parseFloat (VStr lat) in
  let centerLon := parseFloat (VStr lon) in
  {| centerLat := centerLat;
     centerLon := centerLon;
     name := VStr (toFixed centerLat 4 ++ degree_mark rev ++ ", "
                   ++ toFixed centerLon 4 ++ degree_mark rev) |}.

(** Coordinates from the query or from [lat]/[lon]: an early response,
    or the center *)
Definition resolve (q lat lon : option string) : io (Response + Center) :=
  match truthy_param q with
  | Some q =>
      geoRes <- await (Fetch (geoUrl q) [("User-Agent", "TerrainExplorer/1.0")]) ;;
      lift (geoResult <~ read_geocode geoRes ;; first_candidate geoResult)
  | None =>
      match truthy_param lat, truthy_param lon with
      | Some lat, Some lon => Ret (inr (explicit_center lat lon))
      | _, _ =>
          Ret (inl (json_response 400
                      (error_body "Provide ?q=location or ?lat=X&lon=Y")))
      end
  end.

Definition cacheKey (c : Center) (size : float) (grid : Z) : string :=
  "terrain:" ++ toFixed (centerLat c) 4 ++ ":" ++ toFixed (centerLon c) 4
  ++ ":" ++ Number_toString size ++ ":" ++ pretty grid.

(** ** Grid of coordinates *)

Definition kmPerDegLon (centerLat : float) : float :=
  (111 * Math_cos (centerLat * Math_PI / 180))%float.

Definition latOffset (size : float) (grid : Z) (i : nat) : float :=
  ((float_of_nat i / (float_of_Z grid - 1) - 0.5) * size / kmPerDegLat)%float.

Definition lonOffset (centerLat size : float) (grid : Z) (j : nat) : float :=
  ((float_of_nat j / (float_of_Z grid - 1) - 0.5) * size
   / kmPerDegLon centerLat)%float.

Definition location (c : Center) (size : float) (grid : Z) (i j : nat)
  : Location :=
  {| lat := toFixed (centerLat c + latOffset size grid i)%float 6;
     lon := toFixed (centerLon c + lonOffset (centerLat c) size grid j)%float 6 |}.

(** The two nested [for] loops pushing on [locations] *)
Definition locations (c : Center) (size : float) (grid : Z) : list Location :=
  flat_map (fun i => List.map (fun j => location c size grid i j)
                              (seq 0 (Z.to_nat grid)))
           (seq 0 (Z.to_nat grid)).

(** ** Elevation fetch in batches *)

Definition locationsParam (batch : list Location) : string :=
  String.concat "|" (List.map (fun l => lat l ++ "," ++ lon l) batch).

Definition elevUrl (batch : list Location) : string :=
  "https://api.opentopodata.org/v1/srtm90m?locations=" ++ locationsParam batch.

(** [elevData.results.map(r => r.elevation)] *)
Definition results_elevations (results : value) : result (list value) :=
  match results with
  | VArr rs => mapM (fun r => member r "elevation") rs
  | _ => inl (TypeError "elevData.results.map is not a function")
  end.

(** What the handler does with the settled response of one batch *)
Definition read_batch (elevRes : HttpResponse) : result (list value) :=
  if negb (ok elevRes)
  then
    let errorText := text elevRes in
    inl (new_Error ("Elevation API failed: " ++ pretty (status elevRes)
                    ++ " - " ++ String.substring 0 200 errorText))
  else
    elevData <~ res_json elevRes ;;
    data_status <~ member elevData "status" ;;
    if negb (strict_eq_string data_status "OK")
       || negb (truthy (get_prop elevData "results"))
    then
      let reported := get_prop elevData "error" in
      inl (new_Error ("Elevation API error: "
                      ++ (if truthy reported then ToString reported
                          else "Unknown error")))
    else results_elevations (get_prop elevData "results").

(** One batch: the call and the reading of its response *)
Definition batch_call (batch : list Location) : io (list value) :=
  elevRes <- await (Fetch (elevUrl batch) []) ;;
  lift (read_batch elevRes).

Definition totalBatches (n : nat) : nat :=
  Nat.div (n + BATCH_SIZE - 1) BATCH_SIZE.

(** The loop [for (let i = 0; i < locations.length; i += BATCH_SIZE)],
    entered at index [i] with [allElevations] so far.  [fuel] bounds the
    iterations left. *)
Fixpoint batch_loop (fuel : nat) (locations : list Location) (i : nat)
         (allElevations : list value) : io (list value) :=
  match fuel with
  | O => Ret allElevations
  | S fuel =>
      if (i <? List.length locations)%nat then
        let batch := slice locations i (i + BATCH_SIZE) in
        batchElevations <- batch_call batch ;;
        let allElevations := (allElevations ++ batchElevations)%list in
        (if (i + BATCH_SIZE <? List.length locations)%nat
         then await (SetTimeout (pacing_ms rev))
         else Ret tt) ;;;
        batch_loop fuel locations (i + BATCH_SIZE)%nat allElevations
      else Ret allElevations
  end.

Definition fetch_elevations (locations : list Location) : io (list value) :=
  batch_loop (totalBatches (List.length locations)) locations 0 [].

(** ** Statistics and the result record *)

(** [e !== null && !isNaN(e)] *)
Definition valid (e : value) : bool :=
  negb (strict_eq_null e) && negb (isNaN e).

Definition validElevations (elevations : list value) : list value :=
  List.filter valid elevations.

Definition aggregate (c : Center) (grid : Z) (elevations : list value)
  : result TerrainResult :=
  let validElevations := validElevations elevations in
  if (List.length validElevations =? 0)%nat
  then inl (new_Error "No valid elevation data for this location")
  else
    inr {| res_name := name c;
           res_center := (centerLat c, centerLon c);
           elevations := elevations;
           minElev := Math_min (List.map ToNumber validElevations);
           maxElev := Math_max (List.map ToNumber validElevations);
           res_grid := grid |}.

Definition result_value (r : TerrainResult) : value :=
  VObj [ ("name", res_name r);
         ("center", VArr [VNum (fst (res_center r)); VNum (snd (res_center r))]);
         ("elevations", VArr (elevations r));
         ("minElev", VNum (minElev r));
         ("maxElev", VNum (maxElev r));
         ("grid", VNum (float_of_Z (res_grid r))) ].

(** Grid, elevations and statistics for a resolved center *)
Definition compute (c : Center) (size : float) (grid : Z) : io TerrainResult :=
  elevations <- fetch_elevations (locations c size grid) ;;
  lift (aggregate c grid elevations).

(** [if (env.CACHE) { cached = await env.CACHE.get(..); if (cached) .. }]:
    the entry that answers the request, if any *)
Definition cache_lookup (env : Env) (key : string) : io (option value) :=
  if CACHE env then
    cached <- await (CacheGet key) ;;
    Ret (if truthy cached then Some cached else None)
  else Ret None.

Definition cache_store (env : Env) (key : string) (r : TerrainResult) : io unit :=
  if CACHE env
  then await (CachePut key (to_json (result_value r)) expirationTtl)
  else Ret tt.

(** The response of the [catch] clause *)
Definition error_response (error : Error) : Response :=
  json_response 500
    (VObj [ ("error", VStr (if String.eqb (message error) ""
                            then "Internal server error"
                            else message error));
            ("details", VStr (Error_toString error)) ]).

Definition on_error (error : Error) : io Response :=
  Ret (error_response error).

(** The response to a cache hit *)
Definition hit_response (cached : value) : Response :=
  json_response 200 (VObj (set_prop "cached" (VBool true) (spread cached))).

(** The [try] block, from coordinate resolution to the response *)
Definition pipeline (q lat lon : option string) (size : float) (grid : Z)
           (env : Env) : io Response :=
  resolved <- resolve q lat lon ;;
  match resolved with
  | inl response => Ret response
  | inr c =>
      if is_nan (centerLat c) || is_nan (centerLon c)
      then Ret (json_response 400 (error_body "Invalid coordinates"))
      else
        let cacheKey := cacheKey c size grid in
        hit <- cache_lookup env cacheKey ;;
        match hit with
        | Some cached => Ret (hit_response cached)
        | None =>
            result <- compute c size grid ;;
            cache_store env cacheKey result ;;;
            Ret (json_response 200 (result_value result))
        end
  end.

(** The terrain route: the handler past the preflight and debug
    branches.  The parameters are read before the [try]. *)
Definition terrain (request : Request) (env : Env) : io Response :=
  let q := searchParams_get "q" (searchParams request) in
  let lat := searchParams_get "lat" (searchParams request) in
  let lon := searchParams_get "lon" (searchParams request) in
  let size := size_of request in
  let grid := grid_of request in
  try_catch (pipeline q lat lon size grid env) on_error.

(** The admin route [/debug-sentry] of [worker.js] *)
Definition debug_sentry (request : Request) (env : Env) : io Response :=
  match truthy_param (ADMIN_API_KEY env) with
  | None =>
      Ret (json_response 503 (error_body "Admin endpoint not configured"))
  | Some adminKey =>
      let queryKey := searchParams_get "key" (searchParams request) in
      let providedKey :=
        match authorization request with
        | Some authHeader =>
            if startsWith authHeader "Bearer "
            then Some (string_slice_from 7 authHeader)
            else queryKey
        | None => queryKey
        end in
      match truthy_param providedKey with
      | Some provided =>
          if String.eqb provided adminKey then
            if strict_eq_string
                 (param (searchParams_get "error" (searchParams request))) "true"
            then Throw (new_Error "Test error from /debug-sentry endpoint")
            else
              Ret (json_response 200
                     (VObj [ ("success", VBool true);
                             ("message", VStr "Test message sent to Sentry. Check your Sentry dashboard.");
                             ("tip", VStr "Add ?error=true to test error capture") ]))
          else
            Ret (json_response 401
                   (VObj [ ("error", VStr "Unauthorized. Admin access required.");
                           ("hint", VStr "Provide API key via Authorization: Bearer <key> header or ?key=<key> parameter") ]))
      | None =>
          Ret (json_response 401
                 (VObj [ ("error", VStr "Unauthorized. Admin access required.");
                         ("hint", VStr "Provide API key via Authorization: Bearer <key> header or ?key=<key> parameter") ]))
      end
  end.

(** [async fetch(request, env)] *)
Definition fetch (request : Request) (env : Env) : io Response :=
  if String.eqb (method request) "OPTIONS"
  then Ret {| rstatus := 200; body := None; headers := corsHeaders |}
  else if debug_endpoint rev && String.eqb (pathname request) "/debug-sentry"
  then debug_sentry request env
  else terrain request env.

End Handler.

End Worker.

(* ================================================================== *)
(** * A reference runtime *)
(* ================================================================== *)

(** An executable instance of [Runtime], after ECMAScript's definitions
    of the built-ins, on strings of bytes.  [Math.cos] is
    implementation-approximated in ECMAScript; here it is a Taylor
    polynomial after range reduction. *)
Module Reference.
Import Js.

Definition code (a : ascii) : Z := Z.of_nat (nat_of_ascii a).

Definition is_space (a : ascii) : bool :=
  let c := code a in (c =? 32) || ((9 <=? c) && (c <=? 13)).

(** The value of a digit in the given radix *)
Definition digit_value (radix : Z) (a : ascii) : option Z :=
  let c := code a in
  let d := if (48 <=? c) && (c <=? 57) then c - 48
           else if (97 <=? c) && (c <=? 122) then c - 87
           else if (65 <=? c) && (c <=? 90) then c - 55
           else 99 in
  if d <? radix then Some d else None.

Fixpoint skip_spaces (s : string) : string :=
  match s with
  | String a s' => if is_space a then skip_spaces s' else s
  | EmptyString => s
  end.

(** The longest prefix of digits: their count, their value after [acc],
    and the rest *)
Fixpoint read_digits (radix : Z) (s : string) (count : nat) (acc : Z)
  : nat * Z * string :=
  match s with
  | String a s' =>
      match digit_value radix a with
      | Some d => read_digits radix s' (S count) (acc * radix + d)
      | None => (count, acc, s)
      end
  | EmptyString => (count, acc, s)
  end.

(** A leading sign: whether it is a minus, and the rest *)
Definition read_sign (s : string) : bool * string :=
  match s with
  | String "-" s' => (true, s')
  | String "+" s' => (false, s')
  | _ => (false, s)
  end.

Definition ref_parseInt (s : string) : option Z :=
  let '(neg, s1) := read_sign (skip_spaces s) in
  let '(radix, s2) :=
    match s1 with
    | String "0" (String "x" s') => (16, s')
    | String "0" (String "X" s') => (16, s')
    | _ => (10, s1)
    end in
  let '(count, n, _) := read_digits radix s2 0 0 in
  match count with
  | O => None
  | _ => Some (if neg then - n else n)
  end.

(** The binary64 value nearest to [m * 10 ^ e10] *)
Definition decimal_to_SF (neg : bool) (m : Z) (e10 : Z) : spec_float :=
  match m with
  | Z.pos p =>
      if 400 <? e10 then S754_infinity neg
      else if e10 <? -400 - Z.log2 m then S754_zero neg
      else if 0 <=? e10
      then binary_normalize prec emax (if neg then - (m * 10 ^ e10) else m * 10 ^ e10) 0 neg
      else SFdiv prec emax (S754_finite neg p 0)
                           (S754_finite false (Z.to_pos (10 ^ (- e10))) 0)
  | _ => S754_zero neg
  end.

Definition decimal_to_float (neg : bool) (m e10 : Z) : float :=
  SF2Prim (decimal_to_SF neg m e10).

(** An exponent part [e[+-]digits], when one follows *)
Definition read_exponent (s : string) : Z * string :=
  match s with
  | String a s' =>
      if Ascii.eqb a "e" || Ascii.eqb a "E" then
        let '(eneg, s1) := read_sign s' in
        let '(count, e, rest) := read_digits 10 s1 0 0 in
        match count with
        | O => (0, s)
        | _ => (if eneg then - e else e, rest)
        end
      else (0, s)
  | EmptyString => (0, s)
  end.

(** The longest prefix that is an unsigned decimal literal: its mantissa
    and exponent of ten, and the rest; [None] when there is none *)
Definition read_decimal (s : string) : option (Z * Z * string) :=
  let '(icount, ipart, s1) := read_digits 10 s 0 0 in
  let '(fcount, mant, s2) :=
    match s1 with
    | String "." s' =>
        let '(fcount, mant, rest) := read_digits 10 s' 0 ipart in
        match icount, fcount with
        | O, O => (O, ipart, s1)
        | _, _ => (fcount, mant, rest)
        end
    | _ => (O, ipart, s1)
    end in
  match icount, fcount with
  | O, O => None
  | _, _ =>
      let '(e, rest) := read_exponent s2 in
      Some (mant, e - Z.of_nat fcount, rest)
  end.

(** A signed decimal literal or [Infinity] at the head of [s] *)
Definition read_number (s : string) : option (float * string) :=
  let '(neg, s1) := read_sign s in
  if String.prefix "Infinity" s1
  then Some (if neg then neg_infinity else infinity,
             String.substring 8 (String.length s1 - 8) s1)
  else match read_decimal s1 with
       | Some (m, e10, rest) => Some (decimal_to_float neg m e10, rest)
       | None => None
       end.

Definition ref_parseFloat (s : string) : float :=
  match read_number (skip_spaces s) with
  | Some (x, _) => x
  | None => nan
  end.

Definition all_spaces (s : string) : bool :=
  String.eqb (skip_spaces s) "".

Definition radix_literal (radix : Z) (s : string) : float :=
  let '(count, n, rest) := read_digits radix s 0 0 in
  match count, rest with
  | S _, EmptyString => float_of_Z n
  | _, _ => nan
  end.

Definition trim_end (s : string) : string :=
  String.rev (skip_spaces (String.rev s)).

Definition ref_StringToNumber (s : string) : float :=
  match trim_end (skip_spaces s) with
  | EmptyString => 0%float
  | String "0" (String "x" s') | String "0" (String "X" s') => radix_literal 16 s'
  | String "0" (String "o" s') | String "0" (String "O" s') => radix_literal 8 s'
  | String "0" (String "b" s') | String "0" (String "B" s') => radix_literal 2 s'
  | s1 =>
      match read_number s1 with
      | Some (x, EmptyString) => x
      | _ => nan
      end
  end.

(** The magnitude of a finite number as a fraction, with its sign bit *)
Definition SF_to_ratio (f : spec_float) : option (bool * Z * Z) :=
  match f with
  | S754_zero s => Some (s, 0, 1)
  | S754_finite s m e =>
      if 0 <=? e then Some (s, Z.pos m * 2 ^ e, 1)
      else Some (s, Z.pos m, 2 ^ (- e))
  | _ => None
  end.

Fixpoint zeros (n : nat) : string :=
  match n with O => "" | S n' => String "0" (zeros n') end.

Fixpoint strip_zeros_rev (s : string) : string :=
  match s with
  | String "0" s' => strip_zeros_rev s'
  | _ => s
  end.

(** The digits of [s * 10 ^ e10] without trailing zeros, and the
    position [n] of the decimal point after the first [n] digits *)
Definition digits_and_point (s e10 : Z) : string * Z :=
  let all := pretty s in
  (String.rev (strip_zeros_rev (String.rev all)),
   Z.of_nat (String.length all) + e10).

(** ECMAScript's Number::toString layout of digits [D] with point
    position [n] *)
Definition layout (D : string) (n : Z) : string :=
  let k := Z.of_nat (String.length D) in
  if (k <=? n) && (n <=? 21) then D ++ zeros (Z.to_nat (n - k))
  else if (0 <? n) && (n <=? 21)
  then String.substring 0 (Z.to_nat n) D ++ "."
       ++ String.substring (Z.to_nat n) (Z.to_nat (k - n)) D
  else if (-6 <? n) && (n <=? 0) then "0." ++ zeros (Z.to_nat (- n)) ++ D
  else
    let e := n - 1 in
    let exponent := (if e <? 0 then "e-" else "e+") ++ pretty (Z.abs e) in
    if k =? 1 then D ++ exponent
    else String.substring 0 1 D ++ "."
         ++ String.substring 1 (Z.to_nat (k - 1)) D ++ exponent.

(** The shortest decimal that reads back as [x], for [x = num / den > 0]:
    significands of [k] digits are tried for growing [k], the nearer of
    the two neighbours first *)
Fixpoint shortest (fuel : nat) (k : Z) (x : float) (num den n : Z)
  : string * Z :=
  match fuel with
  | O => digits_and_point num 0
  | S fuel' =>
      let e10 := n - k in
      let '(a, b) := if 0 <=? - e10 then (num * 10 ^ (- e10), den)
                     else (num, den * 10 ^ e10) in
      let lo := a / b in
      let hi := lo + 1 in
      let '(c1, c2) := if 2 * (a mod b) <=? b then (lo, hi) else (hi, lo) in
      if PrimFloat.eqb (decimal_to_float false c1 e10) x
      then digits_and_point c1 e10
      else if PrimFloat.eqb (decimal_to_float false c2 e10) x
      then digits_and_point c2 e10
      else shortest fuel' (k + 1) x num den n
  end.

(** The [n] with [10 ^ (n - 1) <= num / den < 10 ^ n] *)
Definition point_position (num den : Z) : Z :=
  let count_digits (z : Z) := Z.of_nat (String.length (pretty z)) in
  if den <=? num then count_digits (num / den)
  else
    let j0 := count_digits (den / num) - 1 in
    if den <=? num * 10 ^ j0 then 1 - j0 else - j0.

Definition ref_Number_toString (x : float) : string :=
  match Prim2SF x with
  | S754_nan => "NaN"
  | S754_zero _ => "0"
  | S754_infinity s => if s then "-Infinity" else "Infinity"
  | S754_finite s m e =>
      match SF_to_ratio (S754_finite s m e) with
      | Some (_, num, den) =>
          let '(D, n) := shortest 17 1 (abs x) num den (point_position num den) in
          (if s then "-" else "") ++ layout D n
      | None => "NaN"
      end
  end.

Definition ref_toFixed (x : float) (d : nat) : string :=
  if is_nan x then "NaN"
  else if PrimFloat.leb 1e21 (abs x) then ref_Number_toString x
  else
    match SF_to_ratio (Prim2SF x) with
    | Some (_, num, den) =>
        let n := (2 * num * 10 ^ Z.of_nat d + den) / (2 * den) in
        let shown := pretty n in
        let digits := zeros (S d - String.length shown) ++ shown in
        let k := (String.length digits - d)%nat in
        (if PrimFloat.ltb x 0 then "-" else "")
        ++ String.substring 0 k digits
        ++ (match d with O => "" | _ => "." ++ String.substring k d digits end)
    | None => "NaN"
    end.

(** The integer nearest to a finite number, halves upwards in magnitude *)
Definition nearest_Z (x : float) : Z :=
  match SF_to_ratio (Prim2SF x) with
  | Some (s, num, den) =>
      let n := (2 * num + den) / (2 * den) in if s then - n else n
  | None => 0
  end.

Fixpoint cos_horner (terms : nat) (r2 acc : float) : float :=
  match terms with
  | O => acc
  | S t =>
      let d := float_of_nat ((2 * terms - 1) * (2 * terms)) in
      cos_horner t r2 (1 - r2 / d * acc)%float
  end.

Definition ref_cos (x : float) : float :=
  match Prim2SF x with
  | S754_nan | S754_infinity _ => nan
  | _ =>
      let two_pi := (2 * Math_PI)%float in
      let k := float_of_Z (nearest_Z (x / two_pi)%float) in
      let r := (x - k * two_pi)%float in
      cos_horner 14 (r * r)%float 1%float
  end.

Definition hex_digit (d : Z) : ascii :=
  ascii_of_nat (Z.to_nat (if d <? 10 then 48 + d else 55 + d)).

Definition unreserved (a : ascii) : bool :=
  let c := code a in
  ((48 <=? c) && (c <=? 57)) || ((65 <=? c) && (c <=? 90))
  || ((97 <=? c) && (c <=? 122))
  || List.existsb (Ascii.eqb a) (list_ascii_of_string "-_.!~*'()").

Fixpoint ref_encodeURIComponent (s : string) : string :=
  match s with
  | EmptyString => EmptyString
  | String a s' =>
      if unreserved a then String a (ref_encodeURIComponent s')
      else String "%" (String (hex_digit (code a / 16))
                         (String (hex_digit (code a mod 16))
                            (ref_encodeURIComponent s')))
  end.

#[export] Instance runtime : Runtime := {|
  parseFloat_string := ref_parseFloat;
  parseInt_string := ref_parseInt;
  StringToNumber := ref_StringToNumber;
  toFixed := ref_toFixed;
  Number_toString := ref_Number_toString;
  Math_cos := ref_cos;
  encodeURIComponent := ref_encodeURIComponent
|}.

End Reference.

(* ================================================================== *)
(** * The specification's vocabulary *)
(* ================================================================== *)

(** Definitions that follow the words of the specification, to be
    compared with the handler. *)
Module Spec.
Import Js Io Worker.

Section Spec.
Context {RT : Runtime} (rev : Revision).

(** Contiguous batches of at most [BATCH_SIZE] coordinates, in input
    order; [fuel] bounds their number. *)
Fixpoint batches_of (fuel : nat) (l : list Location) : list (list Location) :=
  match fuel, l with
  | S fuel', _ :: _ => take BATCH_SIZE l :: batches_of fuel' (drop BATCH_SIZE l)
  | _, _ => []
  end.

Definition contiguous_batches (l : list Location) : list (list Location) :=
  batches_of (List.length l) l.

(** What a batch call settles to for the fetcher: the rejection of the
    call, or the reading of its response *)
Definition settled_batch (reply : Error + HttpResponse) : result (list value) :=
  match reply with
  | inl e => inl e
  | inr res => read_batch res
  end.

(** One call per batch, one after the other from fetch number [n] on,
    a pacing delay between two consecutive calls, the outputs
    concatenated in batch order; the first failure ends the sequence. *)
Fixpoint sequential_calls (net : Network) (n : nat)
         (batches : list (list Location)) : result (list value) * list call :=
  match batches with
  | [] => (inr [], [])
  | b :: rest =>
      let reply := net n (elevUrl b) in
      match settled_batch reply with
      | inl e => (inl e, [CallFetch (elevUrl b) reply])
      | inr es =>
          let pause := match rest with
                       | [] => []
                       | _ :: _ => [CallSetTimeout (pacing_ms rev)]
                       end in
          let '(out, calls) := sequential_calls net (S n) rest in
          (match out with
           | inl e => inl e
           | inr es' => inr (es ++ es')%list
           end,
           CallFetch (elevUrl b) reply :: pause ++ calls)%list
      end
  end.

(** Every batch call, from fetch number [n] on, settles to elevations *)
Definition all_succeed (net : Network) (n : nat)
           (batches : list (list Location)) : Prop :=
  forall k b, batches !! k = Some b ->
    exists es, settled_batch (net (n + k)%nat (elevUrl b)) = inr es.

(** The call of each batch, and its output *)
Definition fetch_calls (net : Network) (n : nat)
           (batches : list (list Location)) : list call :=
  imap (fun k b => CallFetch (elevUrl b) (net (n + k)%nat (elevUrl b))) batches.

Definition batch_outputs (net : Network) (n : nat)
           (batches : list (list Location)) : list (list value) :=
  imap (fun k b => match settled_batch (net (n + k)%nat (elevUrl b)) with
                   | inr es => es
                   | inl _ => []
                   end) batches.

(** A pause between every two consecutive calls, none after the last *)
Fixpoint paced (pause : call) (calls : list call) : list call :=
  match calls with
  | [] => []
  | c :: rest =>
      match rest with
      | [] => [c]
      | _ :: _ => c :: pause :: paced pause rest
      end
  end.

Definition is_fetch (c : call) : bool :=
  match c with CallFetch _ _ => true | _ => false end.

Definition count_fetches (calls : list call) : nat :=
  List.length (List.filter is_fetch calls).

(** The state after further calls, none of them a cache write *)
Definition advance (s : State) (calls : list call) : State :=
  mkState (kv s) (fetches s + count_fetches calls) (trace s ++ calls).

(** Coordinate resolution as a function of the world: the early
    response or the center, or the exception, and the calls made,
    when [n] fetches were issued before *)
Definition resolution (net : Network) (n : nat) (q lat lon : option string)
  : result (Response + Center) * list call :=
  match truthy_param q with
  | Some q =>
      let reply := net n (geoUrl q) in
      (match reply with
       | inl e => inl e
       | inr geoRes => rbind (read_geocode geoRes) first_candidate
       end, [CallFetch (geoUrl q) reply])
  | None =>
      (match truthy_param lat, truthy_param lon with
       | Some lat, Some lon => inr (inr (explicit_center rev lat lon))
       | _, _ =>
           inr (inl (json_response 400
                       (error_body "Provide ?q=location or ?lat=X&lon=Y")))
       end, [])
  end.

(** Grid, batches and statistics as a function of the world *)
Definition computation (net : Network) (n : nat) (c : Center)
           (size : float) (grid : Z) : result TerrainResult * list call :=
  let '(out, calls) :=
    sequential_calls net n (contiguous_batches (locations c size grid)) in
  (rbind out (aggregate c grid), calls).

(** The state after the cache write *)
Definition stored (s : State) (key : string) (r : TerrainResult) : State :=
  mkState (<[key := to_json (result_value r)]> (kv s)) (fetches s)
          (trace s ++ [CallCachePut key (to_json (result_value r)) expirationTtl]).

(** The terrain route as a function of the world: the response and
    the final state of a run started in [s] *)
Definition terrain_run (net : Network) (request : Request) (env : Env)
           (s : State) : Response * State :=
  let q := searchParams_get "q" (searchParams request) in
  let lat := searchParams_get "lat" (searchParams request) in
  let lon := searchParams_get "lon" (searchParams request) in
  let size := size_of request in
  let grid := grid_of request in
  let '(resolved, calls1) := resolution net (fetches s) q lat lon in
  let s1 := advance s calls1 in
  match resolved with
  | inl e => (error_response e, s1)
  | inr (inl response) => (response, s1)
  | inr (inr c) =>
      if is_nan (centerLat c) || is_nan (centerLon c)
      then (json_response 400 (error_body "Invalid coordinates"), s1)
      else
        let key := cacheKey c size grid in
        let cached := default VNull (kv s !! key) in
        let s2 := if CACHE env then advance s1 [CallCacheGet key cached] else s1 in
        if CACHE env && truthy cached then (hit_response cached, s2)
        else
          let '(computed, calls3) := computation net (fetches s2) c size grid in
          let s3 := advance s2 calls3 in
          match computed with
          | inl e => (error_response e, s3)
          | inr result =>
              (json_response 200 (result_value result),
               if CACHE env then stored s3 key result else s3)
          end
  end.

(** The parameters of a request, and coordinate resolution in a run
    started in [s] *)
Definition resolved_center (net : Network) (request : Request) (s : State)
  : result (Response + Center) :=
  fst (resolution net (fetches s)
         (searchParams_get "q" (searchParams request))
         (searchParams_get "lat" (searchParams request))
         (searchParams_get "lon" (searchParams request))).

Definition resolution_calls (net : Network) (request : Request) (s : State)
  : list call :=
  snd (resolution net (fetches s)
         (searchParams_get "q" (searchParams request))
         (searchParams_get "lat" (searchParams request))
         (searchParams_get "lon" (searchParams request))).

Definition request_key (request : Request) (c : Center) : string :=
  cacheKey c (size_of request) (grid_of request).

(** The run resolves the center [c], its coordinates are numbers, and
    the cache does not answer *)
Definition reaches_compute (net : Network) (request : Request) (env : Env)
           (s : State) (c : Center) : Prop :=
  resolved_center net request s = inr (inr c)
  /\ is_nan (centerLat c) || is_nan (centerLon c) = false
  /\ CACHE env && truthy (default VNull (kv s !! request_key request c)) = false.

(** The number of the first elevation fetch of the run *)
Definition first_batch_fetch (net : Network) (request : Request) (s : State) : nat :=
  (fetches s + count_fetches (resolution_calls net request s))%nat.

Definition request_batches (request : Request) (c : Center)
  : list (list Location) :=
  contiguous_batches (locations c (size_of request) (grid_of request)).

(** What the fetcher returns in that run, and the calls it makes *)
Definition fetched (net : Network) (request : Request) (s : State) (c : Center)
  : result (list value) :=
  fst (sequential_calls net (first_batch_fetch net request s)
                        (request_batches request c)).

Definition fetcher_calls (net : Network) (request : Request) (s : State)
           (c : Center) : list call :=
  snd (sequential_calls net (first_batch_fetch net request s)
                        (request_batches request c)).

(** Every batch response that can be read carries one result per
    requested coordinate *)
Definition batches_sized (net : Network) (request : Request) (s : State)
           (c : Center) : Prop :=
  forall k b, request_batches request c !! k = Some b ->
    forall es,
      settled_batch (net (first_batch_fetch net request s + k)%nat (elevUrl b))
      = inr es ->
      List.length es = List.length b.

(** The state of the run when the fetcher starts *)
Definition after_lookup (net : Network) (request : Request) (env : Env)
           (s : State) (c : Center) : State :=
  let s1 := advance s (resolution_calls net request s) in
  if CACHE env
  then advance s1 [CallCacheGet (request_key request c)
                                (default VNull (kv s !! request_key request c))]
  else s1.

(** The state of the run when the fetcher is done *)
Definition after_fetch (net : Network) (request : Request) (env : Env)
           (s : State) (c : Center) : State :=
  advance (after_lookup net request env s c) (fetcher_calls net request s c).

(** The [elevations] array of a response body *)
Definition body_elevations (response : Response) : list value :=
  match body response with
  | Some (VObj props) =>
      match lookup_prop "elevations" props with
      | Some (VArr es) => es
      | _ => []
      end
  | _ => []
  end.

(** What the fetcher refuses of the reply to a batch call: a call that
    is rejected, a status that is no success, a body that is not JSON, a
    [status] field other than ["OK"], [results] that are not truthy,
    truthy [results] that are no array, and an array with a [null] or
    [undefined] entry.  These are the checks of the handler, and it
    makes no other: neither the number of the entries nor what they are
    is looked at. *)
Definition refused_entry (r : value) : bool :=
  match r with VUndef | VNull => true | _ => false end.

Definition refused_body (elevData : value) : bool :=
  negb (strict_eq_string (get_prop elevData "status") "OK")
  || match get_prop elevData "results" with
     | VArr rs => existsb refused_entry rs
     | _ => true
     end.

Definition fetcher_refuses (reply : Error + HttpResponse) : bool :=
  match reply with
  | inl _ => true
  | inr res =>
      negb (ok res)
      || match json res with
         | None => true
         | Some elevData => refused_body elevData
         end
  end.

(** A batch response as the specification expects it, whatever the
    handler checks: a success whose body is an object with the status
    ["OK"] and, as [results], an array of objects that each carry an
    [elevation], a number or [null].  The number of entries is the
    matter of [batches_sized]. *)
Definition sample_entry (r : value) : bool :=
  match r with
  | VObj props =>
      match lookup_prop "elevation" props with
      | Some (VNum _) | Some VNull => true
      | _ => false
      end
  | _ => false
  end.

Definition well_formed_batch (res : HttpResponse) : bool :=
  ok res
  && match json res with
     | Some (VObj props) =>
         match lookup_prop "status" props, lookup_prop "results" props with
         | Some (VStr st), Some (VArr rs) =>
             String.eqb st "OK" && forallb sample_entry rs
         | _, _ => false
         end
     | _ => false
     end.

(** A malformed batch response: a success that is not well formed *)
Definition malformed_batch (res : HttpResponse) : bool :=
  ok res && negb (well_formed_batch res).

(** A geocoding answer as the specification expects it: an array of
    candidates, each an object with [lat], [lon] and [display_name],
    all strings *)
Definition candidate (c : value) : bool :=
  match c with
  | VObj props =>
      match lookup_prop "lat" props, lookup_prop "lon" props,
            lookup_prop "display_name" props with
      | Some (VStr _), Some (VStr _), Some (VStr _) => true
      | _, _, _ => false
      end
  | _ => false
  end.

Definition well_formed_candidates (geoResult : value) : bool :=
  match geoResult with
  | VArr cs => forallb candidate cs
  | _ => false
  end.

(** A malformed geocoding response: a success whose body is JSON but
    no array of candidates *)
Definition malformed_geocoding (geoRes : HttpResponse) : bool :=
  ok geoRes
  && match json geoRes with
     | Some geoResult => negb (well_formed_candidates geoResult)
     | None => false
     end.

(** A JSON value that is neither an array nor an object *)
Definition primitive (v : value) : bool :=
  match v with VArr _ | VObj _ => false | _ => true end.

(** A call to the elevation collaborator, to the geocoding collaborator *)
Definition is_elevation_call (c : call) : bool :=
  match c with
  | CallFetch url _ =>
      startsWith url "https://api.opentopodata.org/v1/srtm90m?locations="
  | _ => false
  end.

Definition is_geocoding_call (c : call) : bool :=
  match c with
  | CallFetch url _ =>
      startsWith url "https://nominatim.openstreetmap.org/search?format=json&q="
  | _ => false
  end.

Definition is_pause (c : call) : bool :=
  match c with CallSetTimeout _ => true | _ => false end.

Definition is_cache_write (c : call) : bool :=
  match c with CallCachePut _ _ _ => true | _ => false end.

(** Numbers, none of them NaN *)
Definition all_numbers (l : list float) : Prop :=
  Forall (fun x => is_nan x = false) l.

(** An elevation sample of the data model: a number, or the absent
    sentinel.  What an upstream answer carries as an elevation need not
    be one. *)
Definition is_sample (e : value) : bool :=
  match e with VNum _ | VNull | VUndef => true | _ => false end.

(** A sample that is numeric and defined *)
Definition numeric_and_defined (e : value) : bool :=
  match e with VNum n => negb (is_nan n) | _ => false end.

(** The number that a primitive stands for in the statistics of the
    handler, if it has a part in them: a number that is not NaN stands
    for itself, [true] for 1 and [false] for 0, and a string for the
    number it reads as, which is 0 for the empty string; [null] and
    [undefined] have no part. *)
Definition counted_as (e : value) : option float :=
  match e with
  | VNum n => if is_nan n then None else Some n
  | VBool b => Some (if b then 1%float else 0%float)
  | VStr s => if is_nan (StringToNumber s) then None else Some (StringToNumber s)
  | _ => None
  end.

(** The response carries the [cached] flag *)
Definition served_from_cache (response : Response) : bool :=
  match body response with
  | Some (VObj props) =>
      match lookup_prop "cached" props with
      | Some (VBool true) => true
      | _ => false
      end
  | _ => false
  end.

(** The request without its [lat] and [lon] parameters *)
Definition without_coordinates (request : Request) : Request :=
  {| method := method request;
     pathname := pathname request;
     searchParams :=
       List.filter (fun kv => negb (String.eqb (fst kv) "lat")
                              && negb (String.eqb (fst kv) "lon"))
                   (searchParams request);
     authorization := authorization request |}.

End Spec.
End Spec.

(* ================================================================== *)
(** * Concrete runs *)
(* ================================================================== *)

Module Examples.
Import Js Io Worker Spec Reference.

Definition env_cached : Env := {| CACHE := true; ADMIN_API_KEY := None |}.

Definition get (params : list (string * string)) : Request :=
  {| method := "GET"; pathname := "/"; searchParams := params;
     authorization := None |}.

Definition center0 : Center :=
  {| centerLat := 36.5%float; centerLon := (-112.25)%float;
     name := VStr "Grand Canyon" |}.

Definition elevation_entry (x : Z) : value :=
  VObj [("elevation", VNum (float_of_Z x))].

(** An upstream response with [n] results, of elevations 1 .. n *)
Definition ok_results (n : nat) : HttpResponse :=
  {| ok := true; status := 200; text := "";
     json := Some (VObj [ ("results",
                           VArr (List.map (fun i => elevation_entry (Z.of_nat (S i)))
                                          (seq 0 n)));
                          ("status", VStr "OK") ]) |}.

(** A request with explicit coordinates and a grid of two by two *)
Definition request_small : Request :=
  get [("lat", "36.5"); ("lon", "-112.25"); ("size", "20"); ("grid", "2")].

Definition center_small : Center :=
  {| centerLat := 36.5%float; centerLon := (-112.25)%float;
     name := VStr "36.5000, -112.2500" |}.


(** A network that answers every fetch with four results *)
Definition net_four : Network := fun _ _ => inr (ok_results 4).

(** A network whose elevation collaborator knows no elevation *)
Definition net_nulls : Network := fun _ _ =>
  inr {| ok := true; status := 200; text := "";
         json := Some (VObj [ ("results",
                               VArr (List.map (fun _ => VObj [("elevation", VNull)])
                                              (seq 0 4)));
                              ("status", VStr "OK") ]) |}.

(** A network that refuses every fetch *)
Definition too_many_requests : HttpResponse :=
  {| ok := false; status := 429; text := "Too Many Requests"; json := None |}.

Definition net_refusing : Network := fun _ _ => inr too_many_requests.

(** A geocoder that finds nothing *)
Definition net_nowhere : Network := fun _ _ =>
  inr {| ok := true; status := 200; text := "[]"; json := Some (VArr []) |}.

Definition url_small : string :=
  "https://api.opentopodata.org/v1/srtm90m?locations=36.409910,-112.362072|36.409910,-112.137928|36.590090,-112.362072|36.590090,-112.137928".


Definition center_paris : Center :=
  {| centerLat := 48.5%float; centerLon := 2.25%float; name := VStr "Paris" |}.

(** A geocoder that knows one place, as the first fetch of a run *)
Definition paris : value :=
  VArr [VObj [ ("lat", VStr "48.5"); ("lon", VStr "2.25");
               ("display_name", VStr "Paris") ]].

Definition net_paris : Network := fun n _ =>
  match n with
  | O => inr {| ok := true; status := 200; text := ""; json := Some paris |}
  | S _ => inr (ok_results 1)
  end.

Definition store_paris : gmap string value :=
  {[ "terrain:48.5000:2.2500:10:40" := VObj [("name", VStr "Paris")] ]}.

(** A network that answers every fetch with a single result *)
Definition net_one : Network := fun _ _ => inr (ok_results 1).


(** A network that answers the first fetch with 100 results and
    refuses the following ones *)
Definition net_second_fails : Network := fun n _ =>
  match n with
  | O => inr (ok_results 100)
  | S _ => inr too_many_requests
  end.

(** A request with explicit coordinates and a grid of eleven by
    eleven: two batches *)
Definition request_eleven : Request :=
  get [("lat", "36.5"); ("lon", "-112.25"); ("size", "20"); ("grid", "11")].

(** An upstream response for four points, three of whose entries are
    no elevation records *)
Definition malformed_results : HttpResponse :=
  {| ok := true; status := 200; text := "";
     json := Some (VObj [ ("results",
                           VArr [ VObj [("elevation", VNum 5%float)];
                                  VNum 7%float; VStr "x"; VBool true ]);
                          ("status", VStr "OK") ]) |}.

Definition net_malformed : Network := fun _ _ => inr malformed_results.

(** An upstream response for four points whose elevations are no
    numbers *)
Definition coerced_samples : list value :=
  [VBool true; VStr "12"; VStr ""; VArr [VNum 40%float]].

Definition coerced_results : HttpResponse :=
  {| ok := true; status := 200; text := "";
     json := Some (VObj [ ("results",
                           VArr (List.map (fun e => VObj [("elevation", e)])
                                          coerced_samples));
                          ("status", VStr "OK") ]) |}.

Definition net_coerced : Network := fun _ _ => inr coerced_results.

(** A geocoding answer whose only candidate has no coordinates *)
Definition blank_candidate : HttpResponse :=
  {| ok := true; status := 200; text := "[{}]"; json := Some (VArr [VObj []]) |}.

Definition net_blank_candidate : Network := fun _ _ => inr blank_candidate.

(** A geocoding answer that is an object with a key [0], not an array *)
Definition keyed_candidate : HttpResponse :=
  {| ok := true; status := 200; text := "";
     json := Some (VObj [ ("0", VObj [ ("lat", VStr "36.5");
                                       ("lon", VStr "-112.25");
                                       ("display_name", VStr "Grand Canyon") ]) ]) |}.

(** A network with that geocoder, and four results to every later
    fetch *)
Definition net_keyed : Network := fun n _ =>
  match n with
  | O => inr keyed_candidate
  | S _ => inr (ok_results 4)
  end.

Definition request_canyon : Request :=
  get [("q", "canyon"); ("size", "20"); ("grid", "2")].

(** A request with a query and explicit coordinates *)
Definition request_both : Request :=
  get [("q", "Paris"); ("lat", "36.5"); ("lon", "-112.25")].
End Examples.

(* ================================================================== *)
(** * The first worker: one elevation call, no cache *)
(* ================================================================== *)

(** The oldest revision of the worker.  Parameters, coordinate
    resolution, the grid offsets, the statistics and the [catch] clause
    are those of the earlier batched worker; the grid is pushed on two
    arrays [lats] and [lons], and all points go to the elevation
    collaborator in one call.  The handler takes no [env]. *)
Module OpenMeteo.
Import Js Io Io.Notations Worker.

Section Handler.
Context {RT : Runtime}.

(** The two nested [for] loops pushing on [lats] and on [lons] *)
Definition lats (c : Center) (size : float) (grid : Z) : list string :=
  flat_map (fun i => List.map (fun j : nat =>
                                 toFixed (centerLat c + latOffset size grid i)%float 6)
                              (seq 0 (Z.to_nat grid)))
           (seq 0 (Z.to_nat grid)).

Definition lons (c : Center) (size : float) (grid : Z) : list string :=
  flat_map (fun i : nat =>
              List.map (fun j =>
                          toFixed (centerLon c
                                   + lonOffset (centerLat c) size grid j)%float 6)
                       (seq 0 (Z.to_nat grid)))
           (seq 0 (Z.to_nat grid)).

Definition elevUrl (c : Center) (size : float) (grid : Z) : string :=
  "https://api.open-meteo.com/v1/elevation?latitude="
  ++ String.concat "," (lats c size grid)
  ++ "&longitude=" ++ String.concat "," (lons c size grid).

(** What the handler does with the settled response of the elevation
    call, down to [const elevations = elevData.elevation] *)
Definition read_elevation (elevRes : HttpResponse) : result (list value) :=
  if negb (ok elevRes)
  then
    let errorText := text elevRes in
    inl (new_Error ("Elevation API failed: " ++ pretty (status elevRes)
                    ++ " - " ++ String.substring 0 200 errorText))
  else
    elevData <~ res_json elevRes ;;
    elevation <~ member elevData "elevation" ;;
    match elevation with
    | VArr elevations => inr elevations
    | _ => inl (new_Error "Invalid elevation data received")
    end.

(** The [try] block *)
Definition pipeline (q lat lon : option string) (size : float) (grid : Z)
  : io Response :=
  resolved <- resolve worker_earlier q lat lon ;;
  match resolved with
  | inl response => Ret response
  | inr c =>
      if is_nan (centerLat c) || is_nan (centerLon c)
      then Ret (json_response 400 (error_body "Invalid coordinates"))
      else
        elevRes <- await (Fetch (elevUrl c size grid) []) ;;
        elevations <- lift (read_elevation elevRes) ;;
        result <- lift (aggregate c grid elevations) ;;
        Ret (json_response 200 (result_value result))
  end.

(** [async fetch(request)] *)
Definition fetch (request : Request) : io Response :=
  if String.eqb (method request) "OPTIONS"
  then Ret {| rstatus := 200; body := None; headers := corsHeaders |}
  else
    let q := searchParams_get "q" (searchParams request) in
    let lat := searchParams_get "lat" (searchParams request) in
    let lon := searchParams_get "lon" (searchParams request) in
    let size := size_of request in
    let grid := grid_of request in
    try_catch (pipeline q lat lon size grid) on_error.

End Handler.
End OpenMeteo.

(* ================================================================== *)
(** * The earlier batched worker *)
(* ================================================================== *)

(** The earlier worker with cache and batches, as it is written: it
    pushes the elevations of a batch in a [for ... of] loop over
    [elevData.results], pauses 100 ms between batches, and has no debug
    route.  Parameters, coordinate resolution, the cache, the grid, the
    statistics and the [catch] clause are those of the handler at the
    revision [worker_earlier]. *)
Module Earlier.
Import Js Io Io.Notations Worker.

Section Handler.
Context {RT : Runtime}.

(** [for (const result of elevData.results)
       elevations.push(result.elevation)]: the elevations pushed, or the
    exception.  A string is iterated character by character, and a
    character has no [elevation]; what is neither an array nor a string
    is not iterable. *)
Definition results_elevations (results : value) : result (list value) :=
  match results with
  | VArr rs => mapM (fun r => member r "elevation") rs
  | VStr s => inr (List.map (fun _ => VUndef) (list_ascii_of_string s))
  | _ => inl (TypeError "elevData.results is not iterable")
  end.

Definition read_batch (elevRes : HttpResponse) : result (list value) :=
  if negb (ok elevRes)
  then
    let errorText := text elevRes in
    inl (new_Error ("Elevation API failed: " ++ pretty (status elevRes)
                    ++ " - " ++ String.substring 0 200 errorText))
  else
    elevData <~ res_json elevRes ;;
    data_status <~ member elevData "status" ;;
    if negb (strict_eq_string data_status "OK")
       || negb (truthy (get_prop elevData "results"))
    then
      let reported := get_prop elevData "error" in
      inl (new_Error ("Elevation API error: "
                      ++ (if truthy reported then ToString reported
                          else "Unknown error")))
    else results_elevations (get_prop elevData "results").

Definition batch_call (batch : list Location) : io (list value) :=
  elevRes <- await (Fetch (elevUrl batch) []) ;;
  lift (read_batch elevRes).

(** The loop [for (let i = 0; i < locations.length; i += BATCH_SIZE)],
    entered at index [i] with [elevations] so far; [fuel] bounds the
    iterations left. *)
Fixpoint batch_loop (fuel : nat) (locations : list Location) (i : nat)
         (elevations : list value) : io (list value) :=
  match fuel with
  | O => Ret elevations
  | S fuel =>
      if (i <? List.length locations)%nat then
        let batch := slice locations i (i + BATCH_SIZE) in
        pushed <- batch_call batch ;;
        let elevations := (elevations ++ pushed)%list in
        (if (i + BATCH_SIZE <? List.length locations)%nat
         then await (SetTimeout 100)
         else Ret tt) ;;;
        batch_loop fuel locations (i + BATCH_SIZE)%nat elevations
      else Ret elevations
  end.

(** The [try] block *)
Definition pipeline (q lat lon : option string) (size : float) (grid : Z)
           (env : Env) : io Response :=
  resolved <- resolve worker_earlier q lat lon ;;
  match resolved with
  | inl response => Ret response
  | inr c =>
      if is_nan (centerLat c) || is_nan (centerLon c)
      then Ret (json_response 400 (error_body "Invalid coordinates"))
      else
        let cacheKey := cacheKey c size grid in
        hit <- cache_lookup env cacheKey ;;
        match hit with
        | Some cached => Ret (hit_response cached)
        | None =>
            let locations := locations c size grid in
            elevations <- batch_loop (totalBatches (List.length locations))
                                     locations 0 [] ;;
            result <- lift (aggregate c grid elevations) ;;
            cache_store env cacheKey result ;;;
            Ret (json_response 200 (result_value result))
        end
  end.

(** [async fetch(request, env)] *)
Definition fetch (request : Request) (env : Env) : io Response :=
  if String.eqb (method request) "OPTIONS"
  then Ret {| rstatus := 200; body := None; headers := corsHeaders |}
  else
    let q := searchParams_get "q" (searchParams request) in
    let lat := searchParams_get "lat" (searchParams request) in
    let lon := searchParams_get "lon" (searchParams request) in
    let size := size_of request in
    let grid := grid_of request in
    try_catch (pipeline q lat lon size grid env) on_error.

End Handler.
End Earlier.

(* ================================================================== *)
(** * The telemetry filter *)
(* ================================================================== *)

Module Sentry.
Import Js.

(** What the options callback reads of the bindings *)
Record Bindings : Type := {
  SENTRY_DSN : value;
  CF_VERSION_METADATA : value;
  ENVIRONMENT : value
}.

Record Options : Type := {
  dsn : value;
  release : value;
  environment : value;
  sendDefaultPii : bool;
  tracesSampleRate : float
}.

(** [v?.k] *)
Definition optional (v : value) (k : string) : value :=
  match v with
  | VUndef | VNull => VUndef
  | _ => get_prop v k
  end.

(** [a || b] *)
Definition or_else (a b : value) : value := if truthy a then a else b.

(** The options but for [beforeSend]; [tracesSampleRate] is the number
    that [0.2] denotes *)
Definition options (env : Bindings) : Options :=
  let versionId := or_else (optional (CF_VERSION_METADATA env) "id") (VStr "unknown") in
  {| dsn := SENTRY_DSN env;
     release := versionId;
     environment := or_else (ENVIRONMENT env) (VStr "production");
     sendDefaultPii := true;
     tracesSampleRate := 0x1.999999999999ap-3%float |}.

(** [beforeSend(event, hint)] of the options that [worker.js] hands to
    the telemetry wrapper.  [originalException] is
    [hint?.originalException] when it is an exception value; the answer
    [None] is [null], the event dropped. *)
Definition beforeSend {Event : Type} (event : Event)
           (originalException : option Error) : option Event :=
  match originalException with
  | Some error =>
      if String.eqb (message error) "Location not found" then None
      else Some event
  | None => Some event
  end.

End Sentry.

(* ================================================================== *)
(** * Observations on a run *)
(* ================================================================== *)

Module Observations.
Import Js Io Worker Spec.

(** The calls that a run adds to the trace *)
Definition calls_of {A : Type} (net : Network) (m : io A) (s : State)
  : list call :=
  drop (List.length (trace s)) (trace (snd (run net m s))).

Definition is_cache_read (c : call) : bool :=
  match c with CallCacheGet _ _ => true | _ => false end.

(** A call to the elevation collaborator of the first worker *)
Definition is_open_meteo_call (c : call) : bool :=
  match c with
  | CallFetch url _ =>
      startsWith url "https://api.open-meteo.com/v1/elevation?latitude="
  | _ => false
  end.

(** Two numbers with the same representation *)
Definition SFsame (a b : spec_float) : bool :=
  match a, b with
  | S754_zero s1, S754_zero s2 => Bool.eqb s1 s2
  | S754_infinity s1, S754_infinity s2 => Bool.eqb s1 s2
  | S754_nan, S754_nan => true
  | S754_finite s1 m1 e1, S754_finite s2 m2 e2 =>
      Bool.eqb s1 s2 && Pos.eqb m1 m2 && Z.eqb e1 e2
  | _, _ => false
  end.

Definition same_float (x y : float) : bool := SFsame (Prim2SF x) (Prim2SF y).

(** The fraction [i / (grid - 1) - 0.5] of the offsets, at the first
    index and at the last *)
Definition first_fraction (grid : Z) : float :=
  (float_of_nat 0 / (float_of_Z grid - 1) - 0.5)%float.

Definition last_fraction (grid : Z) : float :=
  (float_of_nat (Z.to_nat grid - 1) / (float_of_Z grid - 1) - 0.5)%float.

Definition corners_exact (grid : Z) : bool :=
  same_float (first_fraction grid) (-0.5)%float
  && same_float (last_fraction grid) 0.5%float.

Definition count (p : call -> bool) (calls : list call) : nat :=
  List.length (List.filter p calls).

(** The [error] string of a response body *)
Definition error_of (response : Response) : option string :=
  match body response with
  | Some (VObj props) =>
      match lookup_prop "error" props with
      | Some (VStr msg) => Some msg
      | _ => None
      end
  | _ => None
  end.

(** The admin key is configured: bound, and not the empty string *)
Definition configured (env : Env) (adminKey : string) : Prop :=
  ADMIN_API_KEY env = Some adminKey /\ adminKey <> "".

(** The request presents the key [k]: as the token of a Bearer
    authorization header, or, when there is no such header, as the [key]
    parameter *)
Definition presents (request : Request) (k : string) : Prop :=
  match authorization request with
  | Some authHeader =>
      authHeader = "Bearer " ++ k
      \/ (startsWith authHeader "Bearer " = false
          /\ searchParams_get "key" (searchParams request) = Some k)
  | None => searchParams_get "key" (searchParams request) = Some k
  end.

(** A [results] that both workers read alike: an array, or a value
    that is not truthy *)
Definition array_or_falsy (results : value) : bool :=
  match results with
  | VArr _ => true
  | v => negb (truthy v)
  end.

(** Every answer of the network carries such [results] *)
Definition plain_results (net : Network) : Prop :=
  forall n url elevRes elevData,
    net n url = inr elevRes -> json elevRes = Some elevData ->
    array_or_falsy (get_prop elevData "results") = true.

(** The cache does not answer the key: no binding, no entry, or an
    entry that is not truthy *)
Definition misses (env : Env) (s : State) (key : string) : bool :=
  negb (CACHE env && truthy (default VNull (kv s !! key))).

(** The exceptions that the handlers' own [throw] statements create *)
Definition thrown_by_handler (e : Error) : Prop :=
  ename e = "Error"
  /\ ((exists status, message e = "Geocoding failed: " ++ status)
      \/ (exists status errorText,
            message e = "Elevation API failed: " ++ status ++ " - " ++ errorText
            /\ (String.length errorText <= 200)%nat)
      \/ (exists reported, message e = "Elevation API error: " ++ reported)
      \/ message e = "No valid elevation data for this location"
      \/ message e = "Invalid elevation data received"
      \/ message e = "Test error from /debug-sentry endpoint").

(** The exceptions of the engine: a property read on [null] or
    [undefined], a call of what is no function, a body that is not JSON *)
Definition thrown_by_engine (e : Error) : Prop :=
  ename e = "TypeError" \/ ename e = "SyntaxError".

(** The rejection of a [fetch] of the run *)
Definition rejected_fetch (net : Network) (e : Error) : Prop :=
  exists n url, net n url = inl e.

(** The index of the first batch whose call does not settle to
    elevations, when the calls are issued from fetch number [n] on *)
Fixpoint first_failure {RT : Runtime} (net : Network) (n : nat)
         (batches : list (list Location)) : option nat :=
  match batches with
  | [] => None
  | b :: rest =>
      match settled_batch (net n (elevUrl b)) with
      | inl _ => Some 0%nat
      | inr _ => option_map S (first_failure net (S n) rest)
      end
  end.

(** The [try] block of the terrain route throws [e]: the exception that
    its [catch] clause receives and captures *)
Definition caught {RT : Runtime} (rev : Revision) (net : Network)
           (request : Request) (env : Env) (s : State) (e : Error) : Prop :=
  exists s',
    run net (pipeline rev (searchParams_get "q" (searchParams request))
                          (searchParams_get "lat" (searchParams request))
                          (searchParams_get "lon" (searchParams request))
                          (size_of request) (grid_of request) env) s
    = (inl e, s').

End Observations.

(* ================================================================== *)
(** * More concrete runs *)
(* ================================================================== *)

Module Scenarios.
Import Js Io Worker Spec Reference Examples.

Definition env_admin : Env := {| CACHE := true; ADMIN_API_KEY := Some "s3cret" |}.
Definition env_plain : Env := {| CACHE := false; ADMIN_API_KEY := None |}.

(** A request to the debug route *)
Definition debug (params : list (string * string)) (auth : option string)
  : Request :=
  {| method := "GET"; pathname := "/debug-sentry"; searchParams := params;
     authorization := auth |}.

Definition preflight (path : string) : Request :=
  {| method := "OPTIONS"; pathname := path; searchParams := [];
     authorization := None |}.

(** A request with a grid of minus three *)
Definition request_negative : Request :=
  get [("lat", "36.5"); ("lon", "-112.25"); ("size", "20"); ("grid", "-3")].

(** The elevation collaborator of the first worker, with four samples *)
Definition open_meteo_four : HttpResponse :=
  {| ok := true; status := 200; text := "";
     json := Some (VObj [("elevation",
                          VArr [VNum 1%float; VNum 2%float; VNull; VNum 4%float])]) |}.

Definition net_open_meteo : Network := fun _ _ => inr open_meteo_four.

(** An elevation answer whose [results] is a string *)
Definition results_as_text : HttpResponse :=
  {| ok := true; status := 200; text := "";
     json := Some (VObj [("results", VStr "n/a"); ("status", VStr "OK")]) |}.

(** A network whose every fetch is rejected *)
Definition net_down : Network := fun _ _ => inl (TypeError "fetch failed").

End Scenarios.

(* ================================================================== *)
(** * Lists and numbers *)
(* ================================================================== *)

Import Js Io Io.Notations Worker Spec Observations.
Local Open Scope list_scope.

Section ListFacts.
Context {A B : Type}.

Lemma flat_map_uniform_length (f : A -> list B) (n : nat) (l : list A) :
  (forall x, List.length (f x) = n) ->
  List.length (flat_map f l) = (List.length l * n)%nat.
Proof.
  intros Hf. induction l as [|x l IH]; simpl; [reflexivity|].
  rewrite List.length_app, Hf, IH. reflexivity.
Qed.

Lemma flat_map_uniform_lookup (f : A -> list B) (n : nat) (l : list A)
      (i j : nat) (x : A) :
  (forall x, List.length (f x) = n) ->
  l !! i = Some x -> (j < n)%nat ->
  flat_map f l !! (i * n + j)%nat = f x !! j.
Proof.
  intros Hf. revert i. induction l as [|y l IH]; intros i Hi Hj.
  - discriminate.
  - destruct i as [|i]; simpl in *.
    + injection Hi as ->. apply lookup_app_l. rewrite Hf; exact Hj.
    + rewrite lookup_app_r by (rewrite Hf; lia).
      rewrite Hf.
      replace (n + i * n + j - n)%nat with (i * n + j)%nat by lia.
      apply IH; assumption.
Qed.

Lemma lookup_map_seq (g : nat -> B) (n j : nat) :
  (j < n)%nat -> List.map g (seq 0 n) !! j = Some (g j).
Proof.
  intros Hj. change (List.map g (seq 0 n)) with (g <$> seq 0 n).
  rewrite list_lookup_fmap, lookup_seq_lt by exact Hj. reflexivity.
Qed.
End ListFacts.

(* ================================================================== *)
(** * Runs *)
(* ================================================================== *)

Section RunFacts.
Context (net : Network).

Lemma run_bind {A B} (m : io A) (f : A -> io B) (s : State) :
  run net (bind m f) s =
  match run net m s with
  | (inl e, s') => (inl e, s')
  | (inr a, s') => run net (f a) s'
  end.
Proof.
  revert s. induction m as [a|e|X ev k IH]; intros s; simpl; try reflexivity.
  destruct (perform net ev s) as [r s']. apply IH.
Qed.

Lemma run_try_catch {A} (m : io A) (h : Error -> io A) (s : State) :
  run net (try_catch m h) s =
  match run net m s with
  | (inl e, s') => run net (h e) s'
  | (inr a, s') => (inr a, s')
  end.
Proof.
  revert s. induction m as [a|e|X ev k IH]; intros s; simpl; try reflexivity.
  destruct (perform net ev s) as [r s']. apply IH.
Qed.

Lemma run_await {X} (ev : event X) (s : State) :
  run net (await ev) s = perform net ev s.
Proof.
  unfold await. simpl. destruct (perform net ev s) as [[e|x] s']; reflexivity.
Qed.

Lemma run_lift {A} (r : result A) (s : State) : run net (lift r) s = (r, s).
Proof. destruct r; reflexivity. Qed.

Lemma perform_trace {X} (ev : event X) (s : State) :
  exists c, trace (snd (perform net ev s)) = trace s ++ [c].
Proof. destruct ev; simpl; eexists; reflexivity. Qed.

(** A run only appends to the trace. *)
Lemma run_trace_extends {A} (m : io A) (s : State) :
  exists calls, trace (snd (run net m s)) = trace s ++ calls.
Proof.
  revert s. induction m as [a|e|X ev k IH]; intros s; simpl.
  - exists []. symmetry. apply app_nil_r.
  - exists []. symmetry. apply app_nil_r.
  - destruct (perform_trace ev s) as [c Hc].
    destruct (perform net ev s) as [r s1]. simpl in Hc.
    destruct (IH r s1) as [calls Hcalls].
    exists (c :: calls). rewrite Hcalls, Hc, <- app_assoc. reflexivity.
Qed.
End RunFacts.

Lemma searchParams_get_without (name : string) (ps : list (string * string)) :
  name <> "lat" -> name <> "lon" ->
  searchParams_get name
    (List.filter (fun kv => negb (String.eqb (fst kv) "lat")
                            && negb (String.eqb (fst kv) "lon")) ps)
  = searchParams_get name ps.
Proof.
  intros Hlat Hlon. induction ps as [|[k v] ps IH]; [reflexivity|].
  cbn [List.filter fst searchParams_get].
  destruct (String.eqb_spec k "lat") as [->|Hk1]; cbn [negb andb].
  - rewrite IH. destruct (String.eqb_spec "lat" name) as [E|_]; [congruence|reflexivity].
  - destruct (String.eqb_spec k "lon") as [->|Hk2]; cbn [negb andb].
    + rewrite IH. destruct (String.eqb_spec "lon" name) as [E|_]; [congruence|reflexivity].
    + cbn [searchParams_get]. rewrite IH. reflexivity.
Qed.

(* ================================================================== *)
(** * Request parameters and coordinate resolution *)
(* ================================================================== *)

(** C10.  The defaults are applied with a falsy-or fallback: an absent,
    non-numeric or zero [size] becomes 10, an absent, non-numeric or zero
    [grid] becomes 40, and every other parsed value is taken as it is,
    whatever its sign or magnitude. *)
Theorem parameter_defaults {RT : Runtime} (request : Request) :
  let sizeParam := searchParams_get "size" (searchParams request) in
  let gridParam := searchParams_get "grid" (searchParams request) in
  (sizeParam = None -> size_of request = 10%float) /\
  (forall s, sizeParam = Some s ->
     is_nan (parseFloat_string s) = true -> size_of request = 10%float) /\
  (forall s, sizeParam = Some s ->
     PrimFloat.eqb (parseFloat_string s) 0 = true -> size_of request = 10%float) /\
  (forall s, sizeParam = Some s ->
     is_nan (parseFloat_string s) = false ->
     PrimFloat.eqb (parseFloat_string s) 0 = false ->
     size_of request = parseFloat_string s) /\
  (gridParam = None -> grid_of request = 40) /\
  (forall s, gridParam = Some s ->
     parseInt_string s = None -> grid_of request = 40) /\
  (forall s, gridParam = Some s ->
     parseInt_string s = Some 0 -> grid_of request = 40) /\
  (forall s n, gridParam = Some s ->
     parseInt_string s = Some n -> n <> 0 -> grid_of request = n).
Proof.
  intros sizeParam gridParam. unfold size_of, grid_of.
  fold sizeParam gridParam.
  repeat split.
  - intros ->. reflexivity.
  - intros s -> Hnan. simpl. rewrite Hnan. reflexivity.
  - intros s -> Hz. simpl. rewrite Hz, orb_true_r. reflexivity.
  - intros s -> Hnan Hz. simpl. rewrite Hnan, Hz. reflexivity.
  - intros ->. reflexivity.
  - intros s -> Hp. simpl. rewrite Hp. reflexivity.
  - intros s -> Hp. simpl. rewrite Hp. reflexivity.
  - intros s n -> Hp Hn. simpl. rewrite Hp.
    destruct (Z.eqb_spec n 0); [contradiction|reflexivity].
Qed.

(* ================================================================== *)
(** * The grid generator *)
(* ================================================================== *)

Lemma locations_length {RT : Runtime} (c : Center) (size : float) (grid : Z) :
  List.length (locations c size grid) = (Z.to_nat grid * Z.to_nat grid)%nat.
Proof.
  unfold locations.
  rewrite (flat_map_uniform_length _ (Z.to_nat grid)).
  - rewrite length_seq. reflexivity.
  - intros i. rewrite length_map, length_seq. reflexivity.
Qed.

Lemma locations_lookup {RT : Runtime} (c : Center) (size : float) (grid : Z)
      (i j : nat) :
  (i < Z.to_nat grid)%nat -> (j < Z.to_nat grid)%nat ->
  locations c size grid !! (i * Z.to_nat grid + j)%nat
  = Some (location c size grid i j).
Proof.
  intros Hi Hj. unfold locations.
  rewrite (flat_map_uniform_lookup _ (Z.to_nat grid) _ i j i).
  - apply lookup_map_seq. exact Hj.
  - intros x. rewrite length_map, length_seq. reflexivity.
  - apply lookup_seq_lt. exact Hi.
  - exact Hj.
Qed.

(** C1.  For [grid >= 2] the generator yields [grid * grid] pairs in
    row-major order, row [i] outer and column [j] inner; the pair at
    [(i, j)] is the center plus the offsets
    [(i / (grid - 1) - 0.5) * size / 111] and
    [(j / (grid - 1) - 0.5) * size / (111 * cos (centerLat * PI / 180))],
    each coordinate printed with six decimals. *)
Theorem grid_generator_row_major {RT : Runtime} (c : Center) (size : float)
        (grid : Z) :
  2 <= grid ->
  List.length (locations c size grid) = Z.to_nat (grid * grid) /\
  forall i j : nat, (i < Z.to_nat grid)%nat -> (j < Z.to_nat grid)%nat ->
    locations c size grid !! (i * Z.to_nat grid + j)%nat
    = Some {| lat := toFixed
                       (centerLat c
                        + (float_of_nat i / (float_of_Z grid - 1) - 0.5)
                          * size / 111)%float 6;
              lon := toFixed
                       (centerLon c
                        + (float_of_nat j / (float_of_Z grid - 1) - 0.5)
                          * size
                          / (111 * Math_cos (centerLat c * Math_PI / 180)))%float 6 |}.
Proof.
  intros Hgrid. split.
  - rewrite locations_length. rewrite Z2Nat.inj_mul by lia. reflexivity.
  - intros i j Hi Hj. rewrite locations_lookup by assumption. reflexivity.
Qed.

(* ================================================================== *)
(** * The elevation fetcher *)
(* ================================================================== *)

Lemma advance_nil (s : State) : advance s [] = s.
Proof.
  destruct s as [m n t]. unfold advance, count_fetches. simpl.
  rewrite Nat.add_0_r, app_nil_r. reflexivity.
Qed.

Lemma advance_app (s : State) (c1 c2 : list call) :
  advance (advance s c1) c2 = advance s (c1 ++ c2).
Proof.
  unfold advance, count_fetches. simpl.
  rewrite List.filter_app, List.length_app, Nat.add_assoc, app_assoc. reflexivity.
Qed.

Lemma totalBatches_enough (n : nat) : (n <= totalBatches n * BATCH_SIZE)%nat.
Proof.
  unfold totalBatches, BATCH_SIZE.
  pose proof (Nat.div_mod_eq (n + 100 - 1) 100) as H.
  pose proof (Nat.mod_upper_bound (n + 100 - 1) 100). lia.
Qed.

Lemma totalBatches_step (n : nat) :
  (0 < n)%nat -> totalBatches n = S (totalBatches (n - BATCH_SIZE)).
Proof.
  intros Hn. unfold totalBatches, BATCH_SIZE.
  pose proof (Nat.div_mod_eq (n + 100 - 1) 100) as H1.
  pose proof (Nat.mod_upper_bound (n + 100 - 1) 100) as B1.
  pose proof (Nat.div_mod_eq (n - 100 + 100 - 1) 100) as H2.
  pose proof (Nat.mod_upper_bound (n - 100 + 100 - 1) 100) as B2.
  lia.
Qed.

Section Batches.
Context {RT : Runtime} (rev : Revision).

Lemma batches_of_fuel (fuel fuel' : nat) (l : list Location) :
  (List.length l <= fuel * BATCH_SIZE)%nat ->
  (List.length l <= fuel' * BATCH_SIZE)%nat ->
  batches_of fuel l = batches_of fuel' l.
Proof.
  revert fuel' l. induction fuel as [|fuel IH]; intros fuel' l H1 H2.
  - destruct l; [|simpl in H1; lia]. destruct fuel'; reflexivity.
  - destruct l as [|x l]; [destruct fuel'; reflexivity|].
    destruct fuel' as [|fuel']; [simpl in H2; lia|].
    cbn [batches_of]. f_equal.
    apply IH; rewrite length_drop; unfold BATCH_SIZE in *; lia.
Qed.

Lemma batches_of_concat (fuel : nat) (l : list Location) :
  (List.length l <= fuel * BATCH_SIZE)%nat ->
  concat (batches_of fuel l) = l.
Proof.
  revert l. induction fuel as [|fuel IH]; intros l H.
  - destruct l; [reflexivity|simpl in H; lia].
  - destruct l as [|x l]; [reflexivity|].
    cbn [batches_of concat]. rewrite IH.
    + apply take_drop.
    + rewrite length_drop. unfold BATCH_SIZE in *. lia.
Qed.



Lemma batches_of_length (fuel : nat) (l : list Location) :
  (List.length l <= fuel * BATCH_SIZE)%nat ->
  List.length (batches_of fuel l) = totalBatches (List.length l).
Proof.
  revert l. induction fuel as [|fuel IH]; intros l H.
  - destruct l; [reflexivity|simpl in H; lia].
  - destruct l as [|x l]; [reflexivity|].
    cbn [batches_of List.length]. rewrite IH
      by (rewrite length_drop; unfold BATCH_SIZE in *; simpl in *; lia).
    rewrite length_drop. symmetry. apply totalBatches_step.
    cbn [List.length]. lia.
Qed.

Lemma run_batch_call (net : Network) (batch : list Location) (s : State) :
  run net (batch_call batch) s
  = (settled_batch (net (fetches s) (elevUrl batch)),
     advance s [CallFetch (elevUrl batch) (net (fetches s) (elevUrl batch))]).
Proof.
  unfold batch_call. rewrite run_bind, run_await. cbn [perform].
  unfold advance, count_fetches. cbn [List.filter is_fetch List.length].
  rewrite Nat.add_1_r.
  destruct (net (fetches s) (elevUrl batch)) as [e|res]; cbn [settled_batch].
  - reflexivity.
  - apply run_lift.
Qed.

(** The loop entered at [i] performs the sequential schedule of the
    batches of what remains, given fuel for them. *)
Lemma run_batch_loop (net : Network) (fuel : nat) (locs : list Location) :
  forall (i : nat) (allElevations : list value) (s : State),
    (List.length (drop i locs) <= fuel * BATCH_SIZE)%nat ->
    run net (batch_loop rev fuel locs i allElevations) s
    = let '(out, calls) :=
        sequential_calls rev net (fetches s) (batches_of fuel (drop i locs)) in
      (match out with
       | inl e => inl e
       | inr es => inr (allElevations ++ es)
       end, advance s calls).
Proof.
  induction fuel as [|fuel IH]; intros i allElevations s Hfuel.
  - destruct (drop i locs); [|simpl in Hfuel; lia].
    cbn. rewrite advance_nil, app_nil_r. reflexivity.
  - cbn [batch_loop]. rewrite length_drop in Hfuel.
    destruct (Nat.ltb_spec i (List.length locs)) as [Hi|Hi].
    + destruct (drop i locs) as [|x rest] eqn:Hdrop.
      { apply (f_equal (@List.length _)) in Hdrop.
        rewrite length_drop in Hdrop. simpl in Hdrop. lia. }
      cbn [batches_of]. rewrite <- Hdrop.
      assert (Hslice : slice locs i (i + BATCH_SIZE) = take BATCH_SIZE (drop i locs)).
      { unfold slice. f_equal. lia. }
      rewrite Hslice. set (batch := take BATCH_SIZE (drop i locs)).
      rewrite run_bind, run_batch_call. cbn [sequential_calls].
      set (reply := net (fetches s) (elevUrl batch)).
      destruct (settled_batch reply) as [e|es]; [reflexivity|].
      rewrite drop_drop.
      assert (Hnext : (List.length (drop (i + BATCH_SIZE) locs)
                       <= fuel * BATCH_SIZE)%nat).
      { rewrite length_drop. unfold BATCH_SIZE in *. lia. }
      rewrite run_bind.
      destruct (Nat.ltb_spec (i + BATCH_SIZE) (List.length locs)) as [Hmore|Hlast].
      * rewrite run_await. cbn [perform].
        rewrite IH by exact Hnext.
        destruct (batches_of fuel (drop (i + BATCH_SIZE) locs)) as [|b bs] eqn:Hbs.
        { exfalso. destruct fuel as [|fuel'].
          - rewrite length_drop in Hnext. lia.
          - destruct (drop (i + BATCH_SIZE) locs) eqn:Hd; [|discriminate].
            apply (f_equal (@List.length _)) in Hd.
            rewrite length_drop in Hd. simpl in Hd. lia. }
        cbn [fetches log advance trace kv].
        match goal with
        | |- context [sequential_calls rev net ?n (b :: bs)] =>
            replace n with (S (fetches s))
              by (unfold count_fetches; simpl; lia)
        end.
        destruct (sequential_calls rev net (S (fetches s)) (b :: bs)) as [out calls].
        f_equal.
        -- destruct out as [e|es']; [reflexivity|]. rewrite app_assoc. reflexivity.
        -- unfold advance, count_fetches. cbn [kv fetches trace log].
           cbn [List.filter is_fetch List.length app].
           f_equal; [|rewrite <- !app_assoc; reflexivity].
           lia.
      * cbn [run]. rewrite IH by exact Hnext.
        assert (Hd : drop (i + BATCH_SIZE) locs = []).
        { apply drop_ge. lia. }
        rewrite Hd. destruct fuel; cbn [batches_of sequential_calls].
        -- rewrite !app_nil_r, advance_nil. reflexivity.
        -- rewrite !app_nil_r, advance_nil. reflexivity.
    + rewrite drop_ge by lia. cbn. rewrite advance_nil, app_nil_r. reflexivity.
Qed.

Lemma run_fetch_elevations (net : Network) (locs : list Location) (s : State) :
  run net (fetch_elevations rev locs) s
  = let '(out, calls) :=
      sequential_calls rev net (fetches s) (contiguous_batches locs) in
    (out, advance s calls).
Proof.
  unfold fetch_elevations, contiguous_batches.
  rewrite run_batch_loop by (rewrite drop_0; apply totalBatches_enough).
  rewrite drop_0.
  rewrite (batches_of_fuel _ (List.length locs) locs)
    by (try apply totalBatches_enough; unfold BATCH_SIZE; lia).
  destruct (sequential_calls rev net (fetches s) _) as [[e|es] calls]; reflexivity.
Qed.
End Batches.

Section Schedule.
Context {RT : Runtime} (rev : Revision) (net : Network).

Lemma fetch_calls_cons (n : nat) (b : list Location) (bs : list (list Location)) :
  fetch_calls net n (b :: bs)
  = CallFetch (elevUrl b) (net n (elevUrl b)) :: fetch_calls net (S n) bs.
Proof.
  unfold fetch_calls. cbn [imap]. rewrite Nat.add_0_r. f_equal.
  apply imap_ext. intros k x _. cbn. rewrite Nat.add_succ_r. reflexivity.
Qed.

Lemma batch_outputs_cons (n : nat) (b : list Location) (bs : list (list Location)) :
  batch_outputs net n (b :: bs)
  = match settled_batch (net n (elevUrl b)) with
    | inr es => es
    | inl _ => []
    end :: batch_outputs net (S n) bs.
Proof.
  unfold batch_outputs. cbn [imap]. rewrite Nat.add_0_r. f_equal.
  apply imap_ext. intros k x _. cbn. rewrite Nat.add_succ_r. reflexivity.
Qed.

Lemma all_succeed_cons (n : nat) (b : list Location) (bs : list (list Location)) :
  all_succeed net n (b :: bs) ->
  (exists es, settled_batch (net n (elevUrl b)) = inr es)
  /\ all_succeed net (S n) bs.
Proof.
  intros H. split.
  - specialize (H 0%nat b eq_refl). rewrite Nat.add_0_r in H. exact H.
  - intros k x Hk. specialize (H (S k) x Hk).
    rewrite Nat.add_succ_r in H. exact H.
Qed.





Lemma elevUrl_is_elevation_call (b : list Location) (reply : Error + HttpResponse) :
  is_elevation_call (CallFetch (elevUrl b) reply) = true.
Proof. reflexivity. Qed.

Lemma geoUrl_is_geocoding_call (q : string) (reply : Error + HttpResponse) :
  is_geocoding_call (CallFetch (geoUrl q) reply) = true
  /\ is_elevation_call (CallFetch (geoUrl q) reply) = false.
Proof. split; reflexivity. Qed.

Lemma fetch_calls_are_fetches (n : nat) (bs : list (list Location)) :
  forallb is_fetch (fetch_calls net n bs) = true
  /\ forallb is_elevation_call (fetch_calls net n bs) = true
  /\ forallb (fun c => negb (is_pause c)) (fetch_calls net n bs) = true
  /\ List.length (fetch_calls net n bs) = List.length bs.
Proof.
  revert n. induction bs as [|b bs IH]; intros n; [repeat split|].
  rewrite fetch_calls_cons. destruct (IH (S n)) as (H1 & H2 & H3 & H4).
  cbn [forallb List.length is_fetch is_pause negb andb].
  rewrite H1, H2, H3, H4, elevUrl_is_elevation_call. repeat split.
Qed.
End Schedule.


(* ================================================================== *)
(** * The terrain route as a function of the world *)
(* ================================================================== *)

Section TerrainRun.
Context {RT : Runtime} (rev : Revision) (net : Network).

Lemma advance_quiet (s : State) (c : call) :
  is_fetch c = false -> advance s [c] = log c s.
Proof.
  intros Hc. unfold advance, log, count_fetches. cbn [List.filter].
  rewrite Hc. cbn [List.length]. rewrite Nat.add_0_r. reflexivity.
Qed.

Lemma run_resolve (q lat lon : option string) (s : State) :
  run net (resolve rev q lat lon) s
  = (fst (resolution rev net (fetches s) q lat lon),
     advance s (snd (resolution rev net (fetches s) q lat lon))).
Proof.
  unfold resolve, resolution.
  destruct (truthy_param q) as [qs|].
  - rewrite run_bind, run_await. cbn [perform fst snd].
    unfold advance, count_fetches. cbn [List.filter is_fetch List.length].
    rewrite Nat.add_1_r.
    destruct (net (fetches s) (geoUrl qs)) as [e|geoRes]; [reflexivity|].
    apply run_lift.
  - cbn [fst snd]. rewrite advance_nil.
    destruct (truthy_param lat), (truthy_param lon); reflexivity.
Qed.

Lemma run_compute (c : Center) (size : float) (grid : Z) (s : State) :
  run net (compute rev c size grid) s
  = (fst (computation rev net (fetches s) c size grid),
     advance s (snd (computation rev net (fetches s) c size grid))).
Proof.
  unfold compute, computation.
  rewrite run_bind, run_fetch_elevations.
  destruct (sequential_calls rev net (fetches s) _) as [[e|es] calls];
    cbn [fst snd rbind]; [reflexivity|].
  apply run_lift.
Qed.

Lemma run_cache_lookup (env : Env) (key : string) (s : State) :
  let cached := default VNull (kv s !! key) in
  run net (cache_lookup env key) s
  = (inr (if CACHE env && truthy cached then Some cached else None),
     if CACHE env then advance s [CallCacheGet key cached] else s).
Proof.
  intros cached. unfold cache_lookup.
  destruct (CACHE env); [|reflexivity].
  rewrite run_bind, run_await. cbn [perform andb].
  rewrite advance_quiet by reflexivity. reflexivity.
Qed.

Lemma run_cache_store (env : Env) (key : string) (r : TerrainResult) (s : State) :
  run net (cache_store env key r) s
  = (inr tt, if CACHE env then stored s key r else s).
Proof.
  unfold cache_store. destruct (CACHE env); [|reflexivity].
  rewrite run_await. reflexivity.
Qed.

(** Every run of the terrain route returns the response, and ends in
    the state, that [terrain_run] computes. *)
Lemma run_terrain (request : Request) (env : Env) (s : State) :
  run net (terrain rev request env) s
  = (inr (fst (terrain_run rev net request env s)),
     snd (terrain_run rev net request env s)).
Proof.
  unfold terrain, terrain_run, pipeline. cbv zeta.
  rewrite run_try_catch, run_bind, run_resolve.
  destruct (resolution rev net (fetches s) _ _ _) as [[e|[response|c]] calls1];
    cbn [fst snd]; try reflexivity.
  destruct (is_nan (centerLat c) || is_nan (centerLon c)); [reflexivity|].
  rewrite run_bind, run_cache_lookup. cbn [kv advance].
  set (cached := default VNull (kv s !! _)).
  destruct (CACHE env && truthy cached) eqn:Hhit; [reflexivity|].
  rewrite run_bind, run_compute.
  destruct (computation rev net _ c _ _) as [[e|result] calls3];
    cbn [fst snd]; [reflexivity|].
  rewrite run_bind, run_cache_store. reflexivity.
Qed.
End TerrainRun.

(** Past the preflight and the debug route, the handler is the terrain
    route. *)
Lemma fetch_terrain_route {RT : Runtime} (rev : Revision) (request : Request)
      (env : Env) :
  method request <> "OPTIONS" ->
  debug_endpoint rev = false \/ pathname request <> "/debug-sentry" ->
  fetch rev request env = terrain rev request env.
Proof.
  intros Hmethod Hroute. unfold fetch.
  destruct (String.eqb_spec (method request) "OPTIONS") as [E|_]; [contradiction|].
  destruct Hroute as [-> | Hpath]; [reflexivity|].
  destruct (String.eqb_spec (pathname request) "/debug-sentry") as [E|_];
    [contradiction|].
  rewrite andb_false_r. reflexivity.
Qed.

(* ================================================================== *)
(** * Order on numbers, [Math.min] and [Math.max] *)
(* ================================================================== *)

Ltac compare_cases :=
  repeat match goal with
  | H : context [(?a ?= ?b)%Z] |- _ => destruct (Z.compare_spec a b)
  | |- context [(?a ?= ?b)%Z] => destruct (Z.compare_spec a b)
  | H : context [PosDef.Pos.compare_cont Eq ?a ?b] |- _ =>
      change (PosDef.Pos.compare_cont Eq a b) with (Pos.compare a b) in *;
      destruct (Pos.compare_spec a b)
  | |- context [PosDef.Pos.compare_cont Eq ?a ?b] =>
      change (PosDef.Pos.compare_cont Eq a b) with (Pos.compare a b) in *;
      destruct (Pos.compare_spec a b)
  end.

Ltac by_compare :=
  simpl; try congruence; intros; compare_cases; simpl in *; subst;
  try congruence; try lia.

Lemma SFleb_trans (a b c : spec_float) :
  SFleb a b = true -> SFleb b c = true -> SFleb a c = true.
Proof.
  unfold SFleb, SFcompare.
  destruct a as [[]|[]| |[] m1 e1], b as [[]|[]| |[] m2 e2],
           c as [[]|[]| |[] m3 e3]; by_compare.
Qed.

Lemma SFleb_total (a b : spec_float) :
  a <> S754_nan -> b <> S754_nan -> SFltb a b = false -> SFleb b a = true.
Proof.
  unfold SFleb, SFltb, SFcompare.
  destruct a as [[]|[]| |[] m1 e1], b as [[]|[]| |[] m2 e2]; by_compare.
Qed.

Lemma SFleb_refl (a : spec_float) : a <> S754_nan -> SFleb a a = true.
Proof.
  unfold SFleb, SFcompare.
  destruct a as [[]|[]| |[] m1 e1]; by_compare.
Qed.

Lemma is_nan_spec (x : float) : is_nan x = true <-> Prim2SF x = S754_nan.
Proof.
  unfold is_nan. rewrite FloatAxioms.eqb_spec. unfold SFeqb, SFcompare.
  destruct (Prim2SF x) as [[]|[]| |[] m e]; simpl; split; try congruence;
    by_compare.
Qed.

Lemma not_nan_spec (x : float) : is_nan x = false <-> Prim2SF x <> S754_nan.
Proof.
  rewrite <- is_nan_spec. destruct (is_nan x); split; congruence.
Qed.

Section FloatOrder.
Implicit Types x y z : float.

Lemma float_leb_refl x : is_nan x = false -> PrimFloat.leb x x = true.
Proof. rewrite not_nan_spec, leb_spec. apply SFleb_refl. Qed.

Lemma float_leb_trans x y z :
  PrimFloat.leb x y = true -> PrimFloat.leb y z = true ->
  PrimFloat.leb x z = true.
Proof. rewrite !leb_spec. apply SFleb_trans. Qed.

Lemma float_ltb_leb x y : PrimFloat.ltb x y = true -> PrimFloat.leb x y = true.
Proof.
  rewrite ltb_spec, leb_spec. unfold SFltb, SFleb.
  destruct (SFcompare _ _) as [[]|]; congruence.
Qed.

Lemma float_leb_total x y :
  is_nan x = false -> is_nan y = false ->
  PrimFloat.ltb x y = false -> PrimFloat.leb y x = true.
Proof. rewrite !not_nan_spec, ltb_spec, leb_spec. apply SFleb_total. Qed.

Lemma neg_zero_spec x : is_neg_zero x = true -> Prim2SF x = S754_zero true.
Proof.
  unfold is_neg_zero. rewrite classify_spec.
  unfold SF64classify, SFclassify.
  destruct (Prim2SF x) as [[]|[]| |[] m e]; try discriminate; try reflexivity;
    destruct (Z.pos (digits2_pos m) =? prec); discriminate.
Qed.

Lemma pos_zero_spec x : is_pos_zero x = true -> Prim2SF x = S754_zero false.
Proof.
  unfold is_pos_zero. rewrite classify_spec.
  unfold SF64classify, SFclassify.
  destruct (Prim2SF x) as [[]|[]| |[] m e]; try discriminate; try reflexivity;
    destruct (Z.pos (digits2_pos m) =? prec); discriminate.
Qed.

(** The two zeros compare alike with every number. *)
Lemma zeros_leb_l x y z :
  Prim2SF x = S754_zero true -> Prim2SF y = S754_zero false ->
  PrimFloat.leb x z = PrimFloat.leb y z.
Proof.
  intros Hx Hy. rewrite !leb_spec, Hx, Hy.
  destruct (Prim2SF z) as [[]|[]| |[] m e]; reflexivity.
Qed.

Lemma zeros_leb_r x y z :
  Prim2SF x = S754_zero true -> Prim2SF y = S754_zero false ->
  PrimFloat.leb z x = PrimFloat.leb z y.
Proof.
  intros Hx Hy. rewrite !leb_spec, Hx, Hy.
  destruct (Prim2SF z) as [[]|[]| |[] m e]; reflexivity.
Qed.

Lemma leb_infinity_inv x :
  PrimFloat.leb infinity x = true -> x = infinity.
Proof.
  rewrite leb_spec. intros H. apply Prim2SF_inj.
  change (Prim2SF infinity) with (S754_infinity false) in *.
  destruct (Prim2SF x) as [[]|[]| |[] m e]; try discriminate. reflexivity.
Qed.

Lemma leb_neg_infinity_inv x :
  PrimFloat.leb x neg_infinity = true -> x = neg_infinity.
Proof.
  rewrite leb_spec. intros H. apply Prim2SF_inj.
  change (Prim2SF neg_infinity) with (S754_infinity true) in *.
  destruct (Prim2SF x) as [[]|[]| |[] m e]; try discriminate. reflexivity.
Qed.
End FloatOrder.

Section MinMax.
Lemma min_fold (l : list float) :
  all_numbers l ->
  forall (seen : list float) (lowest : float),
    is_nan lowest = false ->
    (forall x, In x seen -> PrimFloat.leb lowest x = true) ->
    (lowest = infinity \/ In lowest seen) ->
    exists m, fold_left min_step l (Some lowest) = Some m
              /\ is_nan m = false
              /\ (forall x, In x (seen ++ l) -> PrimFloat.leb m x = true)
              /\ (m = infinity \/ In m (seen ++ l)).
Proof.
  induction 1 as [|n l Hn Hl IH]; intros seen lowest Hnan Hle Hin.
  - exists lowest. rewrite app_nil_r. auto.
  - cbn [fold_left min_step]. rewrite Hn.
    replace (seen ++ n :: l) with ((seen ++ [n]) ++ l)
      by (rewrite <- app_assoc; reflexivity).
    destruct (is_neg_zero n && is_pos_zero lowest) eqn:Hz.
    + apply andb_true_iff in Hz. destruct Hz as [Hn0 Hl0].
      apply neg_zero_spec in Hn0. apply pos_zero_spec in Hl0.
      apply IH; [exact Hn| |right; apply in_or_app; right; left; reflexivity].
      intros x Hx. apply in_app_or in Hx. destruct Hx as [Hx|[<-|[]]].
      * rewrite (zeros_leb_l n lowest x Hn0 Hl0). apply Hle, Hx.
      * apply float_leb_refl, Hn.
    + destruct (PrimFloat.ltb n lowest) eqn:Hlt.
      * apply IH; [exact Hn| |right; apply in_or_app; right; left; reflexivity].
        intros x Hx. apply in_app_or in Hx. destruct Hx as [Hx|[<-|[]]].
        -- apply (float_leb_trans n lowest x);
             [apply float_ltb_leb, Hlt|apply Hle, Hx].
        -- apply float_leb_refl, Hn.
      * apply IH; [exact Hnan| |].
        -- intros x Hx. apply in_app_or in Hx. destruct Hx as [Hx|[<-|[]]].
           ++ apply Hle, Hx.
           ++ apply float_leb_total; assumption.
        -- destruct Hin as [Hin|Hin]; [left; exact Hin|].
           right. apply in_or_app. left. exact Hin.
Qed.

Lemma max_fold (l : list float) :
  all_numbers l ->
  forall (seen : list float) (highest : float),
    is_nan highest = false ->
    (forall x, In x seen -> PrimFloat.leb x highest = true) ->
    (highest = neg_infinity \/ In highest seen) ->
    exists m, fold_left max_step l (Some highest) = Some m
              /\ is_nan m = false
              /\ (forall x, In x (seen ++ l) -> PrimFloat.leb x m = true)
              /\ (m = neg_infinity \/ In m (seen ++ l)).
Proof.
  induction 1 as [|n l Hn Hl IH]; intros seen highest Hnan Hle Hin.
  - exists highest. rewrite app_nil_r. auto.
  - cbn [fold_left max_step]. rewrite Hn.
    replace (seen ++ n :: l) with ((seen ++ [n]) ++ l)
      by (rewrite <- app_assoc; reflexivity).
    destruct (is_pos_zero n && is_neg_zero highest) eqn:Hz.
    + apply andb_true_iff in Hz. destruct Hz as [Hn0 Hh0].
      apply pos_zero_spec in Hn0. apply neg_zero_spec in Hh0.
      apply IH; [exact Hn| |right; apply in_or_app; right; left; reflexivity].
      intros x Hx. apply in_app_or in Hx. destruct Hx as [Hx|[<-|[]]].
      * rewrite <- (zeros_leb_r highest n x Hh0 Hn0). apply Hle, Hx.
      * apply float_leb_refl, Hn.
    + destruct (PrimFloat.ltb highest n) eqn:Hlt.
      * apply IH; [exact Hn| |right; apply in_or_app; right; left; reflexivity].
        intros x Hx. apply in_app_or in Hx. destruct Hx as [Hx|[<-|[]]].
        -- apply (float_leb_trans x highest n);
             [apply Hle, Hx|apply float_ltb_leb, Hlt].
        -- apply float_leb_refl, Hn.
      * apply IH; [exact Hnan| |].
        -- intros x Hx. apply in_app_or in Hx. destruct Hx as [Hx|[<-|[]]].
           ++ apply Hle, Hx.
           ++ apply float_leb_total; assumption.
        -- destruct Hin as [Hin|Hin]; [left; exact Hin|].
           right. apply in_or_app. left. exact Hin.
Qed.

(** [Math.min] of numbers, none of them NaN: a lower bound of all, and
    one of them when there is one. *)
Lemma Math_min_spec (l : list float) :
  all_numbers l ->
  (forall x, In x l -> PrimFloat.leb (Math_min l) x = true)
  /\ (l <> [] -> In (Math_min l) l).
Proof.
  intros Hl. unfold Math_min.
  destruct (min_fold l Hl [] infinity eq_refl) as (m & -> & _ & Hle & Hin).
  - intros x [].
  - left. reflexivity.
  - cbn [app] in *. split; [exact Hle|].
    intros Hne. destruct Hin as [->|Hin]; [|exact Hin].
    destruct l as [|x l]; [contradiction|].
    left. apply leb_infinity_inv, Hle. left. reflexivity.
Qed.

Lemma Math_max_spec (l : list float) :
  all_numbers l ->
  (forall x, In x l -> PrimFloat.leb x (Math_max l) = true)
  /\ (l <> [] -> In (Math_max l) l).
Proof.
  intros Hl. unfold Math_max.
  destruct (max_fold l Hl [] neg_infinity eq_refl) as (m & -> & _ & Hle & Hin).
  - intros x [].
  - left. reflexivity.
  - cbn [app] in *. split; [exact Hle|].
    intros Hne. destruct Hin as [->|Hin]; [|exact Hin].
    destruct l as [|x l]; [contradiction|].
    left. apply leb_neg_infinity_inv, Hle. left. reflexivity.
Qed.
End MinMax.

(* ================================================================== *)
(** * JSON bodies *)
(* ================================================================== *)

Lemma to_json_object (props : list (string * value)) :
  to_json (VObj props) = VObj (json_props props).
Proof. reflexivity. Qed.

Lemma json_props_cons (k : string) (e : value) (props : list (string * value)) :
  json_props ((k, e) :: props)
  = match e with
    | VUndef => json_props props
    | _ => (k, to_json e) :: json_props props
    end.
Proof. destruct e; reflexivity. Qed.

Lemma cached_flag_set (props : list (string * value)) :
  lookup_prop "cached" (json_props (set_prop "cached" (VBool true) props))
  = Some (VBool true).
Proof.
  induction props as [|[k v] props IH]; [reflexivity|].
  cbn [set_prop]. destruct (String.eqb k "cached") eqn:Hk.
  - rewrite json_props_cons. cbn [lookup_prop]. rewrite Hk. reflexivity.
  - rewrite json_props_cons. destruct v; try exact IH;
      cbn [lookup_prop]; rewrite Hk; exact IH.
Qed.

Section Bodies.
Context {RT : Runtime} (rev : Revision).

Lemma hit_is_served_from_cache (cached : value) :
  served_from_cache (hit_response cached) = true
  /\ rstatus (hit_response cached) = 200.
Proof.
  unfold served_from_cache, hit_response, json_response. cbn [body rstatus].
  rewrite to_json_object, cached_flag_set. split; reflexivity.
Qed.

Lemma fresh_is_not_served_from_cache (r : TerrainResult) :
  served_from_cache (json_response 200 (result_value r)) = false.
Proof.
  unfold served_from_cache, json_response, result_value. cbn [body].
  destruct (res_name r); reflexivity.
Qed.

Lemma error_response_shape (e : Error) :
  rstatus (error_response e) = 500
  /\ exists msg details,
       body (error_response e)
       = Some (VObj [("error", VStr msg); ("details", VStr details)]).
Proof.
  split; [reflexivity|]. unfold error_response, json_response. cbn [body].
  eexists _, _. reflexivity.
Qed.

(** An early response of coordinate resolution is the 404 or the 400. *)
Lemma resolution_early (net : Network) (n : nat) (q lat lon : option string)
      (response : Response) :
  fst (resolution rev net n q lat lon) = inr (inl response) ->
  (response = json_response 404 (error_body "Location not found")
   /\ exists qs, truthy_param q = Some qs)
  \/ (response = json_response 400 (error_body "Provide ?q=location or ?lat=X&lon=Y")
      /\ truthy_param q = None).
Proof.
  unfold resolution. destruct (truthy_param q) as [qs|]; cbn [fst].
  - intros H. left. split; [|eauto].
    destruct (net n (geoUrl qs)) as [e|geoRes]; [discriminate|].
    unfold rbind in H. destruct (read_geocode geoRes) as [e|geoResult]; [discriminate|].
    unfold first_candidate in H.
    destruct (negb (truthy geoResult) || strict_eq_zero (get_prop geoResult "length")).
    + congruence.
    + unfold rbind in H.
      repeat match type of H with
             | match ?m with _ => _ end = _ => destruct m; try discriminate
             end.
  - intros H. right. split; [|reflexivity].
    destruct (truthy_param lat), (truthy_param lon); congruence.
Qed.
End Bodies.

(* ================================================================== *)
(** * The aggregator *)
(* ================================================================== *)

Section Aggregator.
Context {RT : Runtime}.

Lemma valid_sample (e : value) :
  is_sample e = true -> valid e = numeric_and_defined e.
Proof. destruct e; try discriminate; reflexivity. Qed.

Lemma validElevations_samples (es : list value) :
  Forall (fun e => is_sample e = true) es ->
  validElevations es = List.filter numeric_and_defined es.
Proof.
  unfold validElevations. induction 1 as [|e es He Hes IH]; [reflexivity|].
  cbn [List.filter]. rewrite IH, (valid_sample e He). reflexivity.
Qed.

Lemma valid_numbers (es : list value) :
  all_numbers (List.map ToNumber (validElevations es)).
Proof.
  unfold all_numbers, validElevations. apply List.Forall_forall. intros x Hx.
  apply in_map_iff in Hx. destruct Hx as (e & <- & He).
  apply filter_In in He. destruct He as [_ He].
  unfold valid, isNaN in He. apply andb_true_iff in He.
  destruct He as [_ He]. apply negb_true_iff in He. exact He.
Qed.

(** The aggregator fails exactly when no sample is valid; otherwise the
    samples are kept as they are and the statistics bound every valid
    sample and are attained. *)
Lemma aggregate_spec (c : Center) (grid : Z) (es : list value) :
  (validElevations es = [] ->
   aggregate c grid es = inl (new_Error "No valid elevation data for this location"))
  /\ (validElevations es <> [] ->
      exists r, aggregate c grid es = inr r
        /\ elevations r = es /\ res_grid r = grid
        /\ res_name r = name c /\ res_center r = (centerLat c, centerLon c)
        /\ (forall x, In x es -> valid x = true ->
              PrimFloat.leb (minElev r) (ToNumber x) = true
              /\ PrimFloat.leb (ToNumber x) (maxElev r) = true)
        /\ (exists x, In x es /\ valid x = true /\ minElev r = ToNumber x)
        /\ (exists x, In x es /\ valid x = true /\ maxElev r = ToNumber x)).
Proof.
  unfold aggregate. split.
  - intros ->. reflexivity.
  - intros Hne. destruct (validElevations es) as [|v vs] eqn:Hv; [contradiction|].
    cbn [List.length Nat.eqb]. eexists. split; [reflexivity|].
    cbn [elevations res_grid res_name res_center minElev maxElev].
    repeat (split; [reflexivity|]).
    pose proof (valid_numbers es) as Hnum. rewrite Hv in Hnum.
    destruct (Math_min_spec _ Hnum) as [Hmin Hmin_in].
    destruct (Math_max_spec _ Hnum) as [Hmax Hmax_in].
    assert (Hmem : forall x, In x es -> valid x = true -> In (ToNumber x) (List.map ToNumber (v :: vs))).
    { intros x Hx Hvalid. apply in_map. rewrite <- Hv. apply filter_In. auto. }
    assert (Hback : forall n, In n (List.map ToNumber (v :: vs)) ->
                      exists x, In x es /\ valid x = true /\ n = ToNumber x).
    { intros n Hn. apply in_map_iff in Hn. destruct Hn as (x & <- & Hx).
      rewrite <- Hv in Hx. apply filter_In in Hx. destruct Hx. eauto. }
    split; [|split].
    + intros x Hx Hvalid. split; [apply Hmin|apply Hmax]; apply Hmem; assumption.
    + apply Hback, Hmin_in. discriminate.
    + apply Hback, Hmax_in. discriminate.
Qed.
End Aggregator.

(* ================================================================== *)
(** * Runs that reach the fetcher *)
(* ================================================================== *)

Section TerrainCases.
Context {RT : Runtime} (rev : Revision) (net : Network).

Lemma after_lookup_fetches (request : Request) (env : Env) (s : State) (c : Center) :
  fetches (after_lookup rev net request env s c) = first_batch_fetch rev net request s
  /\ kv (after_lookup rev net request env s c) = kv s.
Proof.
  unfold after_lookup, first_batch_fetch. destruct (CACHE env); cbn; split;
    try reflexivity.
  unfold count_fetches. cbn. lia.
Qed.

(** A run that reaches the fetcher answers with the aggregated result,
    or with the error of the fetcher or of the aggregator. *)
Lemma terrain_run_reaches (request : Request) (env : Env) (s : State) (c : Center) :
  reaches_compute rev net request env s c ->
  terrain_run rev net request env s
  = match rbind (fetched rev net request s c) (aggregate c (grid_of request)) with
    | inl e => (error_response e, after_fetch rev net request env s c)
    | inr r =>
        (json_response 200 (result_value r),
         if CACHE env
         then stored (after_fetch rev net request env s c) (request_key request c) r
         else after_fetch rev net request env s c)
    end.
Proof.
  intros (Hc & Hnan & Hmiss).
  pose proof (after_lookup_fetches request env s c) as [Hf _].
  unfold terrain_run, after_fetch, fetched, fetcher_calls, computation.
  unfold resolved_center in Hc. unfold after_lookup, resolution_calls in *.
  unfold request_key, request_batches in *.
  destruct (resolution rev net (fetches s) _ _ _) as [resolved calls1].
  cbn [fst snd] in *. subst resolved. rewrite Hnan, Hmiss.
  rewrite Hf.
  destruct (sequential_calls rev net _ _) as [[e|es] calls3]; cbn [fst snd rbind];
    [reflexivity|].
  destruct (aggregate c (grid_of request) es); reflexivity.
Qed.

(** A 200 response without the [cached] flag comes from a run that
    reached the fetcher and aggregated its elevations. *)
Lemma terrain_run_fresh_inv (request : Request) (env : Env) (s : State) :
  let response := fst (terrain_run rev net request env s) in
  rstatus response = 200 -> served_from_cache response = false ->
  exists c r,
    reaches_compute rev net request env s c
    /\ rbind (fetched rev net request s c) (aggregate c (grid_of request)) = inr r
    /\ response = json_response 200 (result_value r).
Proof.
  intros response Hstatus Hfresh. subst response.
  destruct (resolved_center rev net request s) as [e|[early|c]] eqn:Hres.
  - exfalso. unfold terrain_run, resolved_center in *.
    destruct (resolution rev net (fetches s) _ _ _) as [resolved calls1].
    cbn [fst] in Hres. subst resolved. discriminate.
  - exfalso. pose proof Hres as Hearly. apply resolution_early in Hearly.
    unfold terrain_run, resolved_center in *.
    destruct (resolution rev net (fetches s) _ _ _) as [resolved calls1].
    cbn [fst] in Hres. subst resolved. cbn [fst] in Hstatus.
    destruct Hearly as [[-> _]|[-> _]]; discriminate.
  - destruct (is_nan (centerLat c) || is_nan (centerLon c)) eqn:Hnan.
    { exfalso. unfold terrain_run, resolved_center in *.
      destruct (resolution rev net (fetches s) _ _ _) as [resolved calls1].
      cbn [fst] in Hres. subst resolved. rewrite Hnan in Hstatus. discriminate. }
    destruct (CACHE env && truthy (default VNull (kv s !! request_key request c)))
      eqn:Hhit.
    { exfalso. unfold terrain_run, resolved_center, request_key in *.
      destruct (resolution rev net (fetches s) _ _ _) as [resolved calls1].
      cbn [fst] in Hres. subst resolved. rewrite Hnan, Hhit in Hfresh.
      cbn [fst] in Hfresh.
      rewrite (proj1 (hit_is_served_from_cache _)) in Hfresh. discriminate. }
    assert (Hreach : reaches_compute rev net request env s c) by (repeat split; assumption).
    exists c. rewrite (terrain_run_reaches request env s c Hreach) in *.
    destruct (rbind (fetched rev net request s c) (aggregate c (grid_of request)))
      as [e|r]; [discriminate|].
    exists r. repeat split; assumption.
Qed.

Lemma sequential_calls_inr (bs : list (list Location)) :
  forall n es,
    fst (sequential_calls rev net n bs) = inr es ->
    all_succeed net n bs /\ es = concat (batch_outputs net n bs).
Proof.
  induction bs as [|b bs IH]; intros n es H.
  - cbn in H. injection H as <-. split; [|reflexivity]. intros k x Hk. discriminate.
  - cbn [sequential_calls] in H. rewrite batch_outputs_cons.
    destruct (settled_batch (net n (elevUrl b))) as [e|es1] eqn:Hb; [discriminate|].
    destruct (sequential_calls rev net (S n) bs) as [[e|es2] calls] eqn:Hrest;
      [discriminate|].
    cbn [fst] in H. injection H as <-.
    destruct (IH (S n) es2) as [Hall ->]; [rewrite Hrest; reflexivity|].
    split; [|reflexivity].
    intros [|k] x Hk.
    + injection Hk as <-. rewrite Nat.add_0_r. eauto.
    + rewrite Nat.add_succ_r. apply (Hall k x Hk).
Qed.

Lemma batch_outputs_length (bs : list (list Location)) :
  forall n,
    all_succeed net n bs ->
    (forall k b, bs !! k = Some b ->
       forall es, settled_batch (net (n + k)%nat (elevUrl b)) = inr es ->
                  List.length es = List.length b) ->
    List.length (concat (batch_outputs net n bs)) = List.length (concat bs).
Proof.
  induction bs as [|b bs IH]; intros n Hall Hsized; [reflexivity|].
  rewrite batch_outputs_cons. cbn [concat]. rewrite !List.length_app.
  apply all_succeed_cons in Hall. destruct Hall as [[es Hes] Hrest].
  rewrite Hes. f_equal.
  - apply (Hsized 0%nat b eq_refl). rewrite Nat.add_0_r. exact Hes.
  - apply IH; [exact Hrest|].
    intros k x Hk es' Hes'. apply (Hsized (S k) x Hk).
    rewrite Nat.add_succ_r. exact Hes'.
Qed.
End TerrainCases.

(** What the filter keeps of a primitive, and the number it then
    stands for. *)
Lemma valid_counted {RT : Runtime} (e : value) :
  primitive e = true ->
  (valid e = true <-> exists n, counted_as e = Some n)
  /\ (forall n, counted_as e = Some n -> ToNumber e = n).
Proof.
  destruct e as [| |b|n|str|elems|props]; intros Hp; try discriminate;
    unfold valid, isNaN; cbn [strict_eq_null negb andb ToNumber counted_as].
  - split; [split; [discriminate|intros [n H]; discriminate]|discriminate].
  - split; [split; [discriminate|intros [n H]; discriminate]|discriminate].
  - split.
    + split; [eauto|]. intros _. destruct b; reflexivity.
    + intros n H. injection H as <-. reflexivity.
  - destruct (is_nan n) eqn:Hn; cbn [negb].
    + split; [split; [discriminate|intros [m H]; discriminate]|discriminate].
    + split; [split; eauto|]. intros m H. injection H as <-. reflexivity.
  - destruct (is_nan (StringToNumber str)) eqn:Hn; cbn [negb].
    + split; [split; [discriminate|intros [m H]; discriminate]|discriminate].
    + split; [split; eauto|]. intros m H. injection H as <-. reflexivity.
Qed.

(** C6, as the handler has it.  Whenever the aggregator returns a
    result, the samples are in it as they came, sentinels and all, and
    [minElev] and [maxElev] are the least and the greatest of the
    numbers that the samples passing the filter [e !== null && !isNaN(e)]
    convert to.  Of the primitives these are the numbers that are not
    NaN, but also the booleans and the strings that read as a number,
    the empty string among them; over samples that are numbers or the
    absent sentinel they are exactly the numeric and defined ones.  Over
    primitives the aggregator throws the exception of its [throw]
    statement exactly when no sample passes the filter, and it returns a
    result otherwise, for the 1600 samples of a grid of 40 by 40 at
    least.  With no sample passing the filter there is no result,
    whatever the samples: the request that fetched them is answered 500
    and leaves the cache as it was. *)
Theorem aggregator_statistics {RT : Runtime} (rev : Revision) (c : Center)
        (grid : Z) (es : list value) :
  (forall r, aggregate c grid es = inr r ->
     elevations r = es
     /\ (forall x, In x es -> valid x = true ->
           PrimFloat.leb (minElev r) (ToNumber x) = true
           /\ PrimFloat.leb (ToNumber x) (maxElev r) = true)
     /\ (exists x, In x es /\ valid x = true /\ minElev r = ToNumber x)
     /\ (exists x, In x es /\ valid x = true /\ maxElev r = ToNumber x))
  /\ (forall e, primitive e = true ->
        (valid e = true <-> exists n, counted_as e = Some n)
        /\ (forall n, counted_as e = Some n -> ToNumber e = n))
  /\ (Forall (fun e => is_sample e = true) es ->
      validElevations es = List.filter numeric_and_defined es
      /\ forall r, aggregate c grid es = inr r ->
           (forall n, In (VNum n) es -> is_nan n = false ->
              PrimFloat.leb (minElev r) n = true
              /\ PrimFloat.leb n (maxElev r) = true)
           /\ (exists n, In (VNum n) es /\ is_nan n = false /\ minElev r = n)
           /\ (exists n, In (VNum n) es /\ is_nan n = false /\ maxElev r = n))
  /\ (Forall (fun e => primitive e = true) es ->
      (aggregate c grid es
       = inl (new_Error "No valid elevation data for this location")
       <-> validElevations es = [])
      /\ (validElevations es <> [] -> (List.length es <= 1600)%nat ->
          exists r, aggregate c grid es = inr r))
  /\ (validElevations es = [] ->
      (forall r, aggregate c grid es <> inr r)
      /\ forall net request env s,
           reaches_compute rev net request env s c ->
           grid = grid_of request ->
           fetched rev net request s c = inr es ->
           exists response s',
             run net (terrain rev request env) s = (inr response, s')
             /\ rstatus response = 500
             /\ body_elevations response = []
             /\ kv s' = kv s).
Proof.
  destruct (aggregate_spec c grid es) as [Hempty Hsome].
  assert (Hresult : forall r, aggregate c grid es = inr r ->
            validElevations es <> []
            /\ elevations r = es
            /\ (forall x, In x es -> valid x = true ->
                  PrimFloat.leb (minElev r) (ToNumber x) = true
                  /\ PrimFloat.leb (ToNumber x) (maxElev r) = true)
            /\ (exists x, In x es /\ valid x = true /\ minElev r = ToNumber x)
            /\ (exists x, In x es /\ valid x = true /\ maxElev r = ToNumber x)).
  { intros r Hr. destruct (validElevations es) as [|v vs] eqn:Hv.
    { rewrite Hempty in Hr by reflexivity. discriminate. }
    destruct Hsome as (r' & Hr' & Hes & _ & _ & _ & Hb & Hmin & Hmax);
      [discriminate|].
    assert (r' = r) by congruence. subst r'.
    split; [discriminate|]. split; [exact Hes|]. split; [exact Hb|].
    split; [exact Hmin|exact Hmax]. }
  split; [|split; [|split; [|split]]].
  - intros r Hr. destruct (Hresult r Hr) as (_ & H). exact H.
  - intros e He. apply valid_counted, He.
  - intros Hsamples. split; [apply validElevations_samples, Hsamples|].
    intros r Hr. destruct (Hresult r Hr) as (_ & _ & Hb & Hmin & Hmax).
    assert (Hnum : forall x, In x es -> valid x = true ->
                     exists n, x = VNum n /\ is_nan n = false).
    { intros x Hx Hv.
      assert (Hs : is_sample x = true).
      { rewrite List.Forall_forall in Hsamples. apply Hsamples, Hx. }
      rewrite (valid_sample x Hs) in Hv.
      destruct x; try discriminate. eexists. split; [reflexivity|].
      apply negb_true_iff in Hv. exact Hv. }
    split; [|split].
    + intros n Hn Hnan. apply (Hb (VNum n) Hn).
      unfold valid, isNaN. cbn. rewrite Hnan. reflexivity.
    + destruct Hmin as (x & Hx & Hv & Hm).
      destruct (Hnum x Hx Hv) as (n & -> & Hn). exists n. auto.
    + destruct Hmax as (x & Hx & Hv & Hm).
      destruct (Hnum x Hx Hv) as (n & -> & Hn). exists n. auto.
  - intros _. split; [split|].
    + intros Hthrown. destruct (validElevations es) as [|v vs] eqn:Hv; [reflexivity|].
      destruct Hsome as (r & Hr & _); [discriminate|].
      rewrite Hr in Hthrown. discriminate Hthrown.
    + exact Hempty.
    + intros Hne _. destruct (Hsome Hne) as (r & Hr & _). exists r. exact Hr.
  - intros Hnone. specialize (Hempty Hnone). split.
    + intros r Hr. rewrite Hempty in Hr. discriminate.
    + intros net request env s Hreach -> Hfetched.
      rewrite run_terrain, (terrain_run_reaches rev net request env s c Hreach).
      rewrite Hfetched. cbn [rbind]. rewrite Hempty. cbn [fst snd].
      eexists _, _. split; [reflexivity|]. repeat split.
      unfold after_fetch. cbn [advance kv].
      apply (after_lookup_fetches rev net request env s c).
Qed.

(** C3, as the handler has it.  A 200 response that is not served from
    the cache carries the result of a run that reached the fetcher: its
    [elevations] are what the fetcher returned, every valid sample lies
    between [minElev] and [maxElev], and the array has [grid * grid]
    entries whenever every batch response carried one result per
    requested coordinate. *)
Theorem successful_result_invariants {RT : Runtime} (rev : Revision)
        (net : Network) (request : Request) (env : Env) (s s' : State)
        (response : Response) :
  run net (terrain rev request env) s = (inr response, s') ->
  rstatus response = 200 ->
  served_from_cache response = false ->
  exists c r,
    reaches_compute rev net request env s c
    /\ response = json_response 200 (result_value r)
    /\ fetched rev net request s c = inr (elevations r)
    /\ res_grid r = grid_of request
    /\ (forall x, In x (elevations r) -> valid x = true ->
          PrimFloat.leb (minElev r) (ToNumber x) = true
          /\ PrimFloat.leb (ToNumber x) (maxElev r) = true)
    /\ (batches_sized rev net request s c ->
        List.length (elevations r)
        = Z.to_nat (grid_of request * grid_of request)).
Proof.
  rewrite run_terrain. intros Hrun Hstatus Hfresh.
  injection Hrun as Hresp Hs'. rewrite <- Hresp in Hstatus, Hfresh.
  destruct (terrain_run_fresh_inv rev net request env s Hstatus Hfresh)
    as (c & r & Hreach & Hagg & Hbody).
  exists c, r. split; [exact Hreach|]. split; [congruence|].
  destruct (fetched rev net request s c) as [e|es] eqn:Hfetched; [discriminate|].
  cbn [rbind] in Hagg.
  destruct (aggregate_spec c (grid_of request) es) as [Hempty Hsome].
  destruct (validElevations es) as [|v vs] eqn:Hv.
  { rewrite Hempty in Hagg by reflexivity. discriminate. }
  destruct Hsome as (r' & Hr' & Hes & Hgrid & _ & _ & Hb & _ & _); [discriminate|].
  assert (r' = r) by congruence. subst r'.
  split; [rewrite Hes; reflexivity|]. split; [exact Hgrid|]. split.
  - rewrite Hes. exact Hb.
  - intros Hsized. rewrite Hes. unfold fetched in Hfetched.
    apply sequential_calls_inr in Hfetched. destruct Hfetched as [Hall ->].
    rewrite (batch_outputs_length net _ _ Hall Hsized).
    unfold request_batches, contiguous_batches.
    rewrite batches_of_concat by (unfold BATCH_SIZE; lia).
    rewrite locations_length.
    destruct (Z.le_gt_cases 0 (grid_of request)) as [Hpos|Hneg].
    + rewrite Z2Nat.inj_mul by lia. reflexivity.
    + exfalso.
      assert (Hlen : List.length (concat (batch_outputs net
                       (first_batch_fetch rev net request s)
                       (request_batches request c))) = 0%nat).
      { rewrite (batch_outputs_length net _ _ Hall Hsized).
        unfold request_batches, contiguous_batches.
        rewrite batches_of_concat by (unfold BATCH_SIZE; lia).
        rewrite locations_length.
        replace (Z.to_nat (grid_of request)) with 0%nat by lia. reflexivity. }
      apply List.length_zero_iff_nil in Hlen. rewrite Hlen in Hv. discriminate.
Qed.

(* ================================================================== *)
(** * The shapes of a run *)
(* ================================================================== *)

Section Shapes.
Context {RT : Runtime} (rev : Revision) (net : Network).

(** A run of the terrain route ends in one of five ways. *)
Lemma terrain_run_cases (request : Request) (env : Env) (s : State) :
  let response := fst (terrain_run rev net request env s) in
  let s' := snd (terrain_run rev net request env s) in
  let calls1 := resolution_calls rev net request s in
  (exists e, resolved_center rev net request s = inl e
     /\ response = error_response e /\ s' = advance s calls1)
  \/ (exists early, resolved_center rev net request s = inr (inl early)
        /\ response = early /\ s' = advance s calls1)
  \/ (exists c, resolved_center rev net request s = inr (inr c)
        /\ is_nan (centerLat c) || is_nan (centerLon c) = true
        /\ response = json_response 400 (error_body "Invalid coordinates")
        /\ s' = advance s calls1)
  \/ (exists c cached, resolved_center rev net request s = inr (inr c)
        /\ is_nan (centerLat c) || is_nan (centerLon c) = false
        /\ CACHE env = true
        /\ cached = default VNull (kv s !! request_key request c)
        /\ truthy cached = true
        /\ response = hit_response cached
        /\ s' = after_lookup rev net request env s c)
  \/ (exists c, reaches_compute rev net request env s c
        /\ (response, s')
           = match rbind (fetched rev net request s c)
                         (aggregate c (grid_of request)) with
             | inl e => (error_response e, after_fetch rev net request env s c)
             | inr r =>
                 (json_response 200 (result_value r),
                  if CACHE env
                  then stored (after_fetch rev net request env s c)
                              (request_key request c) r
                  else after_fetch rev net request env s c)
             end).
Proof.
  intros response s' calls1. subst response s' calls1.
  destruct (resolved_center rev net request s) as [e|[early|c]] eqn:Hres.
  - left. exists e. split; [reflexivity|].
    unfold terrain_run, resolved_center, resolution_calls in *.
    destruct (resolution rev net (fetches s) _ _ _) as [resolved calls1].
    cbn [fst snd] in *. subst resolved. split; reflexivity.
  - right; left. exists early. split; [reflexivity|].
    unfold terrain_run, resolved_center, resolution_calls in *.
    destruct (resolution rev net (fetches s) _ _ _) as [resolved calls1].
    cbn [fst snd] in *. subst resolved. split; reflexivity.
  - destruct (is_nan (centerLat c) || is_nan (centerLon c)) eqn:Hnan.
    { right; right; left. exists c. split; [reflexivity|]. split; [exact Hnan|].
      unfold terrain_run, resolved_center, resolution_calls in *.
      destruct (resolution rev net (fetches s) _ _ _) as [resolved calls1].
      cbn [fst snd] in *. subst resolved. rewrite Hnan. split; reflexivity. }
    destruct (CACHE env && truthy (default VNull (kv s !! request_key request c)))
      eqn:Hhit.
    { right; right; right; left.
      exists c, (default VNull (kv s !! request_key request c)).
      apply andb_true_iff in Hhit. destruct Hhit as [Hcache Htruthy].
      repeat (split; [first [reflexivity|assumption]|]).
      unfold after_lookup.
      unfold terrain_run, resolved_center, resolution_calls, request_key in *.
      destruct (resolution rev net (fetches s) _ _ _) as [resolved calls1].
      cbn [fst snd] in *. subst resolved.
      rewrite Hnan, Hcache, Htruthy. cbn [andb fst snd]. split; reflexivity. }
    right; right; right; right. exists c.
    assert (Hreach : reaches_compute rev net request env s c)
      by (repeat split; assumption).
    split; [exact Hreach|].
    rewrite (terrain_run_reaches rev net request env s c Hreach).
    destruct (rbind _ _); reflexivity.
Qed.

Lemma resolution_calls_shape (request : Request) (s : State) :
  resolution_calls rev net request s = []
  \/ exists qs reply, resolution_calls rev net request s = [CallFetch (geoUrl qs) reply].
Proof.
  unfold resolution_calls, resolution.
  destruct (truthy_param _) as [qs|]; cbn [snd]; [right; eauto|left; reflexivity].
Qed.

(** The calls before the fetcher: no elevation call, no pause, no cache
    write among them. *)
Lemma after_lookup_trace (request : Request) (env : Env) (s : State) (c : Center) :
  exists calls,
    trace (after_lookup rev net request env s c) = trace s ++ calls
    /\ forallb (fun c => negb (is_elevation_call c) && negb (is_pause c)
                         && negb (is_cache_write c)) calls = true
    /\ calls = resolution_calls rev net request s
               ++ (if CACHE env
                   then [CallCacheGet (request_key request c)
                           (default VNull (kv s !! request_key request c))]
                   else []).
Proof.
  eexists. split; [|split; [|reflexivity]].
  - unfold after_lookup. destruct (CACHE env); cbn [advance trace].
    + rewrite <- app_assoc. reflexivity.
    + rewrite app_nil_r. reflexivity.
  - rewrite forallb_app. apply andb_true_iff. split.
    + destruct (resolution_calls_shape request s) as [->|(qs & reply & ->)];
        reflexivity.
    + destruct (CACHE env); reflexivity.
Qed.

(** The calls of the fetcher are fetches of the elevation collaborator
    and pauses; a call that fails is the last one, and its error is the
    fetcher's. *)
Lemma sequential_calls_shape (bs : list (list Location)) :
  forall n,
    forallb (fun c => (is_elevation_call c || is_pause c)
                      && negb (is_cache_write c))
            (snd (sequential_calls rev net n bs)) = true
    /\ forall url reply e,
         In (CallFetch url reply) (snd (sequential_calls rev net n bs)) ->
         settled_batch reply = inl e ->
         fst (sequential_calls rev net n bs) = inl e
         /\ last (snd (sequential_calls rev net n bs)) = Some (CallFetch url reply).
Proof.
  induction bs as [|b bs IH]; intros n; [split; [reflexivity|intros ? ? ? []]|].
  cbn [sequential_calls].
  destruct (settled_batch (net n (elevUrl b))) as [e0|es] eqn:Hb.
  - cbn [fst snd forallb]. split; [reflexivity|].
    intros url reply e [Heq|[]] He. injection Heq as <- <-.
    split; [congruence|reflexivity].
  - destruct (IH (S n)) as [Hshape Hfail].
    destruct (sequential_calls rev net (S n) bs) as [out calls] eqn:Hrest.
    cbn [fst snd] in *. split.
    + cbn [forallb]. rewrite forallb_app, Hshape.
      destruct bs; reflexivity.
    + intros url reply e Hin He.
      destruct Hin as [Heq|Hin]; [injection Heq as <- <-; congruence|].
      apply in_app_or in Hin.
      destruct Hin as [Hin|Hin]; [destruct bs; [destruct Hin|destruct Hin as [|[]]; discriminate]|].
      destruct (Hfail url reply e Hin He) as [-> Hlast]. split; [reflexivity|].
      rewrite last_cons, last_app, Hlast. reflexivity.
Qed.

Lemma mapM_member_accepted (rs : list value) :
  existsb refused_entry rs = false ->
  mapM (fun r => member r "elevation") rs
  = inr (List.map (fun r => get_prop r "elevation") rs).
Proof.
  induction rs as [|r rs IH]; [reflexivity|].
  cbn [existsb]. intros H. apply orb_false_iff in H. destruct H as [Hr Hrs].
  cbn [mapM List.map]. rewrite (IH Hrs).
  destruct r; try discriminate; reflexivity.
Qed.

Lemma mapM_member_refused (rs : list value) :
  existsb refused_entry rs = true ->
  exists e, mapM (fun r => member r "elevation") rs = inl e.
Proof.
  induction rs as [|r rs IH]; [discriminate|].
  cbn [existsb mapM]. intros H.
  destruct r; cbn [refused_entry member orb] in *;
    try (eexists; reflexivity);
    destruct (IH H) as [e ->]; eexists; reflexivity.
Qed.

(** The fetcher throws exactly on the replies it refuses; of any other
    reply it takes the [elevation] of each entry of [results], whatever
    the entry is. *)
Lemma fetcher_refuses_spec (reply : Error + HttpResponse) :
  (fetcher_refuses reply = true -> exists e, settled_batch reply = inl e)
  /\ (fetcher_refuses reply = false ->
      exists res elevData rs,
        reply = inr res /\ ok res = true /\ json res = Some elevData
        /\ get_prop elevData "status" = VStr "OK"
        /\ get_prop elevData "results" = VArr rs
        /\ settled_batch reply
           = inr (List.map (fun r => get_prop r "elevation") rs)).
Proof.
  destruct reply as [e|res]; cbn [fetcher_refuses settled_batch];
    [split; [eauto|discriminate]|].
  unfold read_batch, res_json.
  destruct (ok res) eqn:Hok; cbn [negb orb]; [|split; [eauto|discriminate]].
  destruct (json res) as [elevData|] eqn:Hjson; cbn [rbind];
    [|split; [eauto|discriminate]].
  unfold refused_body.
  assert (Hmem : (exists e, member elevData "status" = inl e
                            /\ get_prop elevData "status" = VUndef)
                 \/ member elevData "status" = inr (get_prop elevData "status"))
    by (destruct elevData; cbn [member get_prop]; eauto).
  destruct Hmem as [[e [Hm Hst]]|Hm]; rewrite Hm; [rewrite Hst|];
    cbn [rbind strict_eq_string andb negb orb]; [split; [eauto|discriminate]|].
  destruct (get_prop elevData "status") as [| |b|n|st|elems|props] eqn:Hstatus;
    cbn [strict_eq_string negb orb]; try (split; [eauto|discriminate]).
  destruct (String.eqb_spec st "OK") as [->|Hne]; cbn [negb orb];
    [|split; [eauto|discriminate]].
  destruct (get_prop elevData "results") as [| |b|n|str|elems|props] eqn:Hresults;
    cbn [truthy negb results_elevations];
    try (split; [intros _; eexists; reflexivity|discriminate]).
  - destruct b; cbn [negb]; split; try discriminate; intros _; eexists; reflexivity.
  - destruct (is_nan n || PrimFloat.eqb n 0); cbn [negb]; split; try discriminate;
      intros _; eexists; reflexivity.
  - destruct (String.eqb str ""); cbn [negb]; split; try discriminate;
      intros _; eexists; reflexivity.
  - destruct (existsb refused_entry elems) eqn:Hr; split; try discriminate.
    + intros _. apply mapM_member_refused, Hr.
    + intros _. exists res, elevData, elems.
      repeat (split; [reflexivity || assumption|]).
      apply mapM_member_accepted, Hr.
Qed.
End Shapes.

(* ================================================================== *)
(** * Failures *)
(* ================================================================== *)

Section Failures.
Context {RT : Runtime} (rev : Revision) (net : Network).

Lemma after_fetch_trace (request : Request) (env : Env) (s : State) (c : Center) :
  exists pre,
    trace (after_fetch rev net request env s c)
    = trace s ++ pre ++ fetcher_calls rev net request s c
    /\ forallb (fun c => negb (is_elevation_call c) && negb (is_pause c)
                         && negb (is_cache_write c)) pre = true
    /\ kv (after_fetch rev net request env s c) = kv s.
Proof.
  destruct (after_lookup_trace rev net request env s c) as (pre & Hpre & Hquiet & _).
  exists pre. split; [|split; [exact Hquiet|]].
  - unfold after_fetch. cbn [advance trace]. rewrite Hpre, <- app_assoc. reflexivity.
  - unfold after_fetch. cbn [advance kv].
    apply (after_lookup_fetches rev net request env s c).
Qed.

Lemma quiet_not_elevation (pre : list call) (c : call) :
  forallb (fun c => negb (is_elevation_call c) && negb (is_pause c)
                    && negb (is_cache_write c)) pre = true ->
  In c pre -> is_elevation_call c = false /\ is_cache_write c = false.
Proof.
  intros Hq Hin. rewrite forallb_forall in Hq. specialize (Hq c Hin).
  apply andb_true_iff in Hq. destruct Hq as [Hq Hw].
  apply andb_true_iff in Hq. destruct Hq as [He _].
  apply negb_true_iff in He, Hw. auto.
Qed.

Lemma resolution_calls_quiet (request : Request) (s : State) :
  forallb (fun c => negb (is_elevation_call c) && negb (is_pause c)
                    && negb (is_cache_write c))
          (resolution_calls rev net request s) = true.
Proof.
  destruct (resolution_calls_shape rev net request s) as [->|(qs & reply & ->)];
    reflexivity.
Qed.

(** A reply that the fetcher refuses ends the run: the response is the
    500 of its error, nothing is written to the cache, and the call is
    the last of the run. *)
Lemma failed_batch_run (request : Request) (env : Env) (s : State)
      (calls : list call) (url : string) (reply : Error + HttpResponse) :
  trace (snd (terrain_run rev net request env s)) = trace s ++ calls ->
  In (CallFetch url reply) calls ->
  is_elevation_call (CallFetch url reply) = true ->
  fetcher_refuses reply = true ->
  exists e,
    settled_batch reply = inl e
    /\ fst (terrain_run rev net request env s) = error_response e
    /\ kv (snd (terrain_run rev net request env s)) = kv s
    /\ forallb (fun c => negb (is_cache_write c)) calls = true
    /\ last calls = Some (CallFetch url reply).
Proof.
  intros Htrace Hin Helev Hbad.
  destruct (proj1 (fetcher_refuses_spec reply) Hbad) as [e He].
  exists e. split; [exact He|].
  pose proof (resolution_calls_quiet request s) as Hq1.
  assert (Hearly : snd (terrain_run rev net request env s)
                   = advance s (resolution_calls rev net request s) -> False).
  { intros Hs'. rewrite Hs' in Htrace. cbn [advance trace] in Htrace.
    apply app_inv_head in Htrace. subst calls.
    destruct (quiet_not_elevation _ _ Hq1 Hin) as [Hne _]. congruence. }
  destruct (terrain_run_cases rev net request env s)
    as [(e0 & _ & _ & Hs')|[(early & _ & _ & Hs')|[(c & _ & _ & _ & Hs')
       |[(c & cached & _ & _ & _ & _ & _ & _ & Hs')|(c & Hreach & Hrun)]]]];
    try (exfalso; exact (Hearly Hs')).
  - exfalso. rewrite Hs' in Htrace.
    destruct (after_lookup_trace rev net request env s c) as (pre & Hpre & Hquiet & _).
    rewrite Hpre in Htrace. apply app_inv_head in Htrace. subst calls.
    destruct (quiet_not_elevation _ _ Hquiet Hin) as [Hne _]. congruence.
  - destruct (after_fetch_trace request env s c) as (pre & Hpre & Hquiet & Hkv).
    destruct (sequential_calls_shape rev net (request_batches request c)
                (first_batch_fetch rev net request s)) as [Hshape Hfail].
    fold (fetcher_calls rev net request s c) in Hshape, Hfail.
    fold (fetched rev net request s c) in Hfail.
    assert (Hwhere : In (CallFetch url reply) (fetcher_calls rev net request s c)
                     -> fetched rev net request s c = inl e
                        /\ last (fetcher_calls rev net request s c)
                           = Some (CallFetch url reply)).
    { intros H. apply (Hfail url reply e H He). }
    destruct (rbind (fetched rev net request s c) (aggregate c (grid_of request)))
      as [e'|r] eqn:Hagg.
    + injection Hrun as Hresp Hs'.
      rewrite Hs', Hpre in Htrace. apply app_inv_head in Htrace. subst calls.
      apply in_app_or in Hin. destruct Hin as [Hin|Hin].
      { exfalso. destruct (quiet_not_elevation _ _ Hquiet Hin) as [Hne _]. congruence. }
      destruct (Hwhere Hin) as [Hf Hlast]. rewrite Hf in Hagg. cbn [rbind] in Hagg.
      injection Hagg as <-.
      split; [exact Hresp|]. split; [rewrite Hs'; exact Hkv|]. split.
      * rewrite forallb_app. apply andb_true_iff. split.
        -- apply forallb_forall. intros x Hx.
           destruct (quiet_not_elevation _ _ Hquiet Hx) as [_ Hw]. rewrite Hw. reflexivity.
        -- apply forallb_forall. intros x Hx.
           rewrite forallb_forall in Hshape. specialize (Hshape x Hx).
           apply andb_true_iff in Hshape. tauto.
      * rewrite last_app, Hlast. reflexivity.
    + exfalso. injection Hrun as Hresp Hs'.
      assert (Hin' : In (CallFetch url reply)
                        (pre ++ fetcher_calls rev net request s c)).
      { destruct (CACHE env).
        - rewrite Hs' in Htrace. unfold stored in Htrace. cbn [trace] in Htrace.
          rewrite Hpre, <- !app_assoc in Htrace.
          apply app_inv_head in Htrace. subst calls.
          rewrite app_assoc in Hin. apply in_app_or in Hin.
          destruct Hin as [Hin|[Hin|[]]]; [exact Hin|discriminate].
        - rewrite Hs', Hpre in Htrace. apply app_inv_head in Htrace.
          subst calls. exact Hin. }
      apply in_app_or in Hin'. destruct Hin' as [Hin'|Hin'].
      { destruct (quiet_not_elevation _ _ Hquiet Hin') as [Hne _]. congruence. }
      destruct (Hwhere Hin') as [Hf _]. rewrite Hf in Hagg. discriminate.
Qed.
End Failures.

(** C4, as the handler has it.  When the reply to an elevation batch
    call of a run is one that the fetcher refuses (a rejected call, a
    status that is no success, a body that is not JSON, a [status]
    field other than ["OK"], [results] that are missing, no array or
    hold a [null] entry), the request is answered 500 by the [catch]
    clause, the body carries no elevation, the cache store is left as it
    was and no cache write is issued, so that nothing of the earlier
    batches is returned or cached, and the refused call is the last call
    of the run: it is not retried.  A reply that the fetcher does not
    refuse is a success whose [results] are an array, and the batch is
    read as the [elevation] of each entry, whatever the entries are:
    the run goes on. *)
Theorem failed_batch_aborts {RT : Runtime} (rev : Revision) (net : Network)
        (request : Request) (env : Env) (s s' : State)
        (out : Error + Response) (calls : list call) (url : string)
        (reply : Error + HttpResponse) :
  run net (terrain rev request env) s = (out, s') ->
  trace s' = trace s ++ calls ->
  In (CallFetch url reply) calls ->
  is_elevation_call (CallFetch url reply) = true ->
  (fetcher_refuses reply = true ->
   exists e,
     out = inr (error_response e)
     /\ rstatus (error_response e) = 500
     /\ body_elevations (error_response e) = []
     /\ kv s' = kv s
     /\ forallb (fun c => negb (is_cache_write c)) calls = true
     /\ last calls = Some (CallFetch url reply))
  /\ (fetcher_refuses reply = false ->
      exists res elevData rs,
        reply = inr res /\ ok res = true /\ json res = Some elevData
        /\ get_prop elevData "status" = VStr "OK"
        /\ get_prop elevData "results" = VArr rs
        /\ settled_batch reply
           = inr (List.map (fun r => get_prop r "elevation") rs)).
Proof.
  rewrite run_terrain. intros Hrun Htrace Hin Helev.
  injection Hrun as <- <-. split.
  - intros Hbad.
    destruct (failed_batch_run rev net request env s calls url reply
                Htrace Hin Helev Hbad) as (e & He & Hresp & Hkv & Hw & Hlast).
    exists e. rewrite Hresp. repeat split; assumption.
  - intros Hgood. exact (proj2 (fetcher_refuses_spec reply) Hgood).
Qed.

(* ================================================================== *)
(** * What the [catch] clause answers *)
(* ================================================================== *)

Section Caught.
Context {RT : Runtime} (rev : Revision) (net : Network).

(** The [try] block of a run either throws, and the response is the
    one of the [catch] clause, or returns the response itself, which is
    then no 500. *)
Lemma run_pipeline (request : Request) (env : Env) (s : State) :
  let response := fst (terrain_run rev net request env s) in
  let s' := snd (terrain_run rev net request env s) in
  let body := pipeline rev (searchParams_get "q" (searchParams request))
                           (searchParams_get "lat" (searchParams request))
                           (searchParams_get "lon" (searchParams request))
                           (size_of request) (grid_of request) env in
  (exists e, run net body s = (inl e, s') /\ response = error_response e)
  \/ (run net body s = (inr response, s') /\ rstatus response <> 500).
Proof.
  unfold terrain_run, pipeline. cbv zeta.
  rewrite run_bind, run_resolve.
  destruct (resolution rev net (fetches s) _ _ _) as [[e|[early|c]] calls1] eqn:Hres;
    cbn [fst snd].
  - left. exists e. split; reflexivity.
  - right. split; [reflexivity|].
    assert (Hearly : fst (resolution rev net (fetches s)
                            (searchParams_get "q" (searchParams request))
                            (searchParams_get "lat" (searchParams request))
                            (searchParams_get "lon" (searchParams request)))
                     = inr (inl early)) by (rewrite Hres; reflexivity).
    apply resolution_early in Hearly.
    destruct Hearly as [[-> _]|[-> _]]; discriminate.
  - destruct (is_nan (centerLat c) || is_nan (centerLon c));
      [right; split; [reflexivity|discriminate]|].
    rewrite run_bind, run_cache_lookup. cbn [kv advance].
    set (cached := default VNull (kv s !! _)).
    destruct (CACHE env && truthy cached) eqn:Hhit;
      [right; split; [reflexivity|discriminate]|].
    rewrite run_bind, run_compute.
    destruct (computation rev net _ c _ _) as [[e|result] calls3];
      cbn [fst snd].
    + left. exists e. split; reflexivity.
    + rewrite run_bind, run_cache_store. right. split; [reflexivity|discriminate].
Qed.

(** What the [try] block throws is answered by the [catch] clause. *)
Lemma caught_answered (request : Request) (env : Env) (s : State) (e : Error) :
  caught rev net request env s e ->
  fst (terrain_run rev net request env s) = error_response e.
Proof.
  intros [s1 Hrun].
  destruct (run_pipeline request env s) as [(e0 & Hthrow & Hresp)|[Hret _]];
    cbv zeta in *.
  - rewrite Hthrow in Hrun. congruence.
  - rewrite Hret in Hrun. discriminate.
Qed.

(** A 500 is the answer of the [catch] clause. *)
Lemma server_error_caught (request : Request) (env : Env) (s : State) :
  rstatus (fst (terrain_run rev net request env s)) = 500 ->
  exists e, caught rev net request env s e
            /\ fst (terrain_run rev net request env s) = error_response e.
Proof.
  intros Hstatus.
  destruct (run_pipeline request env s) as [(e & Hthrow & Hresp)|[_ Hne]];
    cbv zeta in *; [|contradiction].
  exists e. split; [|exact Hresp]. eexists. exact Hthrow.
Qed.

(** The answers of the handler to the replies of the geocoder. *)
Lemma geocoding_answers (request : Request) (env : Env) (s : State) (qs : string) :
  truthy_param (searchParams_get "q" (searchParams request)) = Some qs ->
  let response := fst (terrain_run rev net request env s) in
  (forall e, net (fetches s) (geoUrl qs) = inl e -> response = error_response e)
  /\ (forall geoRes, net (fetches s) (geoUrl qs) = inr geoRes ->
        (ok geoRes = false ->
         response = error_response
                      (new_Error ("Geocoding failed: " ++ pretty (status geoRes))%string))
        /\ (ok geoRes = true -> json geoRes = None ->
            exists e, response = error_response e /\ ename e = "SyntaxError")
        /\ (forall geoResult, ok geoRes = true -> json geoRes = Some geoResult ->
              (truthy geoResult = false
               \/ strict_eq_zero (get_prop geoResult "length") = true ->
               response = json_response 404 (error_body "Location not found"))
              /\ (truthy geoResult = true ->
                  strict_eq_zero (get_prop geoResult "length") = false ->
                  (refused_entry (get_prop geoResult "0") = true ->
                   exists e, response = error_response e /\ ename e = "TypeError")
                  /\ (refused_entry (get_prop geoResult "0") = false ->
                      resolved_center rev net request s
                      = inr (inr {| centerLat :=
                                      parseFloat (get_prop (get_prop geoResult "0") "lat");
                                    centerLon :=
                                      parseFloat (get_prop (get_prop geoResult "0") "lon");
                                    name :=
                                      get_prop (get_prop geoResult "0") "display_name" |}))))).
Proof.
  intros Hq response. subst response.
  assert (Hrun : forall out,
            fst (resolution rev net (fetches s)
                   (searchParams_get "q" (searchParams request))
                   (searchParams_get "lat" (searchParams request))
                   (searchParams_get "lon" (searchParams request))) = out ->
            match out with
            | inl e => fst (terrain_run rev net request env s) = error_response e
            | inr (inl early) => fst (terrain_run rev net request env s) = early
            | inr (inr c) => True
            end).
  { intros out <-. unfold terrain_run.
    destruct (resolution rev net (fetches s) _ _ _) as [[e|[early|c]] calls1];
      cbn [fst]; auto. }
  assert (Hres : fst (resolution rev net (fetches s)
                   (searchParams_get "q" (searchParams request))
                   (searchParams_get "lat" (searchParams request))
                   (searchParams_get "lon" (searchParams request)))
                 = match net (fetches s) (geoUrl qs) with
                   | inl e => inl e
                   | inr geoRes => rbind (read_geocode geoRes) first_candidate
                   end).
  { unfold resolution. rewrite Hq. reflexivity. }
  split.
  - intros e Hnet. rewrite Hnet in Hres. exact (Hrun _ Hres).
  - intros geoRes Hnet. rewrite Hnet in Hres. unfold read_geocode, res_json in Hres.
    split; [|split].
    + intros Hok. rewrite Hok in Hres. cbn [negb rbind] in Hres. exact (Hrun _ Hres).
    + intros Hok Hjson. rewrite Hok, Hjson in Hres. cbn [negb rbind] in Hres.
      eexists. split; [exact (Hrun _ Hres)|reflexivity].
    + intros geoResult Hok Hjson. rewrite Hok, Hjson in Hres.
      cbn [negb rbind] in Hres. unfold first_candidate in Hres. split.
      * intros Hnone.
        assert (Hc : negb (truthy geoResult)
                     || strict_eq_zero (get_prop geoResult "length") = true).
        { destruct Hnone as [-> | ->]; [reflexivity|apply orb_true_r]. }
        rewrite Hc in Hres. exact (Hrun _ Hres).
      * intros Htruthy Hlen. rewrite Htruthy, Hlen in Hres. cbn [negb orb] in Hres.
        split.
        -- intros Hfirst.
           destruct (get_prop geoResult "0"); try discriminate;
             cbn [member rbind] in Hres;
             (eexists; split; [exact (Hrun _ Hres)|reflexivity]).
        -- intros Hfirst. unfold resolved_center. rewrite Hres.
           destruct (get_prop geoResult "0"); try discriminate; reflexivity.
Qed.
End Caught.

(** C8, as the handler has it.  The handler always answers, with status
    200, 400, 404 or 500 and a body [{ error }] or [{ error, details }]
    when the status is not 200.  A request without [q] that lacks [lat]
    or [lon] is answered 400, and so are coordinates that are no
    numbers, given in the request or read from the first candidate of
    the geocoder.  A geocoding call that is rejected, has no success
    status or a body that is not JSON is answered 500; a body that is
    not truthy or has a length of 0 is answered 404
    with [{"error":"Location not found"}]; any other body whose entry 0
    is missing or [null] is answered 500.  An elevation call with a reply
    that the fetcher refuses is answered 500, and so are elevations none
    of which passes the filter.  Whatever the [try] block throws is
    answered 500 with its message and its string form. *)
Theorem failure_status_mapping {RT : Runtime} (rev : Revision) (net : Network)
        (request : Request) (env : Env) (s : State) :
  let q := truthy_param (searchParams_get "q" (searchParams request)) in
  let lat := truthy_param (searchParams_get "lat" (searchParams request)) in
  let lon := truthy_param (searchParams_get "lon" (searchParams request)) in
  exists response s',
    run net (terrain rev request env) s = (inr response, s')
    /\ In (rstatus response) [200; 400; 404; 500]
    /\ (rstatus response <> 200 ->
        exists msg,
          body response = Some (VObj [("error", VStr msg)])
          \/ exists details,
               body response
               = Some (VObj [("error", VStr msg); ("details", VStr details)]))
    /\ (q = None -> lat = None \/ lon = None ->
        rstatus response = 400
        /\ body response
           = Some (VObj [("error", VStr "Provide ?q=location or ?lat=X&lon=Y")]))
    /\ (forall la lo, q = None -> lat = Some la -> lon = Some lo ->
          is_nan (parseFloat_string la) || is_nan (parseFloat_string lo) = true ->
          rstatus response = 400
          /\ body response = Some (VObj [("error", VStr "Invalid coordinates")]))
    /\ (forall qs, q = Some qs ->
          let url := ("https://nominatim.openstreetmap.org/search?format=json&q="
                      ++ encodeURIComponent qs ++ "&limit=1")%string in
          (forall e, net (fetches s) url = inl e -> rstatus response = 500)
          /\ (forall geoRes, net (fetches s) url = inr geoRes ->
                (ok geoRes = false -> rstatus response = 500)
                /\ (ok geoRes = true -> json geoRes = None -> rstatus response = 500)
                /\ (forall geoResult,
                      ok geoRes = true -> json geoRes = Some geoResult ->
                      (truthy geoResult = false \/ geoResult = VArr []
                       \/ strict_eq_zero (get_prop geoResult "length") = true ->
                       rstatus response = 404
                       /\ body response
                          = Some (VObj [("error", VStr "Location not found")]))
                      /\ (truthy geoResult = true ->
                          strict_eq_zero (get_prop geoResult "length") = false ->
                          (get_prop geoResult "0" = VUndef
                           \/ get_prop geoResult "0" = VNull ->
                           rstatus response = 500)
                          /\ (forall first,
                                get_prop geoResult "0" = first ->
                                first <> VUndef -> first <> VNull ->
                                primitive (get_prop first "lat") = true ->
                                primitive (get_prop first "lon") = true ->
                                is_nan (parseFloat (get_prop first "lat"))
                                || is_nan (parseFloat (get_prop first "lon")) = true ->
                                rstatus response = 400
                                /\ body response
                                   = Some (VObj [("error",
                                                  VStr "Invalid coordinates")]))))))
    /\ (forall calls url reply, trace s' = trace s ++ calls ->
          In (CallFetch url reply) calls ->
          is_elevation_call (CallFetch url reply) = true ->
          fetcher_refuses reply = true ->
          rstatus response = 500)
    /\ (forall c es, reaches_compute rev net request env s c ->
          fetched rev net request s c = inr es ->
          validElevations es = [] ->
          rstatus response = 500
          /\ (Forall (fun e => primitive e = true) es ->
              response = error_response
                           (new_Error "No valid elevation data for this location")))
    /\ (forall e, caught rev net request env s e ->
          rstatus response = 500
          /\ body response
             = Some (VObj [("error", VStr (if String.eqb (message e) ""
                                           then "Internal server error"
                                           else message e));
                           ("details", VStr (Error_toString e))])).
Proof.
  intros q lat lon.
  exists (fst (terrain_run rev net request env s)),
         (snd (terrain_run rev net request env s)).
  set (response := fst (terrain_run rev net request env s)).
  set (s' := snd (terrain_run rev net request env s)).
  assert (Hcenter : forall c, resolved_center rev net request s = inr (inr c) ->
            is_nan (centerLat c) || is_nan (centerLon c) = true ->
            response = json_response 400 (error_body "Invalid coordinates")).
  { intros c Hc Hnan. subst response.
    unfold terrain_run, resolved_center in *.
    destruct (resolution rev net (fetches s) _ _ _) as [resolved calls1].
    cbn [fst] in Hc. subst resolved. rewrite Hnan. reflexivity. }
  assert (Hearly : forall early, resolved_center rev net request s = inr (inl early) ->
            response = early).
  { intros early He. subst response. unfold terrain_run, resolved_center in *.
    destruct (resolution rev net (fetches s) _ _ _) as [resolved calls1].
    cbn [fst] in He. subst resolved. reflexivity. }
  split; [apply run_terrain|].
  split; [|split].
  - destruct (terrain_run_cases rev net request env s)
      as [(e & _ & Hr & _)|[(early & He & Hr & _)|[(c & _ & _ & Hr & _)
         |[(c & cached & _ & _ & _ & _ & _ & Hr & _)|(c & Hreach & Hrun)]]]];
      fold response in Hr || idtac.
    + rewrite Hr. cbn. tauto.
    + rewrite Hr. apply resolution_early in He.
      destruct He as [[-> _]|[-> _]]; cbn; tauto.
    + rewrite Hr. cbn. tauto.
    + rewrite Hr. cbn. tauto.
    + fold response s' in Hrun.
      destruct (rbind _ _); injection Hrun as -> _; cbn; tauto.
  - intros Hnot.
    destruct (terrain_run_cases rev net request env s)
      as [(e & _ & Hr & _)|[(early & He & Hr & _)|[(c & _ & _ & Hr & _)
         |[(c & cached & _ & _ & _ & _ & _ & Hr & _)|(c & Hreach & Hrun)]]]];
      fold response in Hr || idtac.
    + rewrite Hr. eexists. right. eexists. reflexivity.
    + rewrite Hr. apply resolution_early in He.
      destruct He as [[-> _]|[-> _]]; eexists; left; reflexivity.
    + rewrite Hr. eexists. left. reflexivity.
    + exfalso. apply Hnot. rewrite Hr. reflexivity.
    + fold response s' in Hrun.
      destruct (rbind _ _); injection Hrun as Hr _.
      * rewrite Hr. eexists. right. eexists. reflexivity.
      * exfalso. apply Hnot. rewrite Hr. reflexivity.
  - split; [|split; [|split; [|split; [|split]]]].
    + intros Hq Hmissing.
      rewrite (Hearly (json_response 400
                         (error_body "Provide ?q=location or ?lat=X&lon=Y")));
        [split; reflexivity|].
      unfold resolved_center, resolution. fold q lat lon. rewrite Hq. cbn [fst].
      destruct Hmissing as [-> | ->]; [reflexivity|].
      destruct lat; reflexivity.
    + intros la lo Hq Hla Hlo Hnan.
      rewrite (Hcenter (explicit_center rev la lo)); [split; reflexivity| |exact Hnan].
      unfold resolved_center, resolution. fold q lat lon.
      rewrite Hq, Hla, Hlo. reflexivity.
    + intros qs Hq url.
      destruct (geocoding_answers rev net request env s qs Hq) as [Hrej Hans].
      fold response in Hrej, Hans. subst url. fold (geoUrl qs).
      split.
      * intros e Hnet. rewrite (Hrej e Hnet). reflexivity.
      * intros geoRes Hnet.
        destruct (Hans geoRes Hnet) as (Hnok & Hnojson & Hjson).
        split; [intros Hok; rewrite (Hnok Hok); reflexivity|].
        split; [intros Hok Hj; destruct (Hnojson Hok Hj) as (e & -> & _); reflexivity|].
        intros geoResult Hok Hj.
        destruct (Hjson geoResult Hok Hj) as [Hnone Hsome]. split.
        -- intros Hcase. rewrite Hnone; [split; reflexivity|].
           destruct Hcase as [H|[->|H]]; [left; exact H|right; reflexivity|right; exact H].
        -- intros Htruthy Hlen. destruct (Hsome Htruthy Hlen) as [Hnull Hfirst].
           split.
           ++ intros Hcase.
              destruct Hnull as (e & -> & _); [|reflexivity].
              destruct Hcase as [-> | ->]; reflexivity.
           ++ intros first Hf Hu Hn Hplat Hplon Hnan.
              rewrite (Hcenter _ (Hfirst ltac:(rewrite Hf; destruct first; try reflexivity; contradiction)));
                [split; reflexivity|].
              cbn [centerLat centerLon]. rewrite Hf. exact Hnan.
    + intros calls url reply Htrace Hin Helev Hbad.
      destruct (failed_batch_run rev net request env s calls url reply
                  Htrace Hin Helev Hbad) as (e & _ & Hresp & _).
      subst response. rewrite Hresp. reflexivity.
    + intros c es Hreach Hfetched Hnone. subst response.
      rewrite (terrain_run_reaches rev net request env s c Hreach), Hfetched.
      cbn [rbind].
      rewrite (proj1 (aggregate_spec c (grid_of request) es) Hnone).
      split; [reflexivity|]. intros _. reflexivity.
    + intros e Hcaught. subst response.
      rewrite (caught_answered rev net request env s e Hcaught).
      split; reflexivity.
Qed.

(* ================================================================== *)
(** * JSON trees *)
(* ================================================================== *)

Lemma value_nested_ind (P : value -> Prop) :
  P VUndef -> P VNull -> (forall b, P (VBool b)) -> (forall n, P (VNum n)) ->
  (forall s, P (VStr s)) ->
  (forall l, Forall P l -> P (VArr l)) ->
  (forall ps, Forall (fun kv => P (snd kv)) ps -> P (VObj ps)) ->
  forall v, P v.
Proof.
  intros HU HN HB HNum HS HA HO. fix IH 1.
  intros [| |b|n|s|l|ps];
    [exact HU|exact HN|apply HB|apply HNum|apply HS|apply HA|apply HO].
  - induction l as [|x l IHl]; constructor; [apply IH|exact IHl].
  - induction ps as [|[k x] ps IHps]; constructor; [apply IH|exact IHps].
Qed.

Lemma to_json_defined (v : value) : to_json v <> VUndef.
Proof.
  destruct v; cbn [to_json]; try discriminate.
  unfold json_number. destruct (classify n); discriminate.
Qed.

Lemma json_number_idempotent (n : float) :
  to_json (json_number n) = json_number n.
Proof.
  unfold json_number. destruct (classify n) eqn:E; cbn [to_json];
    try reflexivity; unfold json_number; rewrite E; reflexivity.
Qed.

Lemma json_props_defined (k : string) (e : value) (props : list (string * value)) :
  json_props ((k, to_json e) :: props)
  = (k, to_json (to_json e)) :: json_props props.
Proof.
  rewrite json_props_cons. pose proof (to_json_defined e) as H.
  destruct (to_json e); try reflexivity. contradiction.
Qed.

(** Serialising what was parsed from a serialisation changes nothing. *)
Lemma to_json_idempotent (v : value) : to_json (to_json v) = to_json v.
Proof.
  induction v as [| |b|n|s|l IH|ps IH] using value_nested_ind; try reflexivity.
  - apply json_number_idempotent.
  - cbn [to_json]. f_equal. induction IH as [|x l Hx Hl IHl]; [reflexivity|].
    cbn [List.map]. rewrite Hx, IHl. reflexivity.
  - rewrite !to_json_object. f_equal.
    induction IH as [|[k x] ps Hx Hps IHps]; [reflexivity|].
    cbn [snd] in Hx. rewrite json_props_cons.
    destruct x; try exact IHps; rewrite json_props_defined, Hx, IHps; reflexivity.
Qed.

Lemma json_props_idempotent (props : list (string * value)) :
  json_props (json_props props) = json_props props.
Proof.
  pose proof (to_json_idempotent (VObj props)) as H.
  rewrite !to_json_object in H. injection H as H. exact H.
Qed.

Lemma json_props_app (a b : list (string * value)) :
  json_props (a ++ b) = json_props a ++ json_props b.
Proof.
  induction a as [|[k x] a IH]; [reflexivity|].
  cbn [app]. rewrite !json_props_cons, IH. destruct x; reflexivity.
Qed.

Lemma set_prop_fresh (k : string) (x : value) (props : list (string * value)) :
  lookup_prop k props = None -> set_prop k x props = props ++ [(k, x)].
Proof.
  induction props as [|[k' v] props IH]; [reflexivity|].
  cbn [lookup_prop set_prop]. destruct (String.eqb k' k); [discriminate|].
  intros H. rewrite (IH H). reflexivity.
Qed.

Section CacheFacts.
Context {RT : Runtime} (rev : Revision).

(** The body of a hit on a stored result is the body of the fresh
    response with the [cached] flag appended. *)
Lemma hit_body_of_result (r : TerrainResult) :
  exists props,
    body (json_response 200 (result_value r)) = Some (VObj props)
    /\ to_json (result_value r) = VObj props
    /\ body (hit_response (to_json (result_value r)))
       = Some (VObj (props ++ [("cached", VBool true)])).
Proof.
  unfold hit_response, json_response. cbn [body].
  unfold result_value. rewrite to_json_object.
  set (props := json_props _).
  exists props. split; [reflexivity|]. split; [reflexivity|].
  cbn [spread]. rewrite to_json_object.
  assert (Hfresh : lookup_prop "cached" props = None).
  { subst props. rewrite json_props_cons.
    destruct (res_name r); reflexivity. }
  rewrite (set_prop_fresh _ _ _ Hfresh), json_props_app.
  subst props. rewrite json_props_idempotent. reflexivity.
Qed.

Lemma run_hit (net : Network) (request : Request) (env : Env) (s : State)
      (c : Center) (cached : value) :
  CACHE env = true ->
  resolved_center rev net request s = inr (inr c) ->
  is_nan (centerLat c) || is_nan (centerLon c) = false ->
  kv s !! request_key request c = Some cached ->
  truthy cached = true ->
  run net (terrain rev request env) s
  = (inr (hit_response cached), after_lookup rev net request env s c)
  /\ trace (after_lookup rev net request env s c)
     = trace s ++ resolution_calls rev net request s
               ++ [CallCacheGet (request_key request c) cached]
  /\ kv (after_lookup rev net request env s c) = kv s.
Proof.
  intros Hcache Hc Hnan Hkv Htruthy.
  rewrite run_terrain.
  destruct (after_lookup_trace rev net request env s c) as (pre & Hpre & _ & Heq).
  rewrite Hcache, Hkv in Heq. cbn [default from_option id] in Heq. subst pre.
  split; [|split; [exact Hpre|apply after_lookup_fetches]].
  unfold terrain_run, after_lookup, resolved_center, resolution_calls, request_key in *.
  destruct (resolution rev net (fetches s) _ _ _) as [resolved calls1].
  cbn [fst snd] in *. subst resolved.
  rewrite Hnan, Hcache, Hkv. cbn [default from_option id andb].
  rewrite Htruthy. reflexivity.
Qed.
End CacheFacts.

(** C5, as the handler has it.  The cache key is derived from the
    resolved center, so coordinate resolution, with its geocoding call
    for a text query, comes first.  When the key is then present, the
    response is the stored entry with the [cached] flag, and the run
    issues no elevation call, no pause and no cache write after the
    lookup.  An entry stored by a fresh run is the body of its response,
    and a later hit on it answers that body with [cached: true]
    appended. *)
Theorem cache_hit_short_circuit {RT : Runtime} (rev : Revision) (net : Network)
        (request : Request) (env : Env) (s : State) (c : Center) :
  CACHE env = true ->
  resolved_center rev net request s = inr (inr c) ->
  is_nan (centerLat c) || is_nan (centerLon c) = false ->
  (forall cached,
     kv s !! request_key request c = Some cached -> truthy cached = true ->
     exists s',
       run net (terrain rev request env) s = (inr (hit_response cached), s')
       /\ rstatus (hit_response cached) = 200
       /\ served_from_cache (hit_response cached) = true
       /\ trace s' = trace s ++ resolution_calls rev net request s
                             ++ [CallCacheGet (request_key request c) cached]
       /\ forallb (fun c => negb (is_elevation_call c) && negb (is_pause c)
                            && negb (is_cache_write c))
                  (resolution_calls rev net request s
                   ++ [CallCacheGet (request_key request c) cached]) = true
       /\ kv s' = kv s)
  /\ (forall r,
        reaches_compute rev net request env s c ->
        rbind (fetched rev net request s c) (aggregate c (grid_of request)) = inr r ->
        exists s' props,
          run net (terrain rev request env) s
          = (inr (json_response 200 (result_value r)), s')
          /\ body (json_response 200 (result_value r)) = Some (VObj props)
          /\ kv s' = <[request_key request c := VObj props]> (kv s)
          /\ forall net2 request2 s2 c2,
               kv s2 = kv s' ->
               resolved_center rev net2 request2 s2 = inr (inr c2) ->
               is_nan (centerLat c2) || is_nan (centerLon c2) = false ->
               request_key request2 c2 = request_key request c ->
               exists s2' response2,
                 run net2 (terrain rev request2 env) s2 = (inr response2, s2')
                 /\ rstatus response2 = 200
                 /\ body response2 = Some (VObj (props ++ [("cached", VBool true)]))
                 /\ trace s2' = trace s2 ++ resolution_calls rev net2 request2 s2
                                ++ [CallCacheGet (request_key request c) (VObj props)]
                 /\ kv s2' = kv s2).
Proof.
  intros Hcache Hc Hnan. split.
  - intros cached Hkv Htruthy.
    destruct (run_hit rev net request env s c cached Hcache Hc Hnan Hkv Htruthy)
      as (Hrun & Htrace & Hstore).
    eexists. split; [exact Hrun|].
    destruct (hit_is_served_from_cache cached) as [Hserved Hstatus].
    split; [exact Hstatus|]. split; [exact Hserved|]. split; [exact Htrace|].
    split; [|exact Hstore].
    rewrite forallb_app, (resolution_calls_quiet rev net request s). reflexivity.
  - intros r Hreach Hagg.
    destruct (hit_body_of_result r) as (props & Hbody & Hjson & Hhit).
    rewrite run_terrain, (terrain_run_reaches rev net request env s c Hreach), Hagg.
    rewrite Hcache. cbn [fst snd].
    eexists _, props. split; [reflexivity|]. split; [exact Hbody|].
    destruct (after_fetch_trace rev net request env s c) as (pre & _ & _ & Hkv).
    split; [unfold stored; cbn [kv]; rewrite Hkv, Hjson; reflexivity|].
    intros net2 request2 s2 c2 Hkv2 Hc2 Hnan2 Hkey.
    assert (Hentry : kv s2 !! request_key request2 c2 = Some (VObj props)).
    { rewrite Hkv2, Hkey. unfold stored. cbn [kv]. rewrite Hjson.
      apply lookup_insert_eq. }
    destruct (run_hit rev net2 request2 env s2 c2 (VObj props)
                      Hcache Hc2 Hnan2 Hentry eq_refl)
      as (Hrun & Htrace & Hstore).
    eexists _, _. split; [exact Hrun|].
    split; [apply hit_is_served_from_cache|].
    split; [rewrite <- Hjson; exact Hhit|].
    split; [rewrite <- Hkey; exact Htrace|exact Hstore].
Qed.

(* ================================================================== *)
(** * A grid of one *)
(* ================================================================== *)

Section NaN.
Implicit Types x y : float.



End NaN.



(* ================================================================== *)
(** * Strings and credentials *)
(* ================================================================== *)

Lemma substring_all (s : string) : String.substring 0 (String.length s) s = s.
Proof. induction s as [|a s IH]; [reflexivity|]. cbn. rewrite IH. reflexivity. Qed.

Lemma string_slice_from_app (p t : string) :
  string_slice_from (String.length p) (p ++ t)%string = t.
Proof.
  unfold string_slice_from. induction p as [|a p IH].
  - change ("" ++ t)%string with t. cbn [String.length].
    rewrite Nat.sub_0_r. apply substring_all.
  - change (String a p ++ t)%string with (String a (p ++ t))%string.
    cbn [String.length String.substring Nat.sub]. exact IH.
Qed.

Lemma bearer_token (token : string) :
  string_slice_from 7 ("Bearer " ++ token)%string = token.
Proof. exact (string_slice_from_app "Bearer " token). Qed.

Lemma startsWith_app (p t : string) : startsWith (p ++ t)%string p = true.
Proof.
  induction p as [|a p IH]; [reflexivity|].
  change (String a p ++ t)%string with (String a (p ++ t))%string.
  cbn [startsWith]. rewrite Ascii.eqb_refl. exact IH.
Qed.

Lemma startsWith_inv (p s : string) :
  startsWith s p = true -> s = (p ++ string_slice_from (String.length p) s)%string.
Proof.
  revert s. induction p as [|a p IH]; intros s H.
  - unfold string_slice_from. cbn [String.length].
    rewrite Nat.sub_0_r, substring_all. reflexivity.
  - destruct s as [|b s]; [discriminate|]. cbn [startsWith] in H.
    apply andb_true_iff in H. destruct H as [Hab Hs].
    apply Ascii.eqb_eq in Hab. subst b.
    change (String a p ++ ?x)%string with (String a (p ++ x))%string.
    f_equal. rewrite (IH s Hs) at 1. reflexivity.
Qed.

Lemma truthy_param_Some (o : option string) (k : string) :
  truthy_param o = Some k <-> o = Some k /\ k <> "".
Proof.
  unfold truthy_param. destruct o as [x|]; [|split; [discriminate|intros [H _]; discriminate]].
  destruct (String.eqb_spec x "") as [->|Hne]; split.
  - discriminate.
  - intros [H Hk]. injection H as <-. contradiction.
  - intros H. injection H as <-. auto.
  - intros [H _]. exact H.
Qed.

Lemma calls_of_spec {A} (net : Network) (m : io A) (s : State) :
  trace (snd (run net m s)) = trace s ++ calls_of net m s.
Proof.
  unfold calls_of. destruct (run_trace_extends net m s) as [calls ->].
  rewrite drop_app_length. reflexivity.
Qed.

Lemma calls_of_unique {A} (net : Network) (m : io A) (s : State) (calls : list call) :
  trace (snd (run net m s)) = trace s ++ calls -> calls_of net m s = calls.
Proof. intros H. unfold calls_of. rewrite H, drop_app_length. reflexivity. Qed.

(** The key that the debug route compares with the admin key *)
Lemma provided_key (request : Request) (k : string) :
  k <> "" ->
  presents request k
  <-> truthy_param
        match authorization request with
        | Some authHeader =>
            if startsWith authHeader "Bearer "
            then Some (string_slice_from 7 authHeader)
            else searchParams_get "key" (searchParams request)
        | None => searchParams_get "key" (searchParams request)
        end = Some k.
Proof.
  intros Hk. unfold presents. rewrite truthy_param_Some.
  destruct (authorization request) as [authHeader|]; [|tauto].
  destruct (startsWith authHeader "Bearer ") eqn:Hb.
  - split.
    + intros [->|[H _]]; [|discriminate].
      split; [|exact Hk]. f_equal.
      exact (string_slice_from_app "Bearer " k).
    + intros [H _]. injection H as <-. left.
      exact (startsWith_inv "Bearer " authHeader Hb).
  - split.
    + intros [->|[_ H]]; [|auto].
      rewrite (startsWith_app "Bearer " k) in Hb. discriminate.
    + intros [H _]. right. auto.
Qed.

(* ================================================================== *)
(** * The preflight and the debug route *)
(* ================================================================== *)

Section Routes.
Context {RT : Runtime} (net : Network).

Lemma run_debug_sentry_state (request : Request) (env : Env) (s : State) :
  snd (run net (debug_sentry request env) s) = s.
Proof.
  unfold debug_sentry.
  repeat match goal with
         | |- context [match ?x with _ => _ end] => destruct x
         end; reflexivity.
Qed.

(** The debug route, by what the bindings configure and the request
    presents. *)
Lemma run_debug_sentry (request : Request) (env : Env) (s : State) :
  let out := fst (run net (debug_sentry request env) s) in
  ((forall adminKey, ~ configured env adminKey) ->
   out = inr (json_response 503 (error_body "Admin endpoint not configured")))
  /\ (forall adminKey, configured env adminKey ->
        (presents request adminKey ->
         searchParams_get "error" (searchParams request) = Some "true" ->
         out = inl (new_Error "Test error from /debug-sentry endpoint"))
        /\ (presents request adminKey ->
            searchParams_get "error" (searchParams request) <> Some "true" ->
            exists response rest,
              out = inr response /\ rstatus response = 200
              /\ body response = Some (VObj (("success", VBool true) :: rest)))
        /\ (~ presents request adminKey ->
            exists response,
              out = inr response /\ rstatus response = 401
              /\ error_of response = Some "Unauthorized. Admin access required.")).
Proof.
  intros out. subst out. unfold debug_sentry. split.
  - intros Hnone.
    destruct (truthy_param (ADMIN_API_KEY env)) as [k|] eqn:Hk; [|reflexivity].
    apply truthy_param_Some in Hk. exfalso. exact (Hnone k Hk).
  - intros adminKey Hconf.
    assert (Hk : truthy_param (ADMIN_API_KEY env) = Some adminKey)
      by (apply truthy_param_Some; exact Hconf).
    rewrite Hk. destruct Hconf as [_ Hne].
    pose proof (provided_key request adminKey Hne) as Hpres.
    destruct (truthy_param _) as [provided|] eqn:Hp in Hpres |- *.
    + destruct (String.eqb_spec provided adminKey) as [->|Hdiff].
      * assert (Hyes : presents request adminKey) by (apply Hpres; reflexivity).
        split; [|split].
        -- intros _ ->. reflexivity.
        -- intros _ Herr.
           destruct (searchParams_get "error" (searchParams request)) as [x|];
             cbn [param strict_eq_string].
           ++ destruct (String.eqb_spec x "true") as [->|_]; [congruence|].
              eexists _, _. repeat split.
           ++ eexists _, _. repeat split.
        -- intros Hno. contradiction.
      * assert (Hno : ~ presents request adminKey).
        { intros H. apply Hpres in H. congruence. }
        split; [|split]; try (intros H; contradiction).
        intros _. eexists. repeat split.
    + assert (Hno : ~ presents request adminKey).
      { intros H. apply Hpres in H. discriminate. }
      split; [|split]; try (intros H; contradiction).
      intros _. eexists. repeat split.
Qed.

Lemma fetch_debug_route (request : Request) (env : Env) :
  method request <> "OPTIONS" -> pathname request = "/debug-sentry" ->
  fetch worker_js request env = debug_sentry request env.
Proof.
  intros Hm Hp. unfold fetch.
  destruct (String.eqb_spec (method request) "OPTIONS") as [E|_]; [contradiction|].
  rewrite Hp. reflexivity.
Qed.
End Routes.

(** X1.  Access to the debug route of [worker.js].  Without a configured
    admin key the answer is 503 whatever the request presents.  With
    one, access is granted exactly to a request that presents it, as the
    token of a Bearer authorization header or, when there is no such
    header, as the [key] parameter: the answer is then 200, or the test
    error when [error=true] is asked for; every other request is
    answered 401.  A Bearer header overrides the [key] parameter. *)
Theorem debug_access_control {RT : Runtime} (net : Network) (request : Request)
        (env : Env) (s : State) :
  method request <> "OPTIONS" ->
  pathname request = "/debug-sentry" ->
  let out := fst (run net (fetch worker_js request env) s) in
  ((forall adminKey, ~ configured env adminKey) ->
   exists response,
     out = inr response /\ rstatus response = 503
     /\ error_of response = Some "Admin endpoint not configured")
  /\ (forall adminKey, configured env adminKey ->
        (presents request adminKey ->
         searchParams_get "error" (searchParams request) = Some "true" ->
         out = inl (new_Error "Test error from /debug-sentry endpoint"))
        /\ (presents request adminKey ->
            searchParams_get "error" (searchParams request) <> Some "true" ->
            exists response rest,
              out = inr response /\ rstatus response = 200
              /\ body response = Some (VObj (("success", VBool true) :: rest)))
        /\ (~ presents request adminKey ->
            exists response,
              out = inr response /\ rstatus response = 401
              /\ error_of response = Some "Unauthorized. Admin access required.")
        /\ (forall token, authorization request = Some ("Bearer " ++ token)%string ->
              token <> adminKey ->
              exists response, out = inr response /\ rstatus response = 401)).
Proof.
  intros Hm Hp out. subst out. rewrite (fetch_debug_route request env Hm Hp).
  destruct (run_debug_sentry net request env s) as [Hnone Hsome]. split.
  - intros H. rewrite (Hnone H). eexists. repeat split.
  - intros adminKey Hconf.
    destruct (Hsome adminKey Hconf) as (Herr & Hok & Hno).
    split; [exact Herr|]. split; [exact Hok|]. split; [exact Hno|].
    intros token Hauth Htoken.
    destruct Hno as (response & Hout & Hstatus & _); [|eauto].
    unfold presents. rewrite Hauth. intros [Heq|[Hb _]].
    + apply (f_equal (string_slice_from 7)) in Heq.
      rewrite !bearer_token in Heq. contradiction.
    + rewrite (startsWith_app "Bearer " token) in Hb. discriminate.
Qed.

(** X2.  The handler rejects in one case only: the test error of the debug
    route of [worker.js], asked for by a request that presents the
    configured admin key.  Every other run resolves to a response; the
    rejecting run makes no call. *)
Theorem handler_rejects_only_for_test_error {RT : Runtime} (rev : Revision)
        (net : Network) (request : Request) (env : Env) (s s' : State)
        (e : Error) :
  run net (fetch rev request env) s = (inl e, s')
  <-> (debug_endpoint rev = true
       /\ method request <> "OPTIONS"
       /\ pathname request = "/debug-sentry"
       /\ (exists adminKey, configured env adminKey /\ presents request adminKey)
       /\ searchParams_get "error" (searchParams request) = Some "true"
       /\ e = new_Error "Test error from /debug-sentry endpoint"
       /\ s' = s).
Proof.
  split.
  - intros Hrun. unfold fetch in Hrun.
    destruct (String.eqb_spec (method request) "OPTIONS") as [E|Hm]; [discriminate|].
    destruct (debug_endpoint rev) eqn:Hd; cbn [andb] in Hrun;
      [|rewrite run_terrain in Hrun; discriminate].
    destruct (String.eqb_spec (pathname request) "/debug-sentry") as [Hp|_];
      [|rewrite run_terrain in Hrun; discriminate].
    pose proof (run_debug_sentry_state net request env s) as Hs.
    rewrite Hrun in Hs. cbn [snd] in Hs.
    destruct (run_debug_sentry net request env s) as [Hnone Hsome].
    rewrite Hrun in Hnone, Hsome. cbn [fst] in Hnone, Hsome.
    destruct (truthy_param (ADMIN_API_KEY env)) as [k|] eqn:Hk.
    + apply truthy_param_Some in Hk.
      destruct (Hsome k Hk) as (Herr & Hok & Hno).
      assert (Hpres : presents request k).
      { destruct (truthy_param
                    match authorization request with
                    | Some authHeader =>
                        if startsWith authHeader "Bearer "
                        then Some (string_slice_from 7 authHeader)
                        else searchParams_get "key" (searchParams request)
                    | None => searchParams_get "key" (searchParams request)
                    end) as [provided|] eqn:Hprov.
        - destruct (String.eqb_spec provided k) as [->|Hdiff].
          + apply (provided_key request k (proj2 Hk)). exact Hprov.
          + exfalso. destruct Hno as (response & Hout & _); [|discriminate].
            intros H. apply (provided_key request k (proj2 Hk)) in H. congruence.
        - exfalso. destruct Hno as (response & Hout & _); [|discriminate].
          intros H. apply (provided_key request k (proj2 Hk)) in H. congruence. }
      assert (Herror : searchParams_get "error" (searchParams request) = Some "true").
      { destruct (searchParams_get "error" (searchParams request)) as [x|] eqn:Hx.
        - destruct (String.eqb_spec x "true") as [->|Hne]; [reflexivity|].
          exfalso. destruct (Hok Hpres) as (response & rest & Hout & _);
            [congruence|discriminate].
        - exfalso. destruct (Hok Hpres) as (response & rest & Hout & _);
            [discriminate|discriminate]. }
      specialize (Herr Hpres Herror). injection Herr as ->.
      repeat split; eauto.
    + exfalso. assert (Hn : forall adminKey, ~ configured env adminKey).
      { intros a Ha. apply truthy_param_Some in Ha. congruence. }
      specialize (Hnone Hn). discriminate.
  - intros (Hd & Hm & Hp & (k & Hconf & Hpres) & Herror & -> & ->).
    unfold fetch.
    destruct (String.eqb_spec (method request) "OPTIONS") as [E|_]; [contradiction|].
    rewrite Hd, Hp, String.eqb_refl. cbn [andb].
    destruct (run_debug_sentry net request env s) as [_ Hsome].
    destruct (Hsome k Hconf) as (Herr & _).
    specialize (Herr Hpres Herror).
    pose proof (run_debug_sentry_state net request env s) as Hs.
    destruct (run net (debug_sentry request env) s) as [out s1].
    cbn [fst snd] in *. congruence.
Qed.

(** X3.  The preflight is answered before the path is looked at: 200 with no
    body and the CORS headers, also on the debug route and without any
    key.  Neither the preflight nor the debug route calls a
    collaborator, the cache or the timer.  The earlier worker has no
    debug route: there the path is not looked at. *)
Theorem preflight_and_debug_make_no_call {RT : Runtime} (rev : Revision)
        (net : Network) (request : Request) (env : Env) (s : State) :
  (method request = "OPTIONS" ->
   run net (fetch rev request env) s
   = (inr {| rstatus := 200; body := None; headers := corsHeaders |}, s))
  /\ (debug_endpoint rev = true -> pathname request = "/debug-sentry" ->
      snd (run net (fetch rev request env) s) = s
      /\ calls_of net (fetch rev request env) s = [])
  /\ (debug_endpoint rev = false -> method request <> "OPTIONS" ->
      fetch rev request env = terrain rev request env).
Proof.
  split; [|split].
  - intros Hm. unfold fetch. rewrite Hm. reflexivity.
  - intros Hd Hp.
    assert (Hs : snd (run net (fetch rev request env) s) = s).
    { unfold fetch. destruct (String.eqb (method request) "OPTIONS"); [reflexivity|].
      rewrite Hd, Hp. apply run_debug_sentry_state. }
    split; [exact Hs|]. apply calls_of_unique. rewrite Hs, app_nil_r. reflexivity.
  - intros Hd Hm. apply fetch_terrain_route; auto.
Qed.

(* ================================================================== *)
(** * The calls of a run of the terrain route *)
(* ================================================================== *)

Lemma count_app (p : call -> bool) (a b : list call) :
  count p (a ++ b) = (count p a + count p b)%nat.
Proof. unfold count. rewrite List.filter_app, List.length_app. reflexivity. Qed.

Lemma count_zero (p : call -> bool) (calls : list call) :
  forallb (fun c => negb (p c)) calls = true <-> count p calls = 0%nat.
Proof.
  unfold count. induction calls as [|c calls IH]; [split; reflexivity|].
  cbn [forallb List.filter]. destruct (p c); cbn [negb andb List.length].
  - split; discriminate.
  - exact IH.
Qed.

Lemma count_cons (p : call -> bool) (c : call) (calls : list call) :
  count p (c :: calls) = ((if p c then 1 else 0) + count p calls)%nat.
Proof. unfold count. cbn [List.filter]. destruct (p c); reflexivity. Qed.

Section Calls.
Context {RT : Runtime} (rev : Revision) (net : Network).

Lemma resolution_calls_eq (request : Request) (s : State) :
  resolution_calls rev net request s
  = match truthy_param (searchParams_get "q" (searchParams request)) with
    | Some qs => [CallFetch (geoUrl qs) (net (fetches s) (geoUrl qs))]
    | None => []
    end.
Proof.
  unfold resolution_calls, resolution.
  destruct (truthy_param _); reflexivity.
Qed.

(** The calls of the fetcher: at most one elevation call per batch and
    at least one when there is a batch, fewer pauses than calls, each of
    the pacing delay, and nothing else. *)
Lemma sequential_calls_budget (bs : list (list Location)) :
  forall n,
    let calls := snd (sequential_calls rev net n bs) in
    (count is_elevation_call calls <= List.length bs)%nat
    /\ (bs <> [] -> (1 <= count is_elevation_call calls)%nat)
    /\ (count is_pause calls <= count is_elevation_call calls - 1)%nat
    /\ Forall (fun c => is_pause c = true -> c = CallSetTimeout (pacing_ms rev)) calls
    /\ count is_geocoding_call calls = 0%nat
    /\ count is_cache_read calls = 0%nat
    /\ count is_cache_write calls = 0%nat
    /\ List.length calls
       = (count is_elevation_call calls + count is_pause calls)%nat.
Proof.
  induction bs as [|b bs IH]; intros n calls; subst calls.
  - cbn [sequential_calls snd List.length]. unfold count. cbn [List.filter List.length].
    repeat split; try lia; try constructor. intros H. contradiction.
  - cbn [sequential_calls].
    pose proof (elevUrl_is_elevation_call b (net n (elevUrl b))) as Helev.
    assert (Hgeo : is_geocoding_call (CallFetch (elevUrl b) (net n (elevUrl b))) = false)
      by reflexivity.
    destruct (settled_batch (net n (elevUrl b))) as [e|es].
    + cbn [snd]. rewrite !count_cons, Helev, Hgeo. cbn [is_pause is_cache_read is_cache_write].
      unfold count. cbn [List.filter List.length].
      repeat split; try lia. constructor; [discriminate|constructor].
    + destruct (IH (S n)) as (H1 & H2 & H3 & H4 & H5 & H6 & H7 & H8).
      destruct (sequential_calls rev net (S n) bs) as [out calls].
      cbn [snd] in *.
      destruct bs as [|b' bs]; cbn [app].
      * rewrite !count_cons, Helev, Hgeo, H5, H6, H7.
        cbn [is_pause is_cache_read is_cache_write List.length] in *.
        rewrite H8. repeat split; try lia.
        constructor; [discriminate|]. exact H4.
      * specialize (H2 ltac:(discriminate)).
        rewrite !count_cons, Helev, Hgeo, H5, H6, H7.
        cbn [is_pause is_cache_read is_cache_write is_elevation_call
             is_geocoding_call List.length] in *.
        rewrite H8. repeat split; try lia.
        constructor; [discriminate|]. constructor; [reflexivity|]. exact H4.
Qed.

Lemma request_batches_length (request : Request) (c : Center) :
  List.length (request_batches request c)
  = totalBatches (Z.to_nat (grid_of request) * Z.to_nat (grid_of request)).
Proof.
  unfold request_batches, contiguous_batches.
  rewrite batches_of_length by (unfold BATCH_SIZE; lia).
  rewrite locations_length. reflexivity.
Qed.

(** The calls of a run, in their order: those of coordinate resolution,
    the cache lookup, those of the fetcher, the cache write.  The write
    is there exactly when the cache is bound and the response is a 200
    that is not served from the cache; the entry written is the body of
    the response. *)
Lemma terrain_run_calls (request : Request) (env : Env) (s : State) :
  let response := fst (terrain_run rev net request env s) in
  let s' := snd (terrain_run rev net request env s) in
  exists lookup elev put,
    trace s' = trace s ++ resolution_calls rev net request s ++ lookup ++ elev ++ put
    /\ (lookup = []
        \/ (CACHE env = true
            /\ exists c, resolved_center rev net request s = inr (inr c)
                 /\ lookup = [CallCacheGet (request_key request c)
                                (default VNull (kv s !! request_key request c))]))
    /\ (elev = []
        \/ exists c, reaches_compute rev net request env s c
             /\ elev = fetcher_calls rev net request s c)
    /\ ((put = [] /\ kv s' = kv s
         /\ CACHE env && (rstatus response =? 200)
            && negb (served_from_cache response) = false)
        \/ (CACHE env = true /\ rstatus response = 200
            /\ served_from_cache response = false
            /\ exists c r,
                 reaches_compute rev net request env s c
                 /\ response = json_response 200 (result_value r)
                 /\ put = [CallCachePut (request_key request c)
                             (to_json (result_value r)) expirationTtl]
                 /\ kv s' = <[request_key request c := to_json (result_value r)]> (kv s))).
Proof.
  intros response s'. subst response s'.
  destruct (terrain_run_cases rev net request env s)
    as [(e & _ & Hr & Hs')|[(early & He & Hr & Hs')|[(c & _ & _ & Hr & Hs')
       |[(c & cached & Hc & _ & Hcache & Hcached & _ & Hr & Hs')|(c & Hreach & Hrun)]]]].
  - exists [], [], []. rewrite Hs', Hr, !app_nil_r. cbn [advance trace kv].
    split; [reflexivity|]. split; [left; reflexivity|]. split; [left; reflexivity|].
    left. rewrite andb_false_r. auto.
  - exists [], [], []. rewrite Hs', Hr, !app_nil_r. cbn [advance trace kv].
    split; [reflexivity|]. split; [left; reflexivity|]. split; [left; reflexivity|].
    left. apply resolution_early in He.
    destruct He as [[-> _]|[-> _]]; rewrite andb_false_r; auto.
  - exists [], [], []. rewrite Hs', Hr, !app_nil_r. cbn [advance trace kv].
    split; [reflexivity|]. split; [left; reflexivity|]. split; [left; reflexivity|].
    left. rewrite andb_false_r. auto.
  - destruct (after_lookup_trace rev net request env s c) as (pre & Hpre & _ & Heq).
    rewrite Hcache in Heq. subst pre.
    exists [CallCacheGet (request_key request c)
              (default VNull (kv s !! request_key request c))], [], [].
    rewrite Hs', Hr, Hpre, !app_nil_r.
    split; [reflexivity|]. split; [right; eauto|]. split; [left; reflexivity|].
    left. split; [reflexivity|].
    split; [apply (after_lookup_fetches rev net request env s c)|].
    rewrite (proj1 (hit_is_served_from_cache cached)), andb_false_r. reflexivity.
  - destruct (after_lookup_trace rev net request env s c) as (pre & Hpre & _ & Heq).
    destruct (after_fetch_trace rev net request env s c) as (pre' & Hpre' & _ & Hkv).
    assert (Htrace : trace (after_fetch rev net request env s c)
                     = trace s ++ resolution_calls rev net request s
                       ++ (if CACHE env
                           then [CallCacheGet (request_key request c)
                                   (default VNull (kv s !! request_key request c))]
                           else [])
                       ++ fetcher_calls rev net request s c).
    { unfold after_fetch. cbn [advance trace]. rewrite Hpre, Heq, <- !app_assoc.
      reflexivity. }
    exists (if CACHE env
            then [CallCacheGet (request_key request c)
                    (default VNull (kv s !! request_key request c))]
            else []), (fetcher_calls rev net request s c).
    assert (Hlookup :
              (if CACHE env
               then [CallCacheGet (request_key request c)
                       (default VNull (kv s !! request_key request c))]
               else []) = []
              \/ (CACHE env = true
                  /\ exists c0, resolved_center rev net request s = inr (inr c0)
                       /\ (if CACHE env
                           then [CallCacheGet (request_key request c)
                                   (default VNull (kv s !! request_key request c))]
                           else [])
                          = [CallCacheGet (request_key request c0)
                               (default VNull (kv s !! request_key request c0))])).
    { destruct (CACHE env); [right|left; reflexivity].
      split; [reflexivity|]. exists c. split; [apply Hreach|reflexivity]. }
    destruct (rbind (fetched rev net request s c) (aggregate c (grid_of request)))
      as [e|r] eqn:Hagg; injection Hrun as Hr Hs'.
    + exists []. rewrite Hs', Hr, Htrace, !app_nil_r.
      split; [reflexivity|]. split; [exact Hlookup|]. split; [right; eauto|].
      left. split; [reflexivity|]. split; [exact Hkv|].
      rewrite andb_false_r. reflexivity.
    + destruct (CACHE env) eqn:Hcache.
      * exists [CallCachePut (request_key request c) (to_json (result_value r))
                  expirationTtl].
        rewrite Hs', Hr. unfold stored. cbn [trace kv].
        rewrite Htrace, Hkv, <- !app_assoc.
        split; [reflexivity|]. split; [exact Hlookup|]. split; [right; eauto|].
        right. split; [reflexivity|]. split; [reflexivity|].
        split; [apply fresh_is_not_served_from_cache|].
        exists c, r. repeat split; auto; apply Hreach.
      * exists []. rewrite Hs', Hr, Htrace, !app_nil_r.
        split; [reflexivity|]. split; [exact Hlookup|]. split; [right; eauto|].
        left. split; [reflexivity|]. split; [exact Hkv|reflexivity].
Qed.

Lemma terrain_calls_of (request : Request) (env : Env) (s : State) (calls : list call) :
  trace (snd (terrain_run rev net request env s)) = trace s ++ calls ->
  calls_of net (terrain rev request env) s = calls.
Proof.
  intros H. apply calls_of_unique. rewrite run_terrain. exact H.
Qed.
End Calls.

(* ================================================================== *)
(** * A query and explicit coordinates *)
(* ================================================================== *)

(** C9.  A text query takes precedence over explicit coordinates.  With
    a [q] that is not empty, the handler is the one of the request
    without [lat] and [lon]: they are ignored.  The first call of the
    run is the geocoding call for [q], the fetch of the search URL that
    carries [encodeURIComponent(q)].  When the geocoder answers with a
    body whose entry 0 has strings as [lat] and [lon], the resolver
    returns the center of that entry, its [lat] and [lon] parsed as
    numbers, under its [display_name]; and a 200 is then the answer for
    that center: the cache entry under the key of the center, or the
    result for the elevations fetched for the grid around the center,
    with the center and the name of the entry. *)
Theorem query_takes_precedence {RT : Runtime} (rev : Revision) (net : Network)
        (request : Request) (env : Env) (s : State) (q : string) :
  truthy_param (searchParams_get "q" (searchParams request)) = Some q ->
  let url := ("https://nominatim.openstreetmap.org/search?format=json&q="
              ++ encodeURIComponent q ++ "&limit=1")%string in
  terrain rev request env = terrain rev (without_coordinates request) env
  /\ (exists rest,
        calls_of net (terrain rev request env) s
        = CallFetch url (net (fetches s) url) :: rest)
  /\ (forall geoRes geoResult first lat lon,
        net (fetches s) url = inr geoRes ->
        ok geoRes = true -> json geoRes = Some geoResult ->
        truthy geoResult = true ->
        strict_eq_zero (get_prop geoResult "length") = false ->
        get_prop geoResult "0" = first ->
        get_prop first "lat" = VStr lat -> get_prop first "lon" = VStr lon ->
        let c := {| centerLat := parseFloat_string lat;
                    centerLon := parseFloat_string lon;
                    name := get_prop first "display_name" |} in
        let key := cacheKey c (size_of request) (grid_of request) in
        fst (run net (resolve rev (searchParams_get "q" (searchParams request))
                                  (searchParams_get "lat" (searchParams request))
                                  (searchParams_get "lon" (searchParams request))) s)
        = inr (inr c)
        /\ (forall response,
              fst (run net (terrain rev request env) s) = inr response ->
              rstatus response = 200 ->
              (served_from_cache response = true ->
               CACHE env = true
               /\ exists cached, kv s !! key = Some cached
                    /\ response = hit_response cached)
              /\ (served_from_cache response = false ->
                  exists r,
                    response = json_response 200 (result_value r)
                    /\ res_center r = (parseFloat_string lat, parseFloat_string lon)
                    /\ res_name r = get_prop first "display_name"
                    /\ fetched rev net request s c = inr (elevations r)))).
Proof.
  intros Hq url. split; [|split].
  - assert (Hsize : size_of (without_coordinates request) = size_of request).
    { unfold size_of, without_coordinates. cbn [searchParams].
      rewrite searchParams_get_without by discriminate. reflexivity. }
    assert (Hgrid : grid_of (without_coordinates request) = grid_of request).
    { unfold grid_of, without_coordinates. cbn [searchParams].
      rewrite searchParams_get_without by discriminate. reflexivity. }
    unfold terrain. cbv zeta. rewrite Hsize, Hgrid.
    unfold without_coordinates at 1. cbn [searchParams].
    rewrite searchParams_get_without by discriminate.
    unfold pipeline, resolve. rewrite Hq. reflexivity.
  - destruct (terrain_run_calls rev net request env s)
      as (lookup & elev & put & Htrace & _).
    rewrite resolution_calls_eq, Hq in Htrace.
    exists (lookup ++ elev ++ put).
    apply (terrain_calls_of rev net request env s). exact Htrace.
  - intros geoRes geoResult first lat lon Hnet Hok Hjson Htruthy Hlen Hfirst
           Hlat Hlon c key.
    assert (Hres : resolved_center rev net request s = inr (inr c)).
    { destruct (geocoding_answers rev net request env s q Hq) as [_ Hans].
      destruct (Hans geoRes Hnet) as (_ & _ & Hsome).
      destruct (Hsome geoResult Hok Hjson) as [_ Hfound].
      destruct (Hfound Htruthy Hlen) as [_ Hcenter].
      rewrite Hcenter.
      - rewrite Hfirst, Hlat, Hlon. reflexivity.
      - rewrite Hfirst. destruct first; try reflexivity; discriminate. }
    split; [rewrite run_resolve; exact Hres|].
    intros response Hrun Hstatus. rewrite run_terrain in Hrun. cbn [fst] in Hrun.
    injection Hrun as Hrun.
    pose proof (terrain_run_cases rev net request env s) as Hcases.
    cbv zeta in Hcases. rewrite Hrun in Hcases.
    destruct Hcases
      as [(e & He & _)|[(early & He & _)|[(c0 & Hc & _ & Hr & _)
         |[(c0 & cached & Hc & _ & Hcache & Hcached & Htr & Hr & _)
          |(c0 & Hreach & Hanswer)]]]].
    + rewrite Hres in He. discriminate He.
    + rewrite Hres in He. discriminate He.
    + rewrite Hr in Hstatus. discriminate Hstatus.
    + rewrite Hres in Hc. injection Hc as <-. rewrite Hr. split.
      * intros _. split; [exact Hcache|]. exists cached. split; [|reflexivity].
        change key with (request_key request c).
        destruct (kv s !! request_key request c) as [v|];
          cbn [default from_option id] in Hcached; subst cached;
          [reflexivity|discriminate Htr].
      * intros Hfresh.
        rewrite (proj1 (hit_is_served_from_cache cached)) in Hfresh.
        discriminate Hfresh.
    + assert (Hc : c0 = c).
      { destruct Hreach as (Hc0 & _). rewrite Hres in Hc0. congruence. }
      subst c0.
      destruct (fetched rev net request s c) as [e|es] eqn:Hfetched;
        cbn [rbind] in Hanswer;
        [injection Hanswer as Hr _; rewrite Hr in Hstatus; discriminate Hstatus|].
      destruct (aggregate c (grid_of request) es) as [e|r] eqn:Hagg;
        injection Hanswer as Hr _;
        [rewrite Hr in Hstatus; discriminate Hstatus|].
      rewrite Hr. split.
      * intros Hcached.
        rewrite (fresh_is_not_served_from_cache r) in Hcached. discriminate Hcached.
      * intros _. exists r. split; [reflexivity|].
        destruct (aggregate_spec c (grid_of request) es) as [Hempty Hsome].
        destruct (validElevations es) as [|v vs] eqn:Hv;
          [rewrite Hempty in Hagg by reflexivity; discriminate Hagg|].
        destruct Hsome as (r' & Hr' & Hes & _ & Hname & Hcenter & _);
          [discriminate|].
        assert (r' = r) by congruence. subst r'.
        split; [exact Hcenter|]. split; [exact Hname|]. rewrite Hes. reflexivity.
Qed.

(* ================================================================== *)
(** * The cache, seen from a run *)
(* ================================================================== *)

Section CacheUse.
Context {RT : Runtime} (rev : Revision) (net : Network).

(** When the cache does not answer, the response is a function of the
    request, of the network and of the number of fetches issued
    before. *)
Lemma terrain_run_miss (request : Request) (env env2 : Env) (s s2 : State) :
  fetches s2 = fetches s ->
  (forall c, resolved_center rev net request s = inr (inr c) ->
             misses env s (request_key request c) = true
             /\ misses env2 s2 (request_key request c) = true) ->
  fst (terrain_run rev net request env s) = fst (terrain_run rev net request env2 s2).
Proof.
  intros Hf Hmiss. unfold terrain_run, resolved_center, request_key, misses in *.
  rewrite Hf.
  destruct (resolution rev net (fetches s) _ _ _) as [[e|[early|c]] calls1];
    cbn [fst] in *; try reflexivity.
  destruct (is_nan (centerLat c) || is_nan (centerLon c)); [reflexivity|].
  destruct (Hmiss c eq_refl) as [H1 H2].
  apply negb_true_iff in H1, H2. rewrite H1, H2.
  assert (Hn : forall (e0 : Env) (s0 : State) (k : string) (v : value),
             fetches s0 = fetches s ->
             fetches (if CACHE e0 then advance (advance s0 calls1) [CallCacheGet k v]
                      else advance s0 calls1)
             = (fetches s + count_fetches calls1)%nat).
  { intros e0 s0 k v H0. destruct (CACHE e0); cbn [advance fetches]; rewrite H0;
      unfold count_fetches; cbn [List.filter is_fetch List.length]; lia. }
  rewrite (Hn env s _ _ eq_refl), (Hn env2 s2 _ _ Hf).
  destruct (computation rev net _ c _ _) as [[e|r] calls3]; reflexivity.
Qed.

End CacheUse.

(** X4.  Without the [CACHE] binding the handler never calls the cache: no
    lookup and no write is issued, the store is left as it was, and no
    response carries the [cached] flag. *)
Theorem unbound_cache_is_never_used {RT : Runtime} (rev : Revision)
        (net : Network) (request : Request) (env : Env) (s : State) :
  CACHE env = false ->
  let world := run net (terrain rev request env) s in
  let calls := calls_of net (terrain rev request env) s in
  count is_cache_read calls = 0%nat
  /\ count is_cache_write calls = 0%nat
  /\ kv (snd world) = kv s
  /\ exists response, fst world = inr response
       /\ served_from_cache response = false.
Proof.
  intros Hcache world calls. subst world calls. rewrite run_terrain. cbn [fst snd].
  destruct (terrain_run_calls rev net request env s)
    as (lookup & elev & put & Htrace & Hlookup & Helev & Hput).
  rewrite (terrain_calls_of rev net request env s _ Htrace).
  assert (Hl : lookup = []).
  { destruct Hlookup as [->|[H _]]; [reflexivity|congruence]. }
  assert (Hp : put = [] /\ kv (snd (terrain_run rev net request env s)) = kv s).
  { destruct Hput as [(-> & Hkv & _)|(H & _)]; [auto|congruence]. }
  destruct Hp as [-> Hkv]. subst lookup.
  assert (He : count is_cache_read elev = 0%nat /\ count is_cache_write elev = 0%nat).
  { destruct Helev as [->|(c & _ & ->)]; [split; reflexivity|].
    unfold fetcher_calls.
    destruct (sequential_calls_budget rev net (request_batches request c)
                (first_batch_fetch rev net request s))
      as (_ & _ & _ & _ & _ & H6 & H7 & _).
    auto. }
  destruct He as [He1 He2].
  rewrite !count_app, He1, He2, resolution_calls_eq.
  split; [|split; [|split; [exact Hkv|]]].
  - destruct (truthy_param _); reflexivity.
  - destruct (truthy_param _); reflexivity.
  - eexists. split; [reflexivity|].
    destruct (terrain_run_cases rev net request env s)
      as [(e & _ & Hr & _)|[(early & He & Hr & _)|[(c & _ & _ & Hr & _)
         |[(c & cached & _ & _ & Hc & _)|(c & Hreach & Hrun)]]]];
      [| | |congruence|].
    + rewrite Hr. reflexivity.
    + rewrite Hr. apply resolution_early in He.
      destruct He as [[-> _]|[-> _]]; reflexivity.
    + rewrite Hr. reflexivity.
    + destruct (rbind _ _) as [e|r]; injection Hrun as -> _; [reflexivity|].
      apply fresh_is_not_served_from_cache.
Qed.

(** X5.  A cache that does not answer is transparent: whenever the lookup
    misses, because the binding is absent, the key is, or the entry is
    not truthy, the response is the one that a worker without cache
    gives to the same request against the same network. *)
Theorem cache_miss_is_transparent {RT : Runtime} (rev : Revision)
        (net : Network) (request : Request) (env env2 : Env) (s s2 : State) :
  fetches s2 = fetches s ->
  CACHE env2 = false ->
  (forall c, resolved_center rev net request s = inr (inr c) ->
             misses env s (request_key request c) = true) ->
  fst (run net (terrain rev request env) s)
  = fst (run net (terrain rev request env2) s2).
Proof.
  intros Hf Hunbound Hmiss. rewrite !run_terrain. cbn [fst]. f_equal.
  apply terrain_run_miss; [exact Hf|].
  intros c Hc. split; [apply Hmiss, Hc|].
  unfold misses. rewrite Hunbound. reflexivity.
Qed.

(** X6.  The cache is written at most once in a run, as its last call, and
    only by a 200 that is not served from the cache: the entry is the
    body of the response, its key is the key of the resolved center, and
    it expires after 2592000 seconds.  Every other run leaves the store
    as it was. *)
Theorem cache_written_only_by_fresh_success {RT : Runtime} (rev : Revision)
        (net : Network) (request : Request) (env : Env) (s : State) :
  let world := run net (terrain rev request env) s in
  let calls := calls_of net (terrain rev request env) s in
  exists response,
    fst world = inr response
    /\ if CACHE env && (rstatus response =? 200)
          && negb (served_from_cache response)
       then exists front c entry,
              calls = front ++ [CallCachePut (request_key request c) entry 2592000]
              /\ resolved_center rev net request s = inr (inr c)
              /\ body response = Some entry
              /\ count is_cache_write front = 0%nat
              /\ kv (snd world) = <[request_key request c := entry]> (kv s)
       else count is_cache_write calls = 0%nat /\ kv (snd world) = kv s.
Proof.
  intros world calls. subst world calls. rewrite run_terrain. cbn [fst snd].
  eexists. split; [reflexivity|].
  destruct (terrain_run_calls rev net request env s)
    as (lookup & elev & put & Htrace & Hlookup & Helev & Hput).
  rewrite (terrain_calls_of rev net request env s _ Htrace).
  assert (Hquiet : count is_cache_write
                     (resolution_calls rev net request s ++ lookup ++ elev) = 0%nat).
  { rewrite !count_app, resolution_calls_eq.
    assert (H1 : count is_cache_write lookup = 0%nat).
    { destruct Hlookup as [->|(_ & c & _ & ->)]; reflexivity. }
    assert (H2 : count is_cache_write elev = 0%nat).
    { destruct Helev as [->|(c & _ & ->)]; [reflexivity|].
      unfold fetcher_calls.
      apply (sequential_calls_budget rev net (request_batches request c)
               (first_batch_fetch rev net request s)). }
    rewrite H1, H2. destruct (truthy_param _); reflexivity. }
  destruct Hput as [(-> & Hkv & Hcond)|(Hcache & Hstatus & Hfresh & c & r & Hreach
                                        & Hresp & -> & Hkv)].
  - rewrite Hcond, !app_nil_r in *.
    rewrite !app_assoc in *. rewrite <- !app_assoc in Hquiet. rewrite <- !app_assoc.
    split; [exact Hquiet|exact Hkv].
  - rewrite Hcache, Hstatus, Hfresh. cbn [andb negb Z.eqb Pos.eqb].
    exists (resolution_calls rev net request s ++ lookup ++ elev), c,
           (to_json (result_value r)).
    split; [rewrite <- !app_assoc; reflexivity|].
    split; [apply Hreach|]. split; [rewrite Hresp; reflexivity|].
    split; [exact Hquiet|exact Hkv].
Qed.

(** X7.  The calls of a run are bounded by the request: one geocoding call
    exactly when [q] is not empty, at most one cache lookup and one cache
    write and none when the cache is not bound, at most one elevation
    call per batch of 100 of the [grid * grid] points, fewer pauses than
    elevation calls, each of the pacing delay, and nothing else. *)
Theorem call_budget {RT : Runtime} (rev : Revision) (net : Network)
        (request : Request) (env : Env) (s : State) :
  let calls := calls_of net (terrain rev request env) s in
  let points := (Z.to_nat (grid_of request) * Z.to_nat (grid_of request))%nat in
  count is_geocoding_call calls
  = match truthy_param (searchParams_get "q" (searchParams request)) with
    | Some _ => 1%nat
    | None => 0%nat
    end
  /\ (count is_cache_read calls <= if CACHE env then 1 else 0)%nat
  /\ (count is_cache_write calls <= if CACHE env then 1 else 0)%nat
  /\ (count is_elevation_call calls <= totalBatches points)%nat
  /\ (count is_pause calls <= count is_elevation_call calls - 1)%nat
  /\ Forall (fun c => is_pause c = true -> c = CallSetTimeout (pacing_ms rev)) calls
  /\ List.length calls
     = (count is_geocoding_call calls + count is_cache_read calls
        + count is_elevation_call calls + count is_pause calls
        + count is_cache_write calls)%nat.
Proof.
  intros calls points. subst calls points.
  destruct (terrain_run_calls rev net request env s)
    as (lookup & elev & put & Htrace & Hlookup & Helev & Hput).
  rewrite (terrain_calls_of rev net request env s _ Htrace).
  assert (Hl : (lookup = [] \/ CACHE env = true /\ exists k v, lookup = [CallCacheGet k v])).
  { destruct Hlookup as [->|(Hc & c & _ & ->)]; [left; reflexivity|right; eauto]. }
  assert (Hp : (put = [] \/ CACHE env = true /\ exists k v t, put = [CallCachePut k v t])).
  { destruct Hput as [(-> & _)|(Hc & _ & _ & c & r & _ & _ & -> & _)];
      [left; reflexivity|right; eauto 6]. }
  assert (He : (count is_elevation_call elev
                <= totalBatches (Z.to_nat (grid_of request) * Z.to_nat (grid_of request)))%nat
               /\ (count is_pause elev <= count is_elevation_call elev - 1)%nat
               /\ Forall (fun c => is_pause c = true -> c = CallSetTimeout (pacing_ms rev)) elev
               /\ count is_geocoding_call elev = 0%nat
               /\ count is_cache_read elev = 0%nat
               /\ count is_cache_write elev = 0%nat
               /\ List.length elev
                  = (count is_elevation_call elev + count is_pause elev)%nat).
  { destruct Helev as [->|(c & _ & ->)].
    - unfold count. cbn [List.filter List.length]. repeat split; try lia. constructor.
    - unfold fetcher_calls.
      destruct (sequential_calls_budget rev net (request_batches request c)
                  (first_batch_fetch rev net request s))
        as (H1 & _ & H3 & H4 & H5 & H6 & H7 & H8).
      rewrite request_batches_length in H1. repeat split; assumption. }
  destruct He as (E1 & E2 & E3 & E4 & E5 & E6 & E7).
  set (geo := resolution_calls rev net request s).
  assert (Hg : count is_geocoding_call geo
               = match truthy_param (searchParams_get "q" (searchParams request)) with
                 | Some _ => 1%nat
                 | None => 0%nat
                 end
               /\ count is_cache_read geo = 0%nat
               /\ count is_elevation_call geo = 0%nat
               /\ count is_pause geo = 0%nat
               /\ count is_cache_write geo = 0%nat
               /\ List.length geo = count is_geocoding_call geo
               /\ Forall (fun c => is_pause c = true
                                   -> c = CallSetTimeout (pacing_ms rev)) geo).
  { subst geo. rewrite resolution_calls_eq.
    destruct (truthy_param _) as [qs|].
    - repeat split. repeat constructor. discriminate.
    - repeat split. constructor. }
  destruct Hg as (G1 & G2 & G3 & G4 & G5 & G6 & G7).
  assert (Hl' : count is_geocoding_call lookup = 0%nat
                /\ (count is_cache_read lookup <= if CACHE env then 1 else 0)%nat
                /\ count is_elevation_call lookup = 0%nat
                /\ count is_pause lookup = 0%nat
                /\ count is_cache_write lookup = 0%nat
                /\ List.length lookup = count is_cache_read lookup
                /\ Forall (fun c => is_pause c = true
                                    -> c = CallSetTimeout (pacing_ms rev)) lookup).
  { destruct Hl as [->|(Hc & k & v & ->)].
    - repeat split; [unfold count; cbn [List.filter List.length]; lia|constructor].
    - rewrite Hc. repeat split; [unfold count; cbn; lia|].
      repeat constructor. discriminate. }
  destruct Hl' as (L1 & L2 & L3 & L4 & L5 & L6 & L7).
  assert (Hp' : count is_geocoding_call put = 0%nat
                /\ count is_cache_read put = 0%nat
                /\ count is_elevation_call put = 0%nat
                /\ count is_pause put = 0%nat
                /\ (count is_cache_write put <= if CACHE env then 1 else 0)%nat
                /\ List.length put = count is_cache_write put
                /\ Forall (fun c => is_pause c = true
                                    -> c = CallSetTimeout (pacing_ms rev)) put).
  { destruct Hp as [->|(Hc & k & v & t & ->)].
    - repeat split; [unfold count; cbn [List.filter List.length]; lia|constructor].
    - rewrite Hc. repeat split; [unfold count; cbn; lia|].
      repeat constructor. discriminate. }
  destruct Hp' as (P1 & P2 & P3 & P4 & P5 & P6 & P7).
  rewrite !count_app, !List.length_app.
  rewrite G1, G2, G3, G4, G5, G6, G1, L1, L3, L4, L5, L6, E4, E5, E6, E7,
          P1, P2, P3, P4, P6.
  repeat split; try lia.
  repeat (apply Forall_app; split); assumption.
Qed.

(** X8.  A negative [grid] is taken as it is: the generator yields no point,
    the fetcher makes no call, and a run that reaches it is answered 500
    for want of valid elevation data, the store left as it was. *)
Theorem negative_grid_yields_no_data {RT : Runtime} (rev : Revision)
        (net : Network) (request : Request) (env : Env) (s : State) (c : Center) :
  grid_of request < 0 ->
  reaches_compute rev net request env s c ->
  locations c (size_of request) (grid_of request) = []
  /\ fetcher_calls rev net request s c = []
  /\ fst (run net (terrain rev request env) s)
     = inr (error_response (new_Error "No valid elevation data for this location"))
  /\ count is_elevation_call (calls_of net (terrain rev request env) s) = 0%nat
  /\ kv (snd (run net (terrain rev request env) s)) = kv s.
Proof.
  intros Hneg Hreach.
  assert (Hloc : locations c (size_of request) (grid_of request) = []).
  { apply List.length_zero_iff_nil. rewrite locations_length.
    replace (Z.to_nat (grid_of request)) with 0%nat by lia. reflexivity. }
  assert (Hcalls : fetcher_calls rev net request s c = []
                   /\ fetched rev net request s c = inr []).
  { unfold fetcher_calls, fetched, request_batches. rewrite Hloc.
    split; reflexivity. }
  destruct Hcalls as [Hcalls Hfetched].
  split; [exact Hloc|]. split; [exact Hcalls|].
  rewrite run_terrain. cbn [fst snd].
  pose proof (terrain_run_reaches rev net request env s c Hreach) as Hrun.
  rewrite Hfetched in Hrun. cbn [rbind] in Hrun.
  rewrite (proj1 (aggregate_spec c (grid_of request) [])) in Hrun by reflexivity.
  rewrite Hrun. cbn [fst snd].
  destruct (after_fetch_trace rev net request env s c) as (pre & Hpre & Hquiet & Hkv).
  split; [reflexivity|]. split; [|exact Hkv].
  rewrite Hcalls, app_nil_r in Hpre.
  assert (Htrace : trace (snd (terrain_run rev net request env s)) = trace s ++ pre)
    by (rewrite Hrun; exact Hpre).
  rewrite (terrain_calls_of rev net request env s _ Htrace).
  apply count_zero. apply forallb_forall. intros x Hx.
  destruct (quiet_not_elevation _ _ Hquiet Hx) as [-> _]. reflexivity.
Qed.

(** X9.  Whatever the samples, a result of the aggregator has statistics
    that are numbers, in order: neither [minElev] nor [maxElev] is NaN,
    [minElev] is at most [maxElev], and both are attained by a valid
    sample of the array, which is kept as it came. *)
Theorem statistics_are_ordered_numbers {RT : Runtime} (c : Center) (grid : Z)
        (es : list value) (r : TerrainResult) :
  aggregate c grid es = inr r ->
  is_nan (minElev r) = false
  /\ is_nan (maxElev r) = false
  /\ PrimFloat.leb (minElev r) (maxElev r) = true
  /\ elevations r = es
  /\ exists lowest highest,
       In lowest es /\ In highest es
       /\ valid lowest = true /\ valid highest = true
       /\ minElev r = ToNumber lowest /\ maxElev r = ToNumber highest.
Proof.
  intros Hagg. destruct (aggregate_spec c grid es) as [Hempty Hsome].
  destruct (validElevations es) as [|v vs] eqn:Hv.
  { rewrite Hempty in Hagg by reflexivity. discriminate. }
  destruct Hsome as (r' & Hr' & Hes & _ & _ & _ & Hb & (lo & Hlo & Hvlo & Hmin)
                     & (hi & Hhi & Hvhi & Hmax)); [discriminate|].
  assert (r' = r) by congruence. subst r'.
  assert (Hnum : forall x, valid x = true -> is_nan (ToNumber x) = false).
  { intros x Hx. unfold valid, isNaN in Hx. apply andb_true_iff in Hx.
    destruct Hx as [_ Hx]. apply negb_true_iff in Hx. exact Hx. }
  split; [rewrite Hmin; apply Hnum, Hvlo|].
  split; [rewrite Hmax; apply Hnum, Hvhi|].
  split; [rewrite Hmax; apply (Hb hi Hhi Hvhi)|].
  split; [exact Hes|]. exists lo, hi. repeat split; assumption.
Qed.

(** X10.  A request that is answered 400 or 404 stops after coordinate
    resolution: its only call is the geocoding call of a request with
    [q], the cache is neither read nor written, and the elevation
    collaborator is not called.  Without [q] there is no call at all. *)
Theorem client_errors_stop_early {RT : Runtime} (rev : Revision)
        (net : Network) (request : Request) (env : Env) (s : State)
        (response : Response) :
  fst (run net (terrain rev request env) s) = inr response ->
  rstatus response = 400 \/ rstatus response = 404 ->
  let calls := calls_of net (terrain rev request env) s in
  calls = match truthy_param (searchParams_get "q" (searchParams request)) with
          | Some qs => [CallFetch (geoUrl qs) (net (fetches s) (geoUrl qs))]
          | None => []
          end
  /\ count is_cache_read calls = 0%nat
  /\ count is_elevation_call calls = 0%nat
  /\ kv (snd (run net (terrain rev request env) s)) = kv s.
Proof.
  intros Hresp Hstatus calls. subst calls.
  rewrite run_terrain in *. cbn [fst snd] in *. injection Hresp as Hresp.
  assert (Hs' : snd (terrain_run rev net request env s)
                = advance s (resolution_calls rev net request s)).
  { destruct (terrain_run_cases rev net request env s)
      as [(e & _ & _ & Hs')|[(early & _ & _ & Hs')|[(c & _ & _ & _ & Hs')
         |[(c & cached & _ & _ & _ & _ & _ & Hr & _)|(c & _ & Hrun)]]]];
      try exact Hs'; exfalso; rewrite Hresp in *.
    - rewrite Hr in Hstatus.
      rewrite (proj2 (hit_is_served_from_cache cached)) in Hstatus.
      destruct Hstatus; discriminate.
    - destruct (rbind _ _); injection Hrun as Hr _; rewrite Hr in Hstatus;
        destruct Hstatus; discriminate. }
  rewrite (terrain_calls_of rev net request env s
             (resolution_calls rev net request s))
    by (rewrite Hs'; reflexivity).
  rewrite Hs', resolution_calls_eq. cbn [advance kv].
  split; [reflexivity|].
  destruct (truthy_param _); repeat split.
Qed.

(** X11.  The [cached] flag tells the truth: a response of the terrain route
    carries it exactly when the cache is bound and the lookup found a
    truthy entry under the key of the resolved center; the response is
    then that entry with the flag, and the run has called neither the
    elevation collaborator nor the timer. *)
Theorem cached_flag_is_truthful {RT : Runtime} (rev : Revision)
        (net : Network) (request : Request) (env : Env) (s : State)
        (response : Response) :
  fst (run net (terrain rev request env) s) = inr response ->
  served_from_cache response = true
  <-> (CACHE env = true
       /\ exists c cached,
            resolved_center rev net request s = inr (inr c)
            /\ is_nan (centerLat c) || is_nan (centerLon c) = false
            /\ kv s !! request_key request c = Some cached
            /\ truthy cached = true
            /\ response = hit_response cached
            /\ count is_elevation_call (calls_of net (terrain rev request env) s)
               = 0%nat
            /\ count is_pause (calls_of net (terrain rev request env) s) = 0%nat).
Proof.
  intros Hresp. split.
  - intros Hflag. rewrite run_terrain in Hresp. cbn [fst] in Hresp.
    injection Hresp as Hresp.
    destruct (terrain_run_cases rev net request env s)
      as [(e & _ & Hr & _)|[(early & He & Hr & _)|[(c & _ & _ & Hr & _)
         |[(c & cached & Hc & Hnan & Hcache & Hcached & Htruthy & Hr & Hs')
          |(c & _ & Hrun)]]]];
      try rewrite Hresp in Hr.
    + exfalso. rewrite Hr in Hflag. discriminate.
    + exfalso. rewrite Hr in Hflag. apply resolution_early in He.
      destruct He as [[-> _]|[-> _]]; discriminate.
    + exfalso. rewrite Hr in Hflag. discriminate.
    + split; [exact Hcache|]. exists c, cached.
      assert (Hkv : kv s !! request_key request c = Some cached).
      { destruct (kv s !! request_key request c) as [v|] eqn:Hkv;
          cbn [default from_option id] in Hcached; subst cached;
          [reflexivity|discriminate]. }
      destruct (run_hit rev net request env s c cached Hcache Hc Hnan Hkv Htruthy)
        as (Hrun & Htrace & _).
      rewrite (calls_of_unique net (terrain rev request env) s
                 (resolution_calls rev net request s
                  ++ [CallCacheGet (request_key request c) cached]))
        by (rewrite Hrun; exact Htrace).
      rewrite !count_app, resolution_calls_eq.
      repeat (split; [assumption|]).
      destruct (truthy_param _); split; reflexivity.
    + exfalso. destruct (rbind _ _) as [e|r]; injection Hrun as Hr _;
        rewrite Hresp in Hr; rewrite Hr in Hflag; [discriminate|].
      rewrite fresh_is_not_served_from_cache in Hflag. discriminate.
  - intros (_ & c & cached & _ & _ & _ & _ & -> & _).
    apply hit_is_served_from_cache.
Qed.

(* ================================================================== *)
(** * Responses and what they tell *)
(* ================================================================== *)

Lemma length_substring_le (n m : nat) (s : string) :
  (String.length (String.substring n m s) <= m)%nat.
Proof.
  revert n m. induction s as [|a s IH]; intros n m.
  - destruct n, m; cbn; lia.
  - destruct n as [|n]; destruct m as [|m]; cbn [String.substring String.length];
      try lia.
    + specialize (IH 0%nat m). lia.
    + apply IH.
    + apply IH.
Qed.

Section Thrown.
Context {RT : Runtime}.

Lemma member_thrown (v : value) (k : string) (e : Error) :
  member v k = inl e -> thrown_by_engine e.
Proof.
  destruct v; cbn [member]; intros H; try discriminate;
    injection H as <-; left; reflexivity.
Qed.

Lemma res_json_thrown (res : HttpResponse) (e : Error) :
  res_json res = inl e -> thrown_by_engine e.
Proof.
  unfold res_json. destruct (json res); [discriminate|].
  intros H. injection H as <-. right. reflexivity.
Qed.

Lemma read_geocode_thrown (geoRes : HttpResponse) (e : Error) :
  read_geocode geoRes = inl e -> thrown_by_engine e \/ thrown_by_handler e.
Proof.
  unfold read_geocode. destruct (ok geoRes); cbn [negb].
  - intros H. left. exact (res_json_thrown _ _ H).
  - intros H. injection H as <-. right. split; [reflexivity|]. left. eauto.
Qed.

Lemma first_candidate_thrown (geoResult : value) (e : Error) :
  first_candidate geoResult = inl e -> thrown_by_engine e.
Proof.
  unfold first_candidate.
  destruct (negb (truthy geoResult) || strict_eq_zero (get_prop geoResult "length"));
    [discriminate|].
  unfold rbind.
  destruct (member _ "lat") as [e1|x1] eqn:H1;
    [intros H; injection H as <-; exact (member_thrown _ _ _ H1)|].
  destruct (member _ "lon") as [e2|x2] eqn:H2;
    [intros H; injection H as <-; exact (member_thrown _ _ _ H2)|].
  destruct (member _ "display_name") as [e3|x3] eqn:H3;
    [intros H; injection H as <-; exact (member_thrown _ _ _ H3)|].
  discriminate.
Qed.

Lemma mapM_member_thrown (rs : list value) (e : Error) :
  mapM (fun r => member r "elevation") rs = inl e -> thrown_by_engine e.
Proof.
  induction rs as [|r rs IH]; [discriminate|]. cbn [mapM].
  destruct (member r "elevation") as [e1|x] eqn:H1;
    [intros H; injection H as <-; exact (member_thrown _ _ _ H1)|].
  destruct (mapM _ rs) as [e2|xs]; [|discriminate].
  intros H. injection H as <-. apply IH. reflexivity.
Qed.

Lemma read_batch_thrown (elevRes : HttpResponse) (e : Error) :
  read_batch elevRes = inl e -> thrown_by_engine e \/ thrown_by_handler e.
Proof.
  unfold read_batch. destruct (ok elevRes); cbn [negb].
  - unfold rbind.
    destruct (res_json elevRes) as [e1|elevData] eqn:H1;
      [intros H; injection H as <-; left; exact (res_json_thrown _ _ H1)|].
    destruct (member elevData "status") as [e2|st] eqn:H2;
      [intros H; injection H as <-; left; exact (member_thrown _ _ _ H2)|].
    destruct (negb (strict_eq_string st "OK")
              || negb (truthy (get_prop elevData "results"))).
    + intros H. injection H as <-. right. split; [reflexivity|].
      right. right. left. eauto.
    + unfold results_elevations.
      destruct (get_prop elevData "results"); intros H;
        try (injection H as <-; left; left; reflexivity).
      left. exact (mapM_member_thrown _ _ H).
  - intros H. injection H as <-. right. split; [reflexivity|].
    right. left. exists (pretty (status elevRes)), (String.substring 0 200 (text elevRes)).
    split; [reflexivity|apply length_substring_le].
Qed.

Lemma aggregate_thrown (c : Center) (grid : Z) (es : list value) (e : Error) :
  aggregate c grid es = inl e -> thrown_by_handler e.
Proof.
  unfold aggregate. destruct (List.length (validElevations es) =? 0)%nat; [|discriminate].
  intros H. injection H as <-. split; [reflexivity|]. tauto.
Qed.

Context (rev : Revision) (net : Network).

Lemma sequential_calls_thrown (bs : list (list Location)) :
  forall n e,
    fst (sequential_calls rev net n bs) = inl e ->
    rejected_fetch net e \/ thrown_by_engine e \/ thrown_by_handler e.
Proof.
  induction bs as [|b bs IH]; intros n e; [discriminate|].
  cbn [sequential_calls].
  destruct (net n (elevUrl b)) as [e0|elevRes] eqn:Hnet; cbn [settled_batch].
  - cbn [fst]. intros H. injection H as <-. left. exists n, (elevUrl b). exact Hnet.
  - destruct (read_batch elevRes) as [e0|es] eqn:Hread.
    + cbn [fst]. intros H. injection H as <-. right. exact (read_batch_thrown _ _ Hread).
    + specialize (IH (S n) e).
      destruct (sequential_calls rev net (S n) bs) as [[e1|es'] calls]; cbn [fst] in *;
        [|discriminate].
      intros H. injection H as <-. apply IH. reflexivity.
Qed.

Lemma resolution_thrown (n : nat) (q lat lon : option string) (e : Error) :
  fst (resolution rev net n q lat lon) = inl e ->
  rejected_fetch net e \/ thrown_by_engine e \/ thrown_by_handler e.
Proof.
  unfold resolution. destruct (truthy_param q) as [qs|]; cbn [fst].
  - destruct (net n (geoUrl qs)) as [e0|geoRes] eqn:Hnet.
    + intros H. injection H as <-. left. exists n, (geoUrl qs). exact Hnet.
    + unfold rbind. destruct (read_geocode geoRes) as [e0|geoResult] eqn:Hread.
      * intros H. injection H as <-. right. exact (read_geocode_thrown _ _ Hread).
      * intros H. right. left. exact (first_candidate_thrown _ _ H).
  - destruct (truthy_param lat), (truthy_param lon); discriminate.
Qed.

(** The responses of the terrain route. *)
Lemma terrain_response_shape (request : Request) (env : Env) (s : State) :
  let response := fst (terrain_run rev net request env s) in
  (exists e, response = error_response e)
  \/ (exists status msg, response = json_response status (error_body msg)
        /\ (status = 404 \/ status = 400) /\ msg <> "")
  \/ (exists cached, response = hit_response cached)
  \/ (exists r, response = json_response 200 (result_value r)).
Proof.
  intros response. subst response.
  destruct (terrain_run_cases rev net request env s)
    as [(e & _ & Hr & _)|[(early & He & Hr & _)|[(c & _ & _ & Hr & _)
       |[(c & cached & _ & _ & _ & _ & _ & Hr & _)|(c & Hreach & Hrun)]]]].
  - left. eauto.
  - right. left. rewrite Hr. apply resolution_early in He.
    destruct He as [[-> _]|[-> _]]; eexists _, _; (split; [reflexivity|]);
      (split; [auto|discriminate]).
  - right. left. rewrite Hr. eexists _, _. split; [reflexivity|].
    split; [auto|discriminate].
  - right. right. left. eauto.
  - destruct (rbind _ _) as [e|r]; injection Hrun as -> _;
      [left; eauto|right; right; right; eauto].
Qed.
End Thrown.

Lemma error_of_error_response (e : Error) :
  exists msg, error_of (error_response e) = Some msg /\ msg <> "".
Proof.
  unfold error_response, error_of, json_response. cbn [body to_json lookup_prop].
  change (("error" =? "error")%string) with true. cbv iota.
  destruct (String.eqb_spec (message e) "") as [_|Hne]; eexists; split;
    try reflexivity; [discriminate|exact Hne].
Qed.

(** X12.  The status of a response of the terrain route tells its cause.  A
    404 comes from a geocoding call that succeeded with no candidate; a
    400 from a request without [q] that lacks [lat] or [lon], or from a
    center whose coordinates are not numbers; a 500 is the answer of
    the [catch] clause to an exception that the [try] block threw; a 200
    is a cache hit or the result of a run that reached the fetcher. *)
Theorem status_reveals_cause {RT : Runtime} (rev : Revision) (net : Network)
        (request : Request) (env : Env) (s : State) (response : Response) :
  fst (run net (terrain rev request env) s) = inr response ->
  let q := truthy_param (searchParams_get "q" (searchParams request)) in
  let lat := truthy_param (searchParams_get "lat" (searchParams request)) in
  let lon := truthy_param (searchParams_get "lon" (searchParams request)) in
  (rstatus response = 404 ->
   error_of response = Some "Location not found"
   /\ exists qs geoRes geoResult,
        q = Some qs
        /\ net (fetches s) (geoUrl qs) = inr geoRes
        /\ ok geoRes = true /\ json geoRes = Some geoResult
        /\ (truthy geoResult = false
            \/ strict_eq_zero (get_prop geoResult "length") = true))
  /\ (rstatus response = 400 ->
      (error_of response = Some "Provide ?q=location or ?lat=X&lon=Y"
       /\ q = None /\ (lat = None \/ lon = None))
      \/ (error_of response = Some "Invalid coordinates"
          /\ exists c, resolved_center rev net request s = inr (inr c)
               /\ is_nan (centerLat c) || is_nan (centerLon c) = true))
  /\ (rstatus response = 500 ->
      exists e, caught rev net request env s e
        /\ response = error_response e)
  /\ (rstatus response = 200 ->
      exists c, resolved_center rev net request s = inr (inr c)
        /\ is_nan (centerLat c) || is_nan (centerLon c) = false
        /\ ((CACHE env = true
             /\ exists cached, kv s !! request_key request c = Some cached
                  /\ truthy cached = true /\ response = hit_response cached)
            \/ (reaches_compute rev net request env s c
                /\ exists r, rbind (fetched rev net request s c)
                                   (aggregate c (grid_of request)) = inr r
                     /\ response = json_response 200 (result_value r)))).
Proof.
  intros Hresp q lat lon. rewrite run_terrain in Hresp. cbn [fst] in Hresp.
  injection Hresp as Hresp.
  assert (Hcaught : rstatus response = 500 ->
            exists e, caught rev net request env s e
                      /\ response = error_response e).
  { intros H. rewrite <- Hresp in H.
    destruct (server_error_caught rev net request env s H) as (e & Hc & Hr).
    exists e. split; [exact Hc|]. rewrite <- Hresp. exact Hr. }
  pose proof (terrain_run_cases rev net request env s) as Hcases.
  cbv zeta in Hcases. rewrite Hresp in Hcases.
  split; [|split; [|split; [exact Hcaught|]]]; clear Hcaught; intros Hstatus;
    destruct Hcases
      as [(e & He & Hr & _)|[(early & He & Hr & _)|[(c & Hc & Hnan & Hr & _)
         |[(c & cached & Hc & Hnan & Hcache & Hcached & Htruthy & Hr & _)
          |(c & Hreach & Hrun)]]]].
  - (* 404 *)
    rewrite Hr in Hstatus. discriminate Hstatus.
  - rewrite Hr in Hstatus |- *.
    assert (Hearly := He). apply resolution_early in Hearly.
    unfold resolved_center, resolution in He. fold q lat lon in He.
    destruct Hearly as [[-> [qs Hq]]|[-> Hq]]; [|discriminate Hstatus].
    fold q in Hq. rewrite Hq in He. cbn [fst] in He.
    split; [reflexivity|].
    destruct (net (fetches s) (geoUrl qs)) as [e0|geoRes] eqn:Hnet; [discriminate|].
    unfold rbind, read_geocode, res_json in He.
    destruct (ok geoRes) eqn:Hok; cbn [negb] in He; [|discriminate].
    destruct (json geoRes) as [geoResult|] eqn:Hjson; [|discriminate].
    exists qs, geoRes, geoResult.
    split; [exact Hq|]. split; [exact Hnet|]. split; [exact Hok|].
    split; [exact Hjson|].
    unfold first_candidate in He.
    destruct (truthy geoResult); cbn [negb orb] in *; [|left; reflexivity].
    destruct (strict_eq_zero (get_prop geoResult "length")); [right; reflexivity|].
    exfalso. unfold rbind in He.
    repeat match type of He with
           | match ?m with _ => _ end = _ => destruct m; try discriminate
           end.
  - rewrite Hr in Hstatus. discriminate Hstatus.
  - rewrite Hr, (proj2 (hit_is_served_from_cache cached)) in Hstatus.
    discriminate Hstatus.
  - destruct (rbind (fetched rev net request s c) (aggregate c (grid_of request)));
      injection Hrun as Hr _; rewrite Hr in Hstatus; discriminate Hstatus.
  - (* 400 *)
    rewrite Hr in Hstatus. discriminate Hstatus.
  - rewrite Hr in Hstatus |- *.
    assert (Hearly := He). apply resolution_early in Hearly.
    destruct Hearly as [[-> _]|[-> Hq]]; [discriminate Hstatus|].
    left. split; [reflexivity|]. fold q in Hq. split; [exact Hq|].
    unfold resolved_center, resolution in He. fold q lat lon in He.
    rewrite Hq in He. cbn [fst] in He.
    destruct lat, lon; try discriminate; auto.
  - rewrite Hr. right. split; [reflexivity|]. eauto.
  - rewrite Hr, (proj2 (hit_is_served_from_cache cached)) in Hstatus.
    discriminate Hstatus.
  - destruct (rbind (fetched rev net request s c) (aggregate c (grid_of request)));
      injection Hrun as Hr _; rewrite Hr in Hstatus; discriminate Hstatus.
  - (* 200 *)
    rewrite Hr in Hstatus. discriminate Hstatus.
  - rewrite Hr in Hstatus. apply resolution_early in He.
    destruct He as [[-> _]|[-> _]]; discriminate Hstatus.
  - rewrite Hr in Hstatus. discriminate Hstatus.
  - rewrite Hr. exists c. split; [exact Hc|]. split; [exact Hnan|]. left.
    split; [exact Hcache|]. exists cached.
    split; [|split; [exact Htruthy|reflexivity]].
    destruct (kv s !! request_key request c) as [v|] eqn:Hkv;
      cbn [default from_option id] in Hcached; subst cached; [reflexivity|discriminate].
  - destruct (rbind (fetched rev net request s c) (aggregate c (grid_of request)))
      as [e|r] eqn:Hagg; injection Hrun as Hr _;
      [rewrite Hr in Hstatus; discriminate Hstatus|].
    rewrite Hr. exists c. destruct Hreach as (Hc & Hnan & Hmiss).
    split; [exact Hc|]. split; [exact Hnan|]. right.
    split; [repeat split; assumption|]. eauto.
Qed.

(** X13.  Every response of [fetch] has the same envelope: the three CORS
    headers, followed by the JSON content type unless it is the
    preflight answer, which alone has no body; a status among 200, 400,
    401, 404, 500 and 503, the 401 and the 503 on the debug route only;
    and, when the status is not 200, a body whose [error] is a string
    that is not empty. *)
Theorem response_envelope {RT : Runtime} (rev : Revision) (net : Network)
        (request : Request) (env : Env) (s : State) (response : Response) :
  fst (run net (fetch rev request env) s) = inr response ->
  headers response
  = (if String.eqb (method request) "OPTIONS" then corsHeaders
     else corsHeaders ++ [("Content-Type", "application/json")])
  /\ (body response = None <-> method request = "OPTIONS")
  /\ In (rstatus response) [200; 400; 401; 404; 500; 503]
  /\ (rstatus response = 401 \/ rstatus response = 503 ->
      debug_endpoint rev = true /\ pathname request = "/debug-sentry")
  /\ (rstatus response <> 200 ->
      exists msg, error_of response = Some msg /\ msg <> "").
Proof.
  unfold fetch.
  destruct (String.eqb_spec (method request) "OPTIONS") as [Hm|Hm].
  - cbn [run fst]. intros H. injection H as <-. cbn [headers body rstatus].
    split; [reflexivity|]. split; [tauto|]. split; [cbn; tauto|].
    split; [intros [H|H]; discriminate|]. intros H. contradiction.
  - destruct (debug_endpoint rev && String.eqb (pathname request) "/debug-sentry")
      eqn:Hroute.
    + apply andb_true_iff in Hroute. destruct Hroute as [Hd Hp].
      apply String.eqb_eq in Hp.
      unfold debug_sentry.
      repeat match goal with
             | |- context [match ?x with _ => _ end] => destruct x
             end; cbn [run fst]; intros H; try discriminate; injection H as <-;
        (split; [reflexivity|]);
        (split; [split; [discriminate|contradiction]|]);
        (split; [cbn; tauto|]);
        (split; [auto|]);
        intros Hne; try contradiction; eexists; (split; [reflexivity|discriminate]).
    + rewrite run_terrain. cbn [fst]. intros H. injection H as <-.
      destruct (terrain_response_shape rev net request env s)
        as [[e ->]|[(status & msg & -> & Hst & Hmsg)|[[cached ->]|[r ->]]]].
      * split; [reflexivity|]. split; [split; [discriminate|contradiction]|].
        split; [cbn; tauto|]. split; [intros [H|H]; discriminate|].
        intros _. apply error_of_error_response.
      * split; [reflexivity|]. split; [split; [discriminate|contradiction]|].
        split; [destruct Hst as [-> | ->]; cbn; tauto|].
        split; [destruct Hst as [-> | ->]; intros [H|H]; discriminate|].
        intros _. exists msg. split; [reflexivity|exact Hmsg].
      * split; [reflexivity|]. split; [split; [discriminate|contradiction]|].
        split; [cbn; tauto|]. split; [intros [H|H]; discriminate|].
        intros H. contradiction.
      * split; [reflexivity|]. split; [split; [discriminate|contradiction]|].
        split; [cbn; tauto|]. split; [intros [H|H]; discriminate|].
        intros H. contradiction.
Qed.

(* ================================================================== *)
(** * The first worker *)
(* ================================================================== *)

Section OpenMeteoFacts.
Context {RT : Runtime} (net : Network).

Lemma map_flat_map {A B C : Type} (f : B -> C) (g : A -> list B) (l : list A) :
  List.map f (flat_map g l) = flat_map (fun x => List.map f (g x)) l.
Proof.
  induction l as [|x l IH]; [reflexivity|].
  cbn [flat_map]. rewrite List.map_app, IH. reflexivity.
Qed.

(** One run of the first worker, past the preflight. *)
Lemma run_open_meteo (request : Request) (s : State) :
  method request <> "OPTIONS" ->
  let size := size_of request in
  let grid := grid_of request in
  let calls1 := resolution_calls worker_earlier net request s in
  run net (OpenMeteo.fetch request) s
  = match resolved_center worker_earlier net request s with
    | inl e => (inr (error_response e), advance s calls1)
    | inr (inl early) => (inr early, advance s calls1)
    | inr (inr c) =>
        if is_nan (centerLat c) || is_nan (centerLon c)
        then (inr (json_response 400 (error_body "Invalid coordinates")),
              advance s calls1)
        else
          let url := OpenMeteo.elevUrl c size grid in
          let reply := net (fetches s + count_fetches calls1)%nat url in
          (inr match rbind (match reply with
                            | inl e => inl e
                            | inr elevRes => OpenMeteo.read_elevation elevRes
                            end) (aggregate c grid) with
               | inl e => error_response e
               | inr r => json_response 200 (result_value r)
               end,
           advance s (calls1 ++ [CallFetch url reply]))
    end.
Proof.
  intros Hm size grid calls1. subst size grid calls1. unfold OpenMeteo.fetch.
  destruct (String.eqb_spec (method request) "OPTIONS") as [E|_]; [contradiction|].
  unfold OpenMeteo.pipeline, resolved_center, resolution_calls.
  rewrite run_try_catch, run_bind, run_resolve.
  destruct (resolution worker_earlier net (fetches s) _ _ _)
    as [[e|[early|c]] calls1]; cbn [fst snd]; try reflexivity.
  destruct (is_nan (centerLat c) || is_nan (centerLon c)); [reflexivity|].
  rewrite run_bind, run_await. cbn [perform advance fetches kv trace].
  set (reply := net _ _).
  assert (Hs : forall calls, advance s (calls1 ++ calls)
                 = mkState (kv s) (fetches s + count_fetches calls1 + count_fetches calls)
                           ((trace s ++ calls1) ++ calls)).
  { intros calls. unfold advance, count_fetches.
    rewrite List.filter_app, List.length_app, Nat.add_assoc, app_assoc. reflexivity. }
  rewrite Hs. unfold count_fetches at 3. cbn [List.filter is_fetch List.length].
  rewrite Nat.add_1_r.
  destruct reply as [e|elevRes]; cbn [rbind]; [reflexivity|].
  rewrite run_bind, run_lift.
  destruct (OpenMeteo.read_elevation elevRes) as [e|es]; cbn [rbind]; [reflexivity|].
  rewrite run_bind, run_lift.
  destruct (aggregate c (grid_of request) es) as [e|r]; reflexivity.
Qed.
End OpenMeteoFacts.

(** X14.  The first worker samples the grid of [worker.js]: its [lats] and
    [lons] are the latitudes and the longitudes of the points that the
    later generator pushes on [locations], in the same order, [grid *
    grid] of each. *)
Theorem open_meteo_same_grid {RT : Runtime} (c : Center) (size : float)
        (grid : Z) :
  OpenMeteo.lats c size grid = List.map lat (locations c size grid)
  /\ OpenMeteo.lons c size grid = List.map lon (locations c size grid)
  /\ List.length (OpenMeteo.lats c size grid)
     = (Z.to_nat grid * Z.to_nat grid)%nat
  /\ List.length (OpenMeteo.lons c size grid)
     = (Z.to_nat grid * Z.to_nat grid)%nat.
Proof.
  assert (H1 : OpenMeteo.lats c size grid = List.map lat (locations c size grid)).
  { unfold OpenMeteo.lats, locations. rewrite map_flat_map.
    apply flat_map_ext. intros i. rewrite List.map_map. reflexivity. }
  assert (H2 : OpenMeteo.lons c size grid = List.map lon (locations c size grid)).
  { unfold OpenMeteo.lons, locations. rewrite map_flat_map.
    apply flat_map_ext. intros i. rewrite List.map_map. reflexivity. }
  rewrite H1, H2, !List.length_map, locations_length. auto.
Qed.

(** X15.  The first worker makes one elevation call at most, whatever the
    grid: all points travel in a single URL.  With the geocoding call of
    a request with [q] this is two calls at most; there is no pause and
    no cache, and the answer has status 200, 400, 404 or 500. *)
Theorem open_meteo_single_call {RT : Runtime} (net : Network)
        (request : Request) (s : State) :
  let world := run net (OpenMeteo.fetch request) s in
  let calls := calls_of net (OpenMeteo.fetch request) s in
  kv (snd world) = kv s
  /\ (count is_open_meteo_call calls <= 1)%nat
  /\ (count is_geocoding_call calls
      <= match truthy_param (searchParams_get "q" (searchParams request)) with
         | Some _ => 1
         | None => 0
         end)%nat
  /\ List.length calls
     = (count is_geocoding_call calls + count is_open_meteo_call calls)%nat
  /\ exists response,
       fst world = inr response
       /\ In (rstatus response) [200; 400; 404; 500].
Proof.
  intros world calls. subst world calls.
  destruct (String.eqb_spec (method request) "OPTIONS") as [Hm|Hm].
  { assert (Hrun : run net (OpenMeteo.fetch request) s
                   = (inr {| rstatus := 200; body := None; headers := corsHeaders |}, s)).
    { unfold OpenMeteo.fetch. rewrite Hm. reflexivity. }
    rewrite (calls_of_unique net _ s []) by (rewrite Hrun, app_nil_r; reflexivity).
    rewrite Hrun. cbn [fst snd]. split; [reflexivity|].
    split; [unfold count; cbn; lia|]. split; [unfold count; cbn; lia|].
    split; [reflexivity|]. eexists. split; [reflexivity|]. cbn. tauto. }
  pose proof (run_open_meteo net request s Hm) as Hrun. cbv zeta in Hrun.
  pose proof (resolution_calls_eq worker_earlier net request s) as Hcalls.
  assert (Hgeo : forall qs reply,
             is_geocoding_call (CallFetch (geoUrl qs) reply) = true
             /\ is_open_meteo_call (CallFetch (geoUrl qs) reply) = false)
    by (intros; split; reflexivity).
  assert (Hfront :
            (count is_geocoding_call (resolution_calls worker_earlier net request s)
             <= match truthy_param (searchParams_get "q" (searchParams request)) with
                | Some _ => 1
                | None => 0
                end)%nat
            /\ count is_open_meteo_call (resolution_calls worker_earlier net request s)
               = 0%nat
            /\ List.length (resolution_calls worker_earlier net request s)
               = count is_geocoding_call (resolution_calls worker_earlier net request s)).
  { rewrite Hcalls. destruct (truthy_param _) as [qs|].
    - rewrite !count_cons, (proj1 (Hgeo _ _)), (proj2 (Hgeo _ _)).
      unfold count. cbn. lia.
    - unfold count. cbn. lia. }
  destruct Hfront as (F1 & F2 & F3).
  assert (Hquiet : calls_of net (OpenMeteo.fetch request) s
                   = resolution_calls worker_earlier net request s ->
                   (count is_open_meteo_call (calls_of net (OpenMeteo.fetch request) s)
                    <= 1)%nat
                   /\ (count is_geocoding_call (calls_of net (OpenMeteo.fetch request) s)
                       <= match truthy_param
                                  (searchParams_get "q" (searchParams request)) with
                          | Some _ => 1
                          | None => 0
                          end)%nat
                   /\ List.length (calls_of net (OpenMeteo.fetch request) s)
                      = (count is_geocoding_call (calls_of net (OpenMeteo.fetch request) s)
                         + count is_open_meteo_call
                             (calls_of net (OpenMeteo.fetch request) s))%nat).
  { intros ->. rewrite F2. repeat split; lia. }
  destruct (resolved_center worker_earlier net request s) as [e|[early|c]] eqn:Hres.
  - assert (Hc := calls_of_unique net (OpenMeteo.fetch request) s
                    (resolution_calls worker_earlier net request s)
                    ltac:(rewrite Hrun; reflexivity)).
    destruct (Hquiet Hc) as (Q1 & Q2 & Q3). rewrite Hrun. cbn [fst snd advance kv].
    repeat (split; [first [reflexivity|assumption]|]).
    eexists. split; [reflexivity|]. cbn. tauto.
  - assert (Hc := calls_of_unique net (OpenMeteo.fetch request) s
                    (resolution_calls worker_earlier net request s)
                    ltac:(rewrite Hrun; reflexivity)).
    destruct (Hquiet Hc) as (Q1 & Q2 & Q3). rewrite Hrun. cbn [fst snd advance kv].
    repeat (split; [first [reflexivity|assumption]|]).
    eexists. split; [reflexivity|].
    apply (resolution_early worker_earlier) in Hres.
    destruct Hres as [[-> _]|[-> _]]; cbn; tauto.
  - destruct (is_nan (centerLat c) || is_nan (centerLon c)).
    + assert (Hc := calls_of_unique net (OpenMeteo.fetch request) s
                      (resolution_calls worker_earlier net request s)
                      ltac:(rewrite Hrun; reflexivity)).
      destruct (Hquiet Hc) as (Q1 & Q2 & Q3). rewrite Hrun. cbn [fst snd advance kv].
      repeat (split; [first [reflexivity|assumption]|]).
      eexists. split; [reflexivity|]. cbn. tauto.
    + rewrite (calls_of_unique net (OpenMeteo.fetch request) s _
                 ltac:(rewrite Hrun; reflexivity)).
      rewrite Hrun. cbn [fst snd advance kv].
      rewrite !count_app, List.length_app, !count_cons, F2, F3.
      assert (Hom : forall reply,
                 is_open_meteo_call
                   (CallFetch (OpenMeteo.elevUrl c (size_of request) (grid_of request))
                              reply) = true
                 /\ is_geocoding_call
                      (CallFetch (OpenMeteo.elevUrl c (size_of request) (grid_of request))
                                 reply) = false)
        by (intros; split; reflexivity).
      rewrite (proj1 (Hom _)), (proj2 (Hom _)).
      change (count is_open_meteo_call []) with 0%nat.
      change (count is_geocoding_call []) with 0%nat. cbn [List.length].
      split; [reflexivity|]. split; [lia|]. split; [lia|]. split; [lia|].
      eexists. split; [reflexivity|].
      destruct (rbind _ _); cbn; tauto.
Qed.

(** X16.  A 200 of the first worker, the preflight apart, carries the
    [elevation] array of the collaborator's answer as it came, whatever
    its length, with statistics that bound every valid sample of it. *)
Theorem open_meteo_result {RT : Runtime} (net : Network) (request : Request)
        (s : State) (response : Response) :
  method request <> "OPTIONS" ->
  fst (run net (OpenMeteo.fetch request) s) = inr response ->
  rstatus response = 200 ->
  exists c elevRes elevData es r,
    resolved_center worker_earlier net request s = inr (inr c)
    /\ In (CallFetch (OpenMeteo.elevUrl c (size_of request) (grid_of request))
                     (inr elevRes))
          (calls_of net (OpenMeteo.fetch request) s)
    /\ ok elevRes = true
    /\ json elevRes = Some elevData
    /\ get_prop elevData "elevation" = VArr es
    /\ response = json_response 200 (result_value r)
    /\ elevations r = es
    /\ res_grid r = grid_of request
    /\ forall x, In x es -> valid x = true ->
         PrimFloat.leb (minElev r) (ToNumber x) = true
         /\ PrimFloat.leb (ToNumber x) (maxElev r) = true.
Proof.
  intros Hm Hresp Hstatus.
  pose proof (run_open_meteo net request s Hm) as Hrun. cbv zeta in Hrun.
  destruct (resolved_center worker_earlier net request s) as [e|[early|c]] eqn:Hres.
  - rewrite Hrun in Hresp. injection Hresp as <-. discriminate.
  - rewrite Hrun in Hresp. injection Hresp as <-.
    apply (resolution_early worker_earlier) in Hres.
    destruct Hres as [[-> _]|[-> _]]; discriminate.
  - destruct (is_nan (centerLat c) || is_nan (centerLon c));
      [rewrite Hrun in Hresp; injection Hresp as <-; discriminate|].
    pose proof (calls_of_unique net (OpenMeteo.fetch request) s _
                  ltac:(rewrite Hrun; reflexivity)) as Hcalls.
    rewrite Hrun in Hresp. cbn [fst] in Hresp. injection Hresp as Hresp.
    destruct (net _ (OpenMeteo.elevUrl c (size_of request) (grid_of request)))
      as [e|elevRes] eqn:Hnet; cbn [rbind] in Hresp;
      [rewrite <- Hresp in Hstatus; discriminate|].
    destruct (OpenMeteo.read_elevation elevRes) as [e|es] eqn:Hread; cbn [rbind] in Hresp;
      [rewrite <- Hresp in Hstatus; discriminate|].
    destruct (aggregate c (grid_of request) es) as [e|r] eqn:Hagg;
      [rewrite <- Hresp in Hstatus; discriminate|].
    unfold OpenMeteo.read_elevation, res_json in Hread.
    destruct (ok elevRes) eqn:Hok; cbn [negb] in Hread; [|discriminate].
    destruct (json elevRes) as [elevData|] eqn:Hjson; cbn [rbind] in Hread;
      [|discriminate].
    assert (Helev : get_prop elevData "elevation" = VArr es).
    { destruct elevData; cbn [member rbind] in Hread; try discriminate;
        match type of Hread with
        | match ?v with _ => _ end = _ => destruct v; try discriminate
        end; injection Hread as <-; reflexivity. }
    destruct (aggregate_spec c (grid_of request) es) as [Hempty Hsome].
    destruct (validElevations es) as [|v vs] eqn:Hv;
      [rewrite Hempty in Hagg by reflexivity; discriminate|].
    destruct Hsome as (r' & Hr' & Hes & Hgrid & _ & _ & Hb & _); [discriminate|].
    assert (r' = r) by congruence. subst r'.
    exists c, elevRes, elevData, es, r.
    split; [reflexivity|]. split.
    { rewrite Hcalls. apply in_or_app. right. left. reflexivity. }
    repeat (split; [first [reflexivity|assumption|symmetry; assumption]|]).
    exact Hb.
Qed.

(* ================================================================== *)
(** * The telemetry filter and the worker's own exceptions *)
(* ================================================================== *)

Section Telemetry.
Context {RT : Runtime} (rev : Revision) (net : Network).

Lemma computation_thrown (n : nat) (c : Center) (size : float) (grid : Z)
      (e : Error) :
  fst (computation rev net n c size grid) = inl e ->
  rejected_fetch net e \/ thrown_by_engine e \/ thrown_by_handler e.
Proof.
  unfold computation.
  destruct (sequential_calls rev net n _) as [[e0|es] calls] eqn:Hseq; cbn [fst rbind].
  - intros H. injection H as <-.
    apply (sequential_calls_thrown rev net
             (contiguous_batches (locations c size grid)) n).
    rewrite Hseq. reflexivity.
  - intros H. right. right. exact (aggregate_thrown _ _ _ _ H).
Qed.

Lemma caught_thrown (request : Request) (env : Env) (s : State) (e : Error) :
  caught rev net request env s e ->
  (rejected_fetch net e \/ thrown_by_engine e \/ thrown_by_handler e)
  /\ fst (run net (terrain rev request env) s) = inr (error_response e).
Proof.
  intros [s' Hrun]. split.
  - unfold pipeline in Hrun. rewrite run_bind, run_resolve in Hrun.
    destruct (resolution rev net (fetches s) _ _ _) as [[e0|[early|c]] calls1] eqn:Hres;
      cbn [fst snd] in Hrun; try discriminate.
    + injection Hrun as <- _.
      eapply (resolution_thrown rev net (fetches s)). rewrite Hres. reflexivity.
    + destruct (is_nan (centerLat c) || is_nan (centerLon c)); [discriminate|].
      rewrite run_bind, run_cache_lookup in Hrun.
      destruct (CACHE env && truthy _); [discriminate|].
      rewrite run_bind, run_compute in Hrun.
      destruct (computation rev net _ c _ _) as [[e0|r] calls3] eqn:Hcomp;
        cbn [fst snd] in Hrun.
      * injection Hrun as <- _.
        eapply computation_thrown. rewrite Hcomp. reflexivity.
      * rewrite run_bind, run_cache_store in Hrun. discriminate.
  - unfold terrain. cbv zeta. rewrite run_try_catch, Hrun. reflexivity.
Qed.

Lemma thrown_by_handler_passes (e : Error) :
  thrown_by_handler e ->
  forall (Event : Type) (event : Event),
    Sentry.beforeSend event (Some e) = Some event.
Proof.
  intros [_ Hmsg] Event event. unfold Sentry.beforeSend.
  destruct (String.eqb_spec (message e) "Location not found") as [Heq|_];
    [|reflexivity].
  exfalso. rewrite Heq in Hmsg.
  destruct Hmsg as [[x H]|[(x & y & H & _)|[[x H]|[H|[H|H]]]]]; discriminate.
Qed.
End Telemetry.

(** X17.  The filter of [beforeSend] drops an event whose exception has the
    message of the 404, and it never applies to an exception of the
    worker's own.  What the [catch] clause of the terrain route captures
    is the rejection of a fetch, an exception of the engine, or one thrown
    by a [throw] statement of the handler, and the request is then
    answered 500; what leaves [fetch] as a rejection is the test error of
    the debug route.  The exceptions that the handler throws itself all
    pass the filter: a location that is not found is answered, not
    thrown. *)
Theorem telemetry_filter_spares_the_worker {RT : Runtime} (rev : Revision)
        (net : Network) (request : Request) (env : Env) (s : State) (e : Error) :
  (caught rev net request env s e ->
   fst (run net (terrain rev request env) s) = inr (error_response e)
   /\ (rejected_fetch net e \/ thrown_by_engine e
       \/ (thrown_by_handler e
           /\ forall (Event : Type) (event : Event),
                Sentry.beforeSend event (Some e) = Some event)))
  /\ ((exists s', run net (fetch rev request env) s = (inl e, s')) ->
      thrown_by_handler e
      /\ forall (Event : Type) (event : Event),
           Sentry.beforeSend event (Some e) = Some event)
  /\ (forall (Event : Type) (event : Event),
        Sentry.beforeSend event (Some (new_Error "Location not found")) = None
        /\ Sentry.beforeSend event None = Some event).
Proof.
  split; [|split].
  - intros Hcaught.
    destruct (caught_thrown rev net request env s e Hcaught) as [Hkind Hresp].
    split; [exact Hresp|].
    destruct Hkind as [H|[H|H]]; [left; exact H|right; left; exact H|].
    right. right. split; [exact H|]. apply thrown_by_handler_passes, H.
  - intros [s' Hrun].
    assert (He : e = new_Error "Test error from /debug-sentry endpoint").
    { unfold fetch in Hrun.
      destruct (String.eqb (method request) "OPTIONS"); [discriminate|].
      destruct (debug_endpoint rev && String.eqb (pathname request) "/debug-sentry");
        [|rewrite run_terrain in Hrun; discriminate].
      unfold debug_sentry in Hrun.
      repeat match type of Hrun with
             | context [match ?x with _ => _ end] => destruct x
             end; cbn [run] in Hrun; try discriminate.
      injection Hrun as <- _. reflexivity. }
    assert (Hthrown : thrown_by_handler e).
    { subst e. split; [reflexivity|]. tauto. }
    split; [exact Hthrown|]. apply thrown_by_handler_passes, Hthrown.
  - intros Event event. split; reflexivity.
Qed.

(** X18.  The release and the environment that the worker reports to
    telemetry are never missing: [unknown] stands for a version metadata
    binding that is absent, [null] or without a truthy [id], and
    [production] for an [ENVIRONMENT] that is absent or empty; a version
    id and an environment that are not empty are reported as they
    are. *)
Theorem telemetry_options_defaults (env : Sentry.Bindings) :
  let options := Sentry.options env in
  truthy (Sentry.release options) = true
  /\ truthy (Sentry.environment options) = true
  /\ (Sentry.CF_VERSION_METADATA env = VUndef
      \/ Sentry.CF_VERSION_METADATA env = VNull
      \/ (exists props, Sentry.CF_VERSION_METADATA env = VObj props
            /\ lookup_prop "id" props = None) ->
      Sentry.release options = VStr "unknown")
  /\ (forall props version,
        Sentry.CF_VERSION_METADATA env = VObj props ->
        lookup_prop "id" props = Some (VStr version) -> version <> "" ->
        Sentry.release options = VStr version)
  /\ (Sentry.ENVIRONMENT env = VUndef \/ Sentry.ENVIRONMENT env = VStr "" ->
      Sentry.environment options = VStr "production")
  /\ (forall name, Sentry.ENVIRONMENT env = VStr name -> name <> "" ->
        Sentry.environment options = VStr name)
  /\ Sentry.dsn options = Sentry.SENTRY_DSN env.
Proof.
  intros options. subst options. unfold Sentry.options, Sentry.or_else.
  cbn [Sentry.release Sentry.environment Sentry.dsn].
  split; [|split; [|split; [|split; [|split; [|split; [|reflexivity]]]]]].
  - destruct (truthy (Sentry.optional _ "id")) eqn:H; [exact H|reflexivity].
  - destruct (truthy (Sentry.ENVIRONMENT env)) eqn:H; [exact H|reflexivity].
  - intros [->|[->|(props & -> & Hid)]]; try reflexivity.
    cbn [Sentry.optional get_prop]. rewrite Hid. reflexivity.
  - intros props version -> Hid Hne. cbn [Sentry.optional get_prop]. rewrite Hid.
    cbn [default from_option id truthy].
    destruct (String.eqb_spec version "") as [E|_]; [contradiction|reflexivity].
  - intros [->| ->]; reflexivity.
  - intros name -> Hne. cbn [truthy].
    destruct (String.eqb_spec name "") as [E|_]; [contradiction|reflexivity].
Qed.

(* ================================================================== *)
(** * The extent of the grid *)
(* ================================================================== *)

Lemma SFsame_eq (a b : spec_float) : SFsame a b = true -> a = b.
Proof.
  destruct a as [s1|s1| |s1 m1 e1], b as [s2|s2| |s2 m2 e2]; cbn [SFsame];
    try discriminate; try reflexivity.
  - intros H. apply Bool.eqb_prop in H. congruence.
  - intros H. apply Bool.eqb_prop in H. congruence.
  - intros H. apply andb_true_iff in H. destruct H as [H He].
    apply andb_true_iff in H. destruct H as [Hs Hm].
    apply Bool.eqb_prop in Hs. apply Pos.eqb_eq in Hm. apply Z.eqb_eq in He.
    congruence.
Qed.

Lemma same_float_eq (x y : float) : same_float x y = true -> x = y.
Proof. intros H. apply Prim2SF_inj, SFsame_eq, H. Qed.

(** The fractions of the first and of the last index, for every grid
    from 2 to 1000, by evaluation. *)
Lemma corners_checked :
  forallb corners_exact (List.map Z.of_nat (seq 2 999)) = true.
Proof. vm_compute. reflexivity. Qed.

Lemma corner_fractions (grid : Z) :
  2 <= grid <= 1000 ->
  first_fraction grid = (-0.5)%float /\ last_fraction grid = 0.5%float.
Proof.
  intros Hgrid.
  assert (Hin : In grid (List.map Z.of_nat (seq 2 999))).
  { apply in_map_iff. exists (Z.to_nat grid). split; [lia|].
    apply in_seq. lia. }
  pose proof (proj1 (forallb_forall _ _) corners_checked grid Hin) as H.
  apply andb_true_iff in H. destruct H as [H1 H2].
  split; apply same_float_eq; assumption.
Qed.

(** X19.  The grid spans the requested size about the center.  For a [grid]
    from 2 to 1000 the fraction [i / (grid - 1) - 0.5] is exactly -0.5 at
    the first index and exactly 0.5 at the last, so the first point lies
    half the size, converted to degrees, before the center in latitude
    and in longitude, and the last point half the size after it. *)
Theorem grid_spans_the_requested_size {RT : Runtime} (c : Center)
        (size : float) (grid : Z) :
  2 <= grid <= 1000 ->
  let n := Z.to_nat grid in
  latOffset size grid 0 = (-0.5 * size / 111)%float
  /\ latOffset size grid (n - 1) = (0.5 * size / 111)%float
  /\ lonOffset (centerLat c) size grid 0
     = (-0.5 * size / kmPerDegLon (centerLat c))%float
  /\ lonOffset (centerLat c) size grid (n - 1)
     = (0.5 * size / kmPerDegLon (centerLat c))%float
  /\ locations c size grid !! 0%nat
     = Some {| lat := toFixed (centerLat c + -0.5 * size / 111)%float 6;
               lon := toFixed (centerLon c
                               + -0.5 * size / kmPerDegLon (centerLat c))%float 6 |}
  /\ locations c size grid !! (n * n - 1)%nat
     = Some {| lat := toFixed (centerLat c + 0.5 * size / 111)%float 6;
               lon := toFixed (centerLon c
                               + 0.5 * size / kmPerDegLon (centerLat c))%float 6 |}.
Proof.
  intros Hgrid n. destruct (corner_fractions grid Hgrid) as [Hfirst Hlast].
  unfold first_fraction, last_fraction in *. fold n in Hlast.
  assert (H1 : latOffset size grid 0 = (-0.5 * size / 111)%float)
    by (unfold latOffset, kmPerDegLat; rewrite Hfirst; reflexivity).
  assert (H2 : latOffset size grid (n - 1) = (0.5 * size / 111)%float)
    by (unfold latOffset, kmPerDegLat; rewrite Hlast; reflexivity).
  assert (H3 : lonOffset (centerLat c) size grid 0
               = (-0.5 * size / kmPerDegLon (centerLat c))%float)
    by (unfold lonOffset; rewrite Hfirst; reflexivity).
  assert (H4 : lonOffset (centerLat c) size grid (n - 1)
               = (0.5 * size / kmPerDegLon (centerLat c))%float)
    by (unfold lonOffset; rewrite Hlast; reflexivity).
  repeat (split; [assumption|]). split.
  - pose proof (locations_lookup c size grid 0 0) as H. fold n in H.
    rewrite Nat.mul_0_l, Nat.add_0_l in H. rewrite H by lia.
    unfold location. rewrite H1, H3. reflexivity.
  - pose proof (locations_lookup c size grid (n - 1) (n - 1)) as H. fold n in H.
    replace ((n - 1) * n + (n - 1))%nat with (n * n - 1)%nat in H by nia.
    rewrite H by lia. unfold location. rewrite H2, H4. reflexivity.
Qed.

(* ================================================================== *)
(** * Where the fetcher stops *)
(* ================================================================== *)

Section Stops.
Context {RT : Runtime} (rev : Revision) (net : Network).

Lemma fetch_calls_nonempty (n : nat) (b : list Location) (bs : list (list Location)) :
  exists c rest, fetch_calls net n (b :: bs) = c :: rest.
Proof. rewrite fetch_calls_cons. eauto. Qed.

(** The schedule runs up to the first batch whose call fails, that
    batch included. *)
Lemma sequential_calls_stops (bs : list (list Location)) :
  forall n,
    match first_failure net n bs with
    | None =>
        sequential_calls rev net n bs
        = (inr (concat (batch_outputs net n bs)),
           paced (CallSetTimeout (pacing_ms rev)) (fetch_calls net n bs))
    | Some k =>
        exists b e,
          bs !! k = Some b
          /\ settled_batch (net (n + k)%nat (elevUrl b)) = inl e
          /\ sequential_calls rev net n bs
             = (inl e, paced (CallSetTimeout (pacing_ms rev))
                             (fetch_calls net n (take (S k) bs)))
    end.
Proof.
  induction bs as [|b bs IH]; intros n; [reflexivity|].
  cbn [first_failure sequential_calls].
  destruct (settled_batch (net n (elevUrl b))) as [e|es] eqn:Hb.
  - exists b, e. rewrite Nat.add_0_r. split; [reflexivity|]. split; [exact Hb|].
    cbn [take]. rewrite take_0, fetch_calls_cons. reflexivity.
  - specialize (IH (S n)).
    destruct (first_failure net (S n) bs) as [k|]; cbn [option_map].
    + destruct IH as (b' & e & Hk & He & Hseq).
      exists b', e. split; [exact Hk|].
      split; [rewrite Nat.add_succ_r; exact He|].
      rewrite Hseq. cbn [take]. rewrite fetch_calls_cons.
      destruct bs as [|b0 bs]; [discriminate|].
      cbn [take]. destruct (fetch_calls_nonempty (S n) b0 (take k bs)) as (c & rest & ->).
      reflexivity.
    + rewrite IH, fetch_calls_cons, batch_outputs_cons, Hb. cbn [concat].
      destruct bs as [|b0 bs]; [reflexivity|].
      destruct (fetch_calls_nonempty (S n) b0 bs) as (c & rest & ->).
      reflexivity.
Qed.

Lemma first_failure_bound (bs : list (list Location)) :
  forall n k, first_failure net n bs = Some k -> (k < List.length bs)%nat.
Proof.
  induction bs as [|b bs IH]; intros n k; [discriminate|].
  cbn [first_failure List.length].
  destruct (settled_batch _); [intros H; injection H as <-; lia|].
  destruct (first_failure net (S n) bs) as [j|] eqn:Hj; [|discriminate].
  cbn [option_map]. intros H. injection H as <-.
  specialize (IH (S n) j Hj). lia.
Qed.

Lemma paced_of_fetches (fs : list call) :
  forallb is_elevation_call fs = true ->
  count is_elevation_call (paced (CallSetTimeout (pacing_ms rev)) fs)
  = List.length fs.
Proof.
  induction fs as [|c [|c' rest] IH]; intros H; [reflexivity| |].
  - cbn [paced]. rewrite count_cons. cbn [forallb] in H.
    rewrite andb_true_r in H. rewrite H. reflexivity.
  - cbn [forallb] in H. apply andb_true_iff in H. destruct H as [Hc Hrest].
    change (paced (CallSetTimeout (pacing_ms rev)) (c :: c' :: rest))
      with (c :: CallSetTimeout (pacing_ms rev)
              :: paced (CallSetTimeout (pacing_ms rev)) (c' :: rest)).
    rewrite !count_cons, Hc, (IH Hrest). reflexivity.
Qed.

(** The calls of the fetcher of a request, as a paced sequence of
    elevation calls. *)
Lemma fetcher_calls_paced (request : Request) (s : State) (c : Center) :
  exists fs,
    fetcher_calls rev net request s c
    = paced (CallSetTimeout (pacing_ms rev)) fs
    /\ forallb is_elevation_call fs = true
    /\ (List.length fs
        <= totalBatches (Z.to_nat (grid_of request) * Z.to_nat (grid_of request)))%nat.
Proof.
  unfold fetcher_calls.
  pose proof (sequential_calls_stops (request_batches request c)
                (first_batch_fetch rev net request s)) as H.
  pose proof (request_batches_length request c) as Hlen.
  destruct (first_failure net _ _) as [k|] eqn:Hk.
  - destruct H as (b & e & _ & _ & ->). cbn [snd].
    eexists. split; [reflexivity|].
    destruct (fetch_calls_are_fetches net (first_batch_fetch rev net request s)
                (take (S k) (request_batches request c))) as (_ & H2 & _ & H4).
    split; [exact H2|]. rewrite H4, length_take, <- Hlen. lia.
  - rewrite H. cbn [snd]. eexists. split; [reflexivity|].
    destruct (fetch_calls_are_fetches net (first_batch_fetch rev net request s)
                (request_batches request c)) as (_ & H2 & _ & H4).
    split; [exact H2|]. rewrite H4, Hlen. lia.
Qed.
End Stops.

(** X20.  The fetcher stops at the first batch whose call cannot be used.
    When every call settles to elevations, all batches are called and
    the outputs concatenated; otherwise the calls are those of the
    batches up to the first failing one, that one included and last, with
    a pause between consecutive calls, and the fetcher throws the error
    of that call: no batch after it is called. *)
Theorem fetcher_stops_at_first_failure {RT : Runtime} (rev : Revision)
        (net : Network) (locs : list Location) (s : State) :
  let batches := contiguous_batches locs in
  let out := fst (run net (fetch_elevations rev locs) s) in
  let calls := calls_of net (fetch_elevations rev locs) s in
  match first_failure net (fetches s) batches with
  | None =>
      out = inr (concat (batch_outputs net (fetches s) batches))
      /\ calls = paced (CallSetTimeout (pacing_ms rev))
                       (fetch_calls net (fetches s) batches)
      /\ count is_elevation_call calls = List.length batches
  | Some k =>
      (k < List.length batches)%nat
      /\ calls = paced (CallSetTimeout (pacing_ms rev))
                       (fetch_calls net (fetches s) (take (S k) batches))
      /\ count is_elevation_call calls = S k
      /\ exists b e,
           batches !! k = Some b
           /\ settled_batch (net (fetches s + k)%nat (elevUrl b)) = inl e
           /\ out = inl e
  end.
Proof.
  intros batches out calls. subst out calls.
  pose proof (run_fetch_elevations rev net locs s) as Hrun. fold batches in Hrun.
  pose proof (sequential_calls_stops rev net batches (fetches s)) as Hstop.
  pose proof (first_failure_bound net batches (fetches s)) as Hbound.
  destruct (first_failure net (fetches s) batches) as [k|].
  - destruct Hstop as (b & e & Hk & He & Hseq). rewrite Hseq in Hrun.
    specialize (Hbound k eq_refl).
    rewrite (calls_of_unique net _ s _ ltac:(rewrite Hrun; reflexivity)).
    rewrite Hrun. cbn [fst].
    destruct (fetch_calls_are_fetches net (fetches s) (take (S k) batches))
      as (_ & H2 & _ & H4).
    split; [exact Hbound|]. split; [reflexivity|].
    split; [rewrite (paced_of_fetches rev _ H2), H4, length_take; lia|].
    exists b, e. auto.
  - rewrite Hstop in Hrun.
    rewrite (calls_of_unique net _ s _ ltac:(rewrite Hrun; reflexivity)).
    rewrite Hrun. cbn [fst].
    destruct (fetch_calls_are_fetches net (fetches s) batches) as (_ & H2 & _ & H4).
    split; [reflexivity|]. split; [reflexivity|].
    rewrite (paced_of_fetches rev _ H2), H4. reflexivity.
Qed.

(** X21.  The calls of a run of the terrain route come in one order: the
    geocoding call of a request with [q], the cache lookup when the
    cache is bound and the center is valid, the elevation calls with a
    pause between every two of them and none before the first or after
    the last, and the cache write. *)
Theorem calls_in_order {RT : Runtime} (rev : Revision) (net : Network)
        (request : Request) (env : Env) (s : State) :
  let calls := calls_of net (terrain rev request env) s in
  exists lookup elevation_calls put,
    calls
    = match truthy_param (searchParams_get "q" (searchParams request)) with
      | Some qs => [CallFetch (geoUrl qs) (net (fetches s) (geoUrl qs))]
      | None => []
      end
      ++ lookup
      ++ paced (CallSetTimeout (pacing_ms rev)) elevation_calls
      ++ put
    /\ (lookup = []
        \/ exists key, CACHE env = true
             /\ lookup = [CallCacheGet key (default VNull (kv s !! key))])
    /\ forallb is_elevation_call elevation_calls = true
    /\ (List.length elevation_calls
        <= totalBatches (Z.to_nat (grid_of request) * Z.to_nat (grid_of request)))%nat
    /\ (put = []
        \/ exists key entry, CACHE env = true
             /\ put = [CallCachePut key entry 2592000]).
Proof.
  intros calls. subst calls.
  destruct (terrain_run_calls rev net request env s)
    as (lookup & elev & put & Htrace & Hlookup & Helev & Hput).
  rewrite (terrain_calls_of rev net request env s _ Htrace), resolution_calls_eq.
  assert (He : exists fs,
             elev = paced (CallSetTimeout (pacing_ms rev)) fs
             /\ forallb is_elevation_call fs = true
             /\ (List.length fs
                 <= totalBatches (Z.to_nat (grid_of request)
                                  * Z.to_nat (grid_of request)))%nat).
  { destruct Helev as [->|(c & _ & ->)].
    - exists []. repeat split. cbn. lia.
    - apply fetcher_calls_paced. }
  destruct He as (fs & -> & Hfs & Hlen).
  exists lookup, fs, put. split; [reflexivity|].
  split; [|split; [exact Hfs|split; [exact Hlen|]]].
  - destruct Hlookup as [->|(Hc & c & _ & ->)]; [left; reflexivity|right; eauto].
  - destruct Hput as [(-> & _)|(Hc & _ & _ & c & r & _ & _ & -> & _)];
      [left; reflexivity|right; eauto].
Qed.

(* ================================================================== *)
(** * The two readings of a batch *)
(* ================================================================== *)

(** X22.  The earlier worker and [worker.js] read the answer to a batch
    alike, but for a [results] that is a string.  On an answer whose
    [results] is no string they return the same elevations or throw the
    same exception, or both throw a [TypeError]; on a [results] that is a
    string and not empty, under a status [OK], [worker.js] throws a
    [TypeError] where the earlier worker went on with one undefined
    sample per character. *)
Theorem earlier_reads_batches_alike {RT : Runtime} (elevRes : HttpResponse) :
  let results := match json elevRes with
                 | Some elevData => get_prop elevData "results"
                 | None => VUndef
                 end in
  ((forall s, results <> VStr s) ->
   match Earlier.read_batch elevRes, read_batch elevRes with
   | inr earlier, inr later => earlier = later
   | inl earlier, inl later =>
       earlier = later
       \/ (ename earlier = "TypeError" /\ ename later = "TypeError")
   | _, _ => False
   end)
  /\ (forall elevData s,
        ok elevRes = true -> json elevRes = Some elevData ->
        get_prop elevData "status" = VStr "OK" ->
        results = VStr s -> s <> "" ->
        (exists e, read_batch elevRes = inl e /\ ename e = "TypeError")
        /\ Earlier.read_batch elevRes
           = inr (List.map (fun _ => VUndef) (list_ascii_of_string s))).
Proof.
  intros results. subst results. unfold Earlier.read_batch, read_batch, res_json.
  split.
  - intros Hno. destruct (ok elevRes); cbn [negb]; [|left; reflexivity].
    destruct (json elevRes) as [elevData|]; cbn [rbind]; [|left; reflexivity].
    destruct (member elevData "status") as [e|st]; cbn [rbind]; [left; reflexivity|].
    destruct (negb (strict_eq_string st "OK")
              || negb (truthy (get_prop elevData "results"))); [left; reflexivity|].
    unfold Earlier.results_elevations, results_elevations.
    destruct (get_prop elevData "results") as [| |b|n|s|rs|props];
      try (right; split; reflexivity).
    + exfalso. exact (Hno s eq_refl).
    + destruct (mapM _ rs); [left|]; reflexivity.
  - intros elevData s Hok Hjson Hstatus Hresults Hne.
    rewrite Hok, Hjson in *. cbn [negb rbind].
    assert (Hm : member elevData "status" = inr (VStr "OK")).
    { destruct elevData; cbn [member get_prop] in *; try discriminate;
        rewrite Hstatus; reflexivity. }
    rewrite Hm, Hresults. cbn [rbind strict_eq_string truthy].
    change (("OK" =? "OK")%string) with true.
    destruct (String.eqb_spec s "") as [E|_]; [contradiction|].
    cbn [negb orb]. split; [eexists; split; reflexivity|reflexivity].
Qed.

Section EarlierRuns.
Context {RT : Runtime} (net : Network).
Hypothesis Hplain : plain_results net.

Lemma earlier_read_batch (n : nat) (url : string) (elevRes : HttpResponse) :
  net n url = inr elevRes -> Earlier.read_batch elevRes = read_batch elevRes.
Proof.
  intros Hnet. unfold Earlier.read_batch, read_batch, res_json.
  destruct (ok elevRes); cbn [negb]; [|reflexivity].
  destruct (json elevRes) as [elevData|] eqn:Hjson; cbn [rbind]; [|reflexivity].
  pose proof (Hplain n url elevRes elevData Hnet Hjson) as Hres.
  destruct (member elevData "status") as [e|st]; cbn [rbind]; [reflexivity|].
  destruct (strict_eq_string st "OK"); cbn [negb orb]; [|reflexivity].
  unfold array_or_falsy in Hres.
  destruct (get_prop elevData "results") as [| |b|x|str|rs|props]; try reflexivity;
    apply negb_true_iff in Hres; rewrite Hres; reflexivity.
Qed.

Lemma run_earlier_batch_call (batch : list Location) (s : State) :
  run net (Earlier.batch_call batch) s = run net (batch_call batch) s.
Proof.
  unfold Earlier.batch_call, batch_call. rewrite !run_bind, run_await.
  cbn [perform].
  destruct (net (fetches s) (elevUrl batch)) as [e|elevRes] eqn:Hnet; [reflexivity|].
  rewrite (earlier_read_batch _ _ _ Hnet). reflexivity.
Qed.

Lemma run_earlier_batch_loop (fuel : nat) (locs : list Location) :
  forall (i : nat) (elevations : list value) (s : State),
    run net (Earlier.batch_loop fuel locs i elevations) s
    = run net (batch_loop worker_earlier fuel locs i elevations) s.
Proof.
  induction fuel as [|fuel IH]; intros i elevations s; [reflexivity|].
  cbn [Earlier.batch_loop batch_loop].
  destruct (i <? List.length locs)%nat; [|reflexivity].
  rewrite !run_bind, run_earlier_batch_call.
  destruct (run net (batch_call _) s) as [[e|pushed] s1]; [reflexivity|].
  rewrite !run_bind. change (pacing_ms worker_earlier) with 100.
  destruct (run net _ s1) as [[e|[]] s2]; [reflexivity|]. apply IH.
Qed.
End EarlierRuns.

(** X23.  The handler at the revision [worker_earlier] is the earlier worker
    on every network whose answers carry [results] that are an array or
    not truthy: the two runs return the same response or exception, make
    the same calls and end in the same store. *)
Theorem earlier_worker_is_the_revision {RT : Runtime} (net : Network)
        (request : Request) (env : Env) (s : State) :
  plain_results net ->
  run net (Earlier.fetch request env) s
  = run net (fetch worker_earlier request env) s.
Proof.
  intros Hplain. unfold Earlier.fetch, fetch, terrain.
  destruct (String.eqb (method request) "OPTIONS"); [reflexivity|].
  cbn [debug_endpoint worker_earlier andb]. cbv zeta.
  rewrite !run_try_catch.
  unfold Earlier.pipeline, pipeline. rewrite !run_bind.
  destruct (run net (resolve worker_earlier _ _ _) s) as [[e|[early|c]] s1];
    try reflexivity.
  destruct (is_nan (centerLat c) || is_nan (centerLon c)); [reflexivity|].
  rewrite !run_bind.
  destruct (run net (cache_lookup env _) s1) as [[e|[cached|]] s2]; try reflexivity.
  unfold compute, fetch_elevations. rewrite !run_bind.
  rewrite (run_earlier_batch_loop net Hplain).
  destruct (run net (batch_loop worker_earlier _ _ _ _) s2) as [[e|elevations] s3];
    [reflexivity|].
  rewrite !run_bind, !run_lift.
  destruct (aggregate c (grid_of request) elevations) as [e|r]; reflexivity.
Qed.

(* ================================================================== *)
(** * Instances *)
(* ================================================================== *)

Import Examples.

Lemma parameter_defaults_witness :
  size_of (RT := Reference.runtime) (get [("size", "abc"); ("grid", "-7")]) = 10%float
  /\ grid_of (RT := Reference.runtime) (get [("size", "abc"); ("grid", "-7")]) = -7
  /\ size_of (RT := Reference.runtime) (get [("size", "0"); ("grid", "0")]) = 10%float
  /\ grid_of (RT := Reference.runtime) (get [("size", "0"); ("grid", "0")]) = 40
  /\ size_of (RT := Reference.runtime) (get [("size", "-2.5"); ("grid", "x")]) = (-2.5)%float
  /\ grid_of (RT := Reference.runtime) (get [("size", "-2.5"); ("grid", "x")]) = 40
  /\ size_of (RT := Reference.runtime) (get []) = 10%float
  /\ grid_of (RT := Reference.runtime) (get []) = 40.
Proof.
  destruct (parameter_defaults (RT := Reference.runtime)
              (get [("size", "abc"); ("grid", "-7")]))
    as (_ & A2 & _ & _ & _ & _ & _ & A8).
  destruct (parameter_defaults (RT := Reference.runtime)
              (get [("size", "0"); ("grid", "0")]))
    as (_ & _ & B3 & _ & _ & _ & B7 & _).
  destruct (parameter_defaults (RT := Reference.runtime)
              (get [("size", "-2.5"); ("grid", "x")]))
    as (_ & _ & _ & C4 & _ & C6 & _ & _).
  destruct (parameter_defaults (RT := Reference.runtime) (get []))
    as (D1 & _ & _ & _ & D5 & _ & _ & _).
  split; [apply (A2 "abc"); reflexivity|].
  split; [apply (A8 "-7"); [reflexivity|reflexivity|lia]|].
  split; [apply (B3 "0"); reflexivity|].
  split; [apply (B7 "0"); reflexivity|].
  split; [apply (C4 "-2.5"); reflexivity|].
  split; [apply (C6 "x"); reflexivity|].
  split; [apply D1; reflexivity|apply D5; reflexivity].
Defined.

Lemma query_takes_precedence_witness :
  terrain (RT := Reference.runtime) worker_js request_both env_cached
  = terrain (RT := Reference.runtime) worker_js
      (without_coordinates request_both) env_cached
  /\ fst (run net_paris
              (resolve (RT := Reference.runtime) worker_js
                       (Some "Paris") (Some "36.5") (Some "-112.25")) (init store_paris))
     = inr (inr center_paris)
  /\ exists response cached,
       fst (run net_paris (terrain (RT := Reference.runtime) worker_js request_both
                                   env_cached) (init store_paris)) = inr response
       /\ store_paris !! "terrain:48.5000:2.2500:10:40" = Some cached
       /\ response = hit_response cached.
Proof.
  destruct (query_takes_precedence (RT := Reference.runtime) worker_js net_paris
              request_both env_cached (init store_paris) "Paris" eq_refl)
    as (Hignored & _ & Hcenter).
  split; [exact Hignored|].
  destruct (Hcenter {| ok := true; status := 200; text := ""; json := Some paris |}
                    paris
                    (VObj [ ("lat", VStr "48.5"); ("lon", VStr "2.25");
                            ("display_name", VStr "Paris") ])
                    "48.5" "2.25")
    as [Hresolved Hanswer]; try reflexivity.
  split; [exact Hresolved|].
  destruct (run net_paris (terrain (RT := Reference.runtime) worker_js request_both
                                   env_cached) (init store_paris))
    as [[e|response] s'] eqn:Hrun; [vm_compute in Hrun; discriminate Hrun|].
  assert (Hresp : response = hit_response (VObj [("name", VStr "Paris")]))
    by (vm_compute in Hrun; injection Hrun as <- _; reflexivity).
  destruct (Hanswer response) as [Hhit _];
    [reflexivity|rewrite Hresp; reflexivity|].
  destruct Hhit as (_ & cached & Hkv & Hbody); [rewrite Hresp; reflexivity|].
  exists response, cached. split; [reflexivity|]. split; [|exact Hbody].
  etransitivity; [|exact Hkv]. vm_compute. reflexivity.
Defined.

Lemma grid_generator_row_major_witness :
  List.length (locations (RT := Reference.runtime) center0 20%float 3) = 9%nat
  /\ locations (RT := Reference.runtime) center0 20%float 3 !! (1 * 3 + 2)%nat
     = Some {| lat := "36.500000"; lon := "-112.137928" |}.
Proof.
  destruct (grid_generator_row_major (RT := Reference.runtime) center0 20%float 3)
    as [Hlen Hat]; [lia|].
  split; [exact Hlen|].
  etransitivity; [exact (Hat 1%nat 2%nat ltac:(simpl; lia) ltac:(simpl; lia))|].
  vm_compute. reflexivity.
Defined.


Lemma successful_result_invariants_witness :
  exists c r,
    reaches_compute (RT := Reference.runtime) worker_js net_four request_small
                    env_cached (init ∅) c
    /\ fst (run net_four (terrain (RT := Reference.runtime) worker_js
                                  request_small env_cached) (init ∅))
       = inr (json_response 200 (result_value r))
    /\ List.length (elevations r) = 4%nat
    /\ PrimFloat.leb (minElev r) 3%float = true
    /\ PrimFloat.leb 3%float (maxElev r) = true.
Proof.
  destruct (successful_result_invariants (RT := Reference.runtime) worker_js
              net_four request_small env_cached (init ∅) _ _
              (run_terrain worker_js net_four request_small env_cached (init ∅)))
    as (c & r & Hreach & Hresp & Hfetched & Hgrid & Hbounds & Hlen);
    [vm_compute; reflexivity|vm_compute; reflexivity|].
  exists c, r. split; [exact Hreach|].
  destruct Hreach as (Hc & _ & _).
  assert (Hcs : c = center_small)
    by (vm_compute in Hc; injection Hc as Hc; rewrite <- Hc; reflexivity).
  subst c.
  split; [rewrite run_terrain; cbn [fst]; rewrite Hresp; reflexivity|].
  split.
  - rewrite Hlen; [vm_compute; reflexivity|].
    intros k b Hk es Hes. destruct k as [|k]; [|vm_compute in Hk; discriminate].
    vm_compute in Hk. injection Hk as Hk. subst b.
    vm_compute in Hes. injection Hes as Hes. subst es. reflexivity.
  - assert (Hf : fetched (RT := Reference.runtime) worker_js net_four
                          request_small (init ∅) center_small
                  = inr [VNum 1%float; VNum 2%float; VNum 3%float; VNum 4%float])
      by (vm_compute; reflexivity).
    rewrite Hf in Hfetched. injection Hfetched as Hfetched.
    apply (Hbounds (VNum 3%float)); [rewrite <- Hfetched; cbn; tauto|reflexivity].
Defined.

(** A batch response shorter than the batch: the request succeeds with
    a single elevation for a grid of two by two. *)
Lemma short_batch_counterexample :
  exists response s',
    run net_one (terrain (RT := Reference.runtime) worker_js request_small
                         env_cached) (init ∅) = (inr response, s')
    /\ rstatus response = 200
    /\ served_from_cache response = false
    /\ grid_of (RT := Reference.runtime) request_small = 2
    /\ List.length (body_elevations response) = 1%nat
    /\ List.length (body_elevations response)
       <> Z.to_nat (grid_of (RT := Reference.runtime) request_small
                    * grid_of (RT := Reference.runtime) request_small).
Proof.
  eexists _, _. split; [vm_compute; reflexivity|].
  vm_compute. repeat split. intros H. discriminate H.
Qed.

Lemma failed_batch_aborts_witness :
  let world := run net_second_fails
                   (terrain (RT := Reference.runtime) worker_js request_eleven
                            env_cached) (init ∅) in
  let locs := locations (RT := Reference.runtime) center_small 20%float 11 in
  List.length locs = 121%nat
  /\ trace (snd world)
     = [ CallCacheGet "terrain:36.5000:-112.2500:20:11" VNull;
         CallFetch (elevUrl (take 100 locs)) (inr (ok_results 100));
         CallSetTimeout 2000;
         CallFetch (elevUrl (drop 100 locs)) (inr too_many_requests) ]
  /\ kv (snd world) = ∅
  /\ exists e, fst world = inr (error_response e)
               /\ body_elevations (error_response e) = [].
Proof.
  intros world locs.
  assert (Htrace : trace (snd world)
                   = [ CallCacheGet "terrain:36.5000:-112.2500:20:11" VNull;
                       CallFetch (elevUrl (take 100 locs)) (inr (ok_results 100));
                       CallSetTimeout 2000;
                       CallFetch (elevUrl (drop 100 locs)) (inr too_many_requests) ])
    by (vm_compute; reflexivity).
  destruct (failed_batch_aborts (RT := Reference.runtime) worker_js net_second_fails
              request_eleven env_cached (init ∅) (snd world) (fst world)
              (trace (snd world)) (elevUrl (drop 100 locs)) (inr too_many_requests))
    as [Hrefused _].
  - subst world. apply surjective_pairing.
  - reflexivity.
  - rewrite Htrace. right. right. right. left. reflexivity.
  - vm_compute. reflexivity.
  - destruct Hrefused as (e & Hout & _ & Hnone & Hkv & _ & _); [reflexivity|].
    split; [vm_compute; reflexivity|]. split; [exact Htrace|].
    split; [exact Hkv|]. exists e. split; [exact Hout|exact Hnone].
Defined.

(** A batch response whose entries are no elevation records, one for
    each requested point: the request succeeds and its result is
    cached. *)
Lemma malformed_batch_accepted_counterexample :
  exists response s' key stored ttl,
    run net_malformed (terrain (RT := Reference.runtime) worker_js request_small
                               env_cached) (init ∅) = (inr response, s')
    /\ trace s' = [ CallCacheGet key VNull;
                    CallFetch url_small (inr malformed_results);
                    CallCachePut key stored ttl ]
    /\ is_elevation_call (CallFetch url_small (inr malformed_results)) = true
    /\ malformed_batch malformed_results = true
    /\ rstatus response = 200
    /\ body_elevations response = [VNum 5%float; VNull; VNull; VNull]
    /\ kv s' !! key = Some stored.
Proof.
  eexists _, _, _, _, _. split; [vm_compute; reflexivity|].
  split; [reflexivity|]. split; [reflexivity|]. split; [reflexivity|].
  split; [reflexivity|]. split; [reflexivity|]. vm_compute. reflexivity.
Qed.

Lemma cache_hit_short_circuit_witness :
  (exists s',
     run net_paris (terrain (RT := Reference.runtime) worker_js
                            (get [("q", "Paris")]) env_cached) (init store_paris)
     = (inr (hit_response (VObj [("name", VStr "Paris")])), s')
     /\ kv s' = store_paris)
  /\ (exists s' props s2' response2,
        run net_four (terrain (RT := Reference.runtime) worker_js request_small
                              env_cached) (init ∅)
        = (inr {| rstatus := 200; body := Some (VObj props);
                  headers := corsHeaders ++ [("Content-Type", "application/json")] |},
           s')
        /\ run net_four (terrain (RT := Reference.runtime) worker_js request_small
                                 env_cached) (init (kv s'))
           = (inr response2, s2')
        /\ body response2 = Some (VObj (props ++ [("cached", VBool true)]))
        /\ trace s2' = [CallCacheGet "terrain:36.5000:-112.2500:20:2" (VObj props)]).
Proof.
  split.
  - destruct (cache_hit_short_circuit (RT := Reference.runtime) worker_js net_paris
                (get [("q", "Paris")]) env_cached (init store_paris) center_paris)
      as [Hhit _]; [reflexivity|vm_compute; reflexivity|reflexivity|].
    destruct (Hhit (VObj [("name", VStr "Paris")])) as (s' & Hrun & _ & _ & _ & _ & Hkv);
      [vm_compute; reflexivity|reflexivity|].
    exists s'. split; [exact Hrun|exact Hkv].
  - destruct (cache_hit_short_circuit (RT := Reference.runtime) worker_js net_four
                request_small env_cached (init ∅) center_small)
      as [_ Hfresh]; [reflexivity|vm_compute; reflexivity|reflexivity|].
    destruct (aggregate (RT := Reference.runtime) center_small 2
                [VNum 1%float; VNum 2%float; VNum 3%float; VNum 4%float])
      as [e|r] eqn:Hr; [vm_compute in Hr; discriminate|].
    destruct (Hfresh r) as (s' & props & Hrun & Hbody & Hkv & Hlater).
    + repeat split; vm_compute; reflexivity.
    + rewrite <- Hr. vm_compute. reflexivity.
    + destruct (Hlater net_four request_small (init (kv s')) center_small)
        as (s2' & response2 & Hrun2 & _ & Hbody2 & Htrace2 & _);
        [reflexivity|vm_compute; reflexivity|reflexivity|reflexivity|].
      exists s', props, s2', response2.
      split; [|split; [exact Hrun2|split; [exact Hbody2|exact Htrace2]]].
      rewrite Hrun. unfold json_response.
      change (body (json_response 200 (result_value r)))
        with (Some (to_json (result_value r))) in Hbody.
      rewrite Hbody. reflexivity.
Defined.

(** A text query whose key is in the cache: the geocoder is called
    before the cache is looked up. *)
Lemma cache_hit_after_geocoding_counterexample :
  exists response s' url reply key cached,
    run net_paris (terrain (RT := Reference.runtime) worker_js
                           (get [("q", "Paris")]) env_cached) (init store_paris)
    = (inr response, s')
    /\ served_from_cache response = true
    /\ trace s' = [CallFetch url reply; CallCacheGet key cached]
    /\ is_geocoding_call (CallFetch url reply) = true.
Proof.
  eexists _, _, _, _, _, _. split; [vm_compute; reflexivity|].
  repeat split.
Qed.

Lemma aggregator_statistics_witness :
  (exists r,
     aggregate (RT := Reference.runtime) center_small 2
               [VNum 5%float; VNull; VNum 2%float; VUndef] = inr r
     /\ elevations r = [VNum 5%float; VNull; VNum 2%float; VUndef]
     /\ PrimFloat.leb (minElev r) 2%float = true
     /\ PrimFloat.leb 5%float (maxElev r) = true)
  /\ (exists response s',
        run net_nulls (terrain (RT := Reference.runtime) worker_js request_small
                               env_cached) (init ∅) = (inr response, s')
        /\ rstatus response = 500
        /\ kv s' = ∅).
Proof.
  split.
  - destruct (aggregator_statistics (RT := Reference.runtime) worker_js
                center_small 2 [VNum 5%float; VNull; VNum 2%float; VUndef])
      as (Hany & _ & Hsamples & Hprimitive & _).
    destruct Hprimitive as [_ Hreturns]; [repeat constructor|].
    destruct Hreturns as [r Hagg];
      [vm_compute; discriminate|vm_compute; lia|].
    destruct Hsamples as [_ Hresult]; [repeat constructor|].
    destruct (Hresult r Hagg) as (Hb & _).
    destruct (Hany r Hagg) as (Hes & _).
    exists r. split; [exact Hagg|]. split; [exact Hes|]. split.
    + apply (Hb 2%float); [cbn; tauto|reflexivity].
    + apply (Hb 5%float); [cbn; tauto|reflexivity].
  - destruct (aggregator_statistics (RT := Reference.runtime) worker_js
                center_small 2 [VNull; VNull; VNull; VNull])
      as (_ & _ & _ & _ & Hnone).
    destruct Hnone as (_ & Hrun); [reflexivity|].
    destruct (Hrun net_nulls request_small env_cached (init ∅))
      as (response & s' & Hrun' & Hstatus & _ & Hkv).
    + repeat split; vm_compute; reflexivity.
    + reflexivity.
    + vm_compute. reflexivity.
    + exists response, s'. split; [exact Hrun'|]. split; [exact Hstatus|exact Hkv].
Defined.

(** Samples that are no numbers but convert to one: none of them is
    numeric and defined, and yet the aggregator returns a result, whose
    statistics are 0, for the empty string, and 40, for the array. *)
Lemma coerced_samples_counterexample :
  List.filter numeric_and_defined coerced_samples = []
  /\ (exists r,
        aggregate (RT := Reference.runtime) center_small 2 coerced_samples = inr r
        /\ minElev r = 0%float /\ maxElev r = 40%float)
  /\ exists response s' props,
       run net_coerced (terrain (RT := Reference.runtime) worker_js request_small
                                env_cached) (init ∅) = (inr response, s')
       /\ rstatus response = 200
       /\ body response = Some (VObj props)
       /\ lookup_prop "elevations" props = Some (VArr coerced_samples)
       /\ lookup_prop "minElev" props = Some (VNum 0%float)
       /\ lookup_prop "maxElev" props = Some (VNum 40%float).
Proof.
  split; [reflexivity|]. split.
  - eexists. split; [vm_compute; reflexivity|]. split; reflexivity.
  - eexists _, _, _. split; [vm_compute; reflexivity|].
    split; [reflexivity|]. split; [reflexivity|]. repeat split.
Qed.



Lemma failure_status_mapping_witness :
  (exists response s',
     run net_four (terrain (RT := Reference.runtime) worker_js (get [("lat", "1")])
                  env_cached) (init ∅) = (inr response, s')
     /\ rstatus response = 400)
  /\ (exists response s',
     run net_four (terrain (RT := Reference.runtime) worker_js (get [("lat", "abc"); ("lon", "1")])
                  env_cached) (init ∅) = (inr response, s')
     /\ rstatus response = 400)
  /\ (exists response s',
     run net_nowhere (terrain (RT := Reference.runtime) worker_js (get [("q", "Atlantis")])
                  env_cached) (init ∅) = (inr response, s')
     /\ rstatus response = 404
     /\ body response = Some (VObj [("error", VStr "Location not found")]))
  /\ (exists response s',
     run net_refusing (terrain (RT := Reference.runtime) worker_js (get [("q", "Paris")])
                  env_cached) (init ∅) = (inr response, s')
     /\ rstatus response = 500)
  /\ (exists response s',
     run net_blank_candidate (terrain (RT := Reference.runtime) worker_js (get [("q", "Paris")])
                  env_cached) (init ∅) = (inr response, s')
     /\ rstatus response = 400)
  /\ (exists response s',
     run net_refusing (terrain (RT := Reference.runtime) worker_js request_small
                  env_cached) (init ∅) = (inr response, s')
     /\ rstatus response = 500)
  /\ (exists response s',
     run net_nulls (terrain (RT := Reference.runtime) worker_js request_small
                  env_cached) (init ∅) = (inr response, s')
     /\ rstatus response = 500).
Proof.
  split; [|split; [|split; [|split; [|split; [|split]]]]].
  - destruct (failure_status_mapping (RT := Reference.runtime) worker_js net_four
                (get [("lat", "1")]) env_cached (init ∅))
      as (response & s' & Hrun & _ & _ & Hmissing & _).
    exists response, s'. split; [exact Hrun|].
    apply Hmissing; [reflexivity|right; reflexivity].
  - destruct (failure_status_mapping (RT := Reference.runtime) worker_js net_four
                (get [("lat", "abc"); ("lon", "1")]) env_cached (init ∅))
      as (response & s' & Hrun & _ & _ & _ & Hnan & _).
    exists response, s'. split; [exact Hrun|].
    apply (Hnan "abc" "1"); reflexivity.
  - destruct (failure_status_mapping (RT := Reference.runtime) worker_js net_nowhere
                (get [("q", "Atlantis")]) env_cached (init ∅))
      as (response & s' & Hrun & _ & _ & _ & _ & Hgeo & _).
    exists response, s'. split; [exact Hrun|].
    destruct (Hgeo "Atlantis" eq_refl) as [_ Hans].
    destruct (Hans {| ok := true; status := 200; text := "[]";
                      json := Some (VArr []) |} eq_refl) as (_ & _ & Hjson).
    destruct (Hjson (VArr []) eq_refl eq_refl) as [Hnone _].
    apply Hnone. right. left. reflexivity.
  - destruct (failure_status_mapping (RT := Reference.runtime) worker_js net_refusing
                (get [("q", "Paris")]) env_cached (init ∅))
      as (response & s' & Hrun & _ & _ & _ & _ & Hgeo & _).
    exists response, s'. split; [exact Hrun|].
    destruct (Hgeo "Paris" eq_refl) as [_ Hans].
    destruct (Hans too_many_requests eq_refl) as (Hnok & _).
    apply Hnok. reflexivity.
  - destruct (failure_status_mapping (RT := Reference.runtime) worker_js
                net_blank_candidate (get [("q", "Paris")]) env_cached (init ∅))
      as (response & s' & Hrun & _ & _ & _ & _ & Hgeo & _).
    exists response, s'. split; [exact Hrun|].
    destruct (Hgeo "Paris" eq_refl) as [_ Hans].
    destruct (Hans blank_candidate eq_refl) as (_ & _ & Hjson).
    destruct (Hjson (VArr [VObj []]) eq_refl eq_refl) as [_ Hsome].
    destruct (Hsome eq_refl ltac:(vm_compute; reflexivity)) as [_ Hfirst].
    apply (Hfirst (VObj [])); try reflexivity; discriminate.
  - destruct (failure_status_mapping (RT := Reference.runtime) worker_js net_refusing
                request_small env_cached (init ∅))
      as (response & s' & Hrun & _ & _ & _ & _ & _ & Helev & _).
    exists response, s'. split; [exact Hrun|].
    apply (Helev [CallCacheGet "terrain:36.5000:-112.2500:20:2" VNull;
                  CallFetch url_small (inr too_many_requests)]
                 url_small (inr too_many_requests));
      [|right; left; reflexivity|reflexivity|reflexivity].
    assert (Hs : s' = snd (run net_refusing
                               (terrain (RT := Reference.runtime) worker_js
                                        request_small env_cached) (init ∅)))
      by (rewrite Hrun; reflexivity).
    rewrite Hs. vm_compute. reflexivity.
  - destruct (failure_status_mapping (RT := Reference.runtime) worker_js net_nulls
                request_small env_cached (init ∅))
      as (response & s' & Hrun & _ & _ & _ & _ & _ & _ & Hempty & _).
    exists response, s'. split; [exact Hrun|].
    apply (Hempty center_small [VNull; VNull; VNull; VNull]);
      [repeat split; vm_compute; reflexivity|vm_compute; reflexivity|reflexivity].
Defined.

(** Malformed replies of the collaborators that are not answered 500:
    a geocoding answer whose candidate has no coordinates is answered
    400, one that is an object and no array is taken as candidates and
    answered 200, and so is an elevation answer whose entries are no
    elevation records. *)
Lemma malformed_reply_status_counterexample :
  (exists response s',
     run net_blank_candidate
         (terrain (RT := Reference.runtime) worker_js (get [("q", "Paris")])
                  env_cached) (init ∅) = (inr response, s')
     /\ malformed_geocoding blank_candidate = true
     /\ rstatus response = 400)
  /\ (exists response s',
        run net_keyed (terrain (RT := Reference.runtime) worker_js request_canyon
                               env_cached) (init ∅) = (inr response, s')
        /\ malformed_geocoding keyed_candidate = true
        /\ rstatus response = 200)
  /\ (exists response s',
        run net_malformed (terrain (RT := Reference.runtime) worker_js request_small
                                   env_cached) (init ∅) = (inr response, s')
        /\ malformed_batch malformed_results = true
        /\ rstatus response = 200).
Proof.
  split; [|split]; (eexists _, _; split; [vm_compute; reflexivity|]);
    split; reflexivity.
Qed.

(* ================================================================== *)
(** * More instances *)
(* ================================================================== *)

Import Scenarios.

Lemma debug_access_control_witness :
  (exists response,
     fst (run net_four
              (fetch (RT := Reference.runtime) worker_js
                     (debug [("key", "s3cret")] (Some "Bearer wrong")) env_admin)
              (init ∅)) = inr response
     /\ rstatus response = 401)
  /\ (exists response rest,
        fst (run net_four
                 (fetch (RT := Reference.runtime) worker_js
                        (debug [] (Some "Bearer s3cret")) env_admin)
                 (init ∅)) = inr response
        /\ rstatus response = 200
        /\ body response = Some (VObj (("success", VBool true) :: rest)))
  /\ (exists response,
        fst (run net_four
                 (fetch (RT := Reference.runtime) worker_js
                        (debug [("key", "s3cret")] None) env_plain)
                 (init ∅)) = inr response
        /\ rstatus response = 503).
Proof.
  assert (Hconf : configured env_admin "s3cret") by (split; [reflexivity|discriminate]).
  split; [|split].
  - destruct (debug_access_control (RT := Reference.runtime) net_four
                (debug [("key", "s3cret")] (Some "Bearer wrong")) env_admin (init ∅))
      as [_ Hsome]; [discriminate|reflexivity|].
    destruct (Hsome "s3cret" Hconf) as (_ & _ & _ & Hbearer).
    apply (Hbearer "wrong"); [reflexivity|discriminate].
  - destruct (debug_access_control (RT := Reference.runtime) net_four
                (debug [] (Some "Bearer s3cret")) env_admin (init ∅))
      as [_ Hsome]; [discriminate|reflexivity|].
    destruct (Hsome "s3cret" Hconf) as (_ & Hok & _).
    apply Hok; [left; reflexivity|discriminate].
  - destruct (debug_access_control (RT := Reference.runtime) net_four
                (debug [("key", "s3cret")] None) env_plain (init ∅))
      as [Hnone _]; [discriminate|reflexivity|].
    destruct Hnone as (response & Hout & Hstatus & _).
    + intros adminKey [H _]. discriminate H.
    + exists response. split; assumption.
Defined.

Lemma handler_rejects_only_for_test_error_witness :
  run net_four
      (fetch (RT := Reference.runtime) worker_js
             (debug [("error", "true")] (Some "Bearer s3cret")) env_admin)
      (init ∅)
  = (inl (new_Error "Test error from /debug-sentry endpoint"), init ∅).
Proof.
  apply (handler_rejects_only_for_test_error (RT := Reference.runtime) worker_js
           net_four (debug [("error", "true")] (Some "Bearer s3cret")) env_admin
           (init ∅) (init ∅) (new_Error "Test error from /debug-sentry endpoint")).
  split; [reflexivity|]. split; [discriminate|]. split; [reflexivity|].
  split; [|repeat split].
  exists "s3cret". split; [split; [reflexivity|discriminate]|left; reflexivity].
Defined.

Lemma preflight_and_debug_make_no_call_witness :
  run net_down
      (fetch (RT := Reference.runtime) worker_js (preflight "/debug-sentry") env_plain)
      (init ∅)
  = (inr {| rstatus := 200; body := None; headers := corsHeaders |}, init ∅)
  /\ calls_of net_down
       (fetch (RT := Reference.runtime) worker_js
              (debug [("key", "guess")] None) env_admin) (init ∅) = []
  /\ fetch (RT := Reference.runtime) worker_earlier (debug [] None) env_admin
     = terrain (RT := Reference.runtime) worker_earlier (debug [] None) env_admin.
Proof.
  split; [|split].
  - apply (preflight_and_debug_make_no_call (RT := Reference.runtime) worker_js
             net_down (preflight "/debug-sentry") env_plain (init ∅)).
    reflexivity.
  - apply (preflight_and_debug_make_no_call (RT := Reference.runtime) worker_js
             net_down (debug [("key", "guess")] None) env_admin (init ∅));
      reflexivity.
  - apply (preflight_and_debug_make_no_call (RT := Reference.runtime) worker_earlier
             net_down (debug [] None) env_admin (init ∅));
      [reflexivity|discriminate].
Defined.

Lemma unbound_cache_is_never_used_witness :
  count is_cache_read
        (calls_of net_four (terrain (RT := Reference.runtime) worker_js
                                    request_small env_plain) (init store_paris))
  = 0%nat
  /\ kv (snd (run net_four (terrain (RT := Reference.runtime) worker_js
                                    request_small env_plain) (init store_paris)))
     = store_paris.
Proof.
  destruct (unbound_cache_is_never_used (RT := Reference.runtime) worker_js net_four
              request_small env_plain (init store_paris))
    as (Hread & _ & Hkv & _); [reflexivity|].
  split; [exact Hread|exact Hkv].
Defined.

Lemma cache_miss_is_transparent_witness :
  fst (run net_four (terrain (RT := Reference.runtime) worker_js request_small
                             env_cached) (init store_paris))
  = fst (run net_four (terrain (RT := Reference.runtime) worker_js request_small
                               env_plain) (init ∅)).
Proof.
  apply (cache_miss_is_transparent (RT := Reference.runtime) worker_js net_four
           request_small env_cached env_plain (init store_paris) (init ∅));
    [reflexivity|reflexivity|].
  intros c Hc. vm_compute in Hc. injection Hc as <-. vm_compute. reflexivity.
Defined.

Lemma negative_grid_yields_no_data_witness :
  grid_of (RT := Reference.runtime) request_negative = -3
  /\ fst (run net_four (terrain (RT := Reference.runtime) worker_js
                                request_negative env_cached) (init ∅))
     = inr (error_response (new_Error "No valid elevation data for this location"))
  /\ count is_elevation_call
           (calls_of net_four (terrain (RT := Reference.runtime) worker_js
                                       request_negative env_cached) (init ∅))
     = 0%nat.
Proof.
  split; [vm_compute; reflexivity|].
  destruct (negative_grid_yields_no_data (RT := Reference.runtime) worker_js net_four
              request_negative env_cached (init ∅) center_small)
    as (_ & _ & Hresp & Hcount & _).
  - vm_compute. reflexivity.
  - repeat split; vm_compute; reflexivity.
  - split; [exact Hresp|exact Hcount].
Defined.

Lemma statistics_are_ordered_numbers_witness :
  exists r,
    aggregate (RT := Reference.runtime) center_small 2
              [VNum 5%float; VNull; VBool true; VNum 2%float] = inr r
    /\ is_nan (minElev r) = false
    /\ PrimFloat.leb (minElev r) (maxElev r) = true.
Proof.
  destruct (aggregate (RT := Reference.runtime) center_small 2
              [VNum 5%float; VNull; VBool true; VNum 2%float])
    as [e|r] eqn:Hr; [vm_compute in Hr; discriminate|].
  destruct (statistics_are_ordered_numbers (RT := Reference.runtime)
              center_small 2 _ r Hr) as (Hmin & _ & Hle & _).
  exists r. split; [reflexivity|]. split; [exact Hmin|exact Hle].
Defined.

Lemma status_reveals_cause_witness :
  (exists qs geoRes,
     truthy_param (searchParams_get "q" (searchParams (get [("q", "Atlantis")])))
     = Some qs
     /\ net_nowhere 0%nat (geoUrl (RT := Reference.runtime) qs) = inr geoRes
     /\ json geoRes = Some (VArr []))
  /\ (exists e,
        caught (RT := Reference.runtime) worker_js net_refusing request_small
               env_cached (init ∅) e
        /\ fst (terrain_run (RT := Reference.runtime) worker_js net_refusing
                            request_small env_cached (init ∅))
           = error_response e).
Proof.
  split.
  - destruct (status_reveals_cause (RT := Reference.runtime) worker_js net_nowhere
                (get [("q", "Atlantis")]) env_cached (init ∅)
                (fst (terrain_run (RT := Reference.runtime) worker_js net_nowhere
                                  (get [("q", "Atlantis")]) env_cached (init ∅))))
      as (H404 & _); [rewrite run_terrain; reflexivity|].
    destruct H404 as (_ & qs & geoRes & geoResult & Hq & Hnet & _ & Hjson & _);
      [vm_compute; reflexivity|].
    exists qs, geoRes. split; [exact Hq|]. split; [exact Hnet|].
    assert (Hqs : qs = "Atlantis") by (vm_compute in Hq; congruence).
    subst qs. vm_compute in Hnet. injection Hnet as <-. reflexivity.
  - destruct (status_reveals_cause (RT := Reference.runtime) worker_js net_refusing
                request_small env_cached (init ∅)
                (fst (terrain_run (RT := Reference.runtime) worker_js net_refusing
                                  request_small env_cached (init ∅))))
      as (_ & _ & H500 & _); [rewrite run_terrain; reflexivity|].
    apply H500. vm_compute. reflexivity.
Defined.

Lemma response_envelope_witness :
  exists response msg,
    fst (run net_refusing (fetch (RT := Reference.runtime) worker_js request_small
                                 env_cached) (init ∅)) = inr response
    /\ rstatus response = 500
    /\ headers response = corsHeaders ++ [("Content-Type", "application/json")]
    /\ error_of response = Some msg /\ msg <> "".
Proof.
  destruct (fst (run net_refusing (fetch (RT := Reference.runtime) worker_js
                                         request_small env_cached) (init ∅)))
    as [e|response] eqn:Hrun; [vm_compute in Hrun; discriminate|].
  assert (Hstatus : rstatus response = 500)
    by (pose proof Hrun as H; vm_compute in H; injection H as <-; reflexivity).
  destruct (response_envelope (RT := Reference.runtime) worker_js net_refusing
              request_small env_cached (init ∅) response Hrun)
    as (Hheaders & _ & _ & _ & Herror).
  destruct Herror as (msg & Hmsg & Hne); [rewrite Hstatus; discriminate|].
  exists response, msg. repeat split; assumption.
Defined.

Lemma client_errors_stop_early_witness :
  calls_of net_nowhere (terrain (RT := Reference.runtime) worker_js
                                (get [("q", "Atlantis")]) env_cached) (init ∅)
  = [CallFetch (geoUrl (RT := Reference.runtime) "Atlantis")
               (net_nowhere 0%nat (geoUrl (RT := Reference.runtime) "Atlantis"))]
  /\ calls_of net_down (terrain (RT := Reference.runtime) worker_js
                                (get [("lat", "1")]) env_cached) (init ∅) = [].
Proof.
  split.
  - destruct (client_errors_stop_early (RT := Reference.runtime) worker_js net_nowhere
                (get [("q", "Atlantis")]) env_cached (init ∅)
                (fst (terrain_run (RT := Reference.runtime) worker_js net_nowhere
                                  (get [("q", "Atlantis")]) env_cached (init ∅))))
      as (Hcalls & _); [rewrite run_terrain; reflexivity|right; vm_compute; reflexivity|].
    exact Hcalls.
  - destruct (client_errors_stop_early (RT := Reference.runtime) worker_js net_down
                (get [("lat", "1")]) env_cached (init ∅)
                (fst (terrain_run (RT := Reference.runtime) worker_js net_down
                                  (get [("lat", "1")]) env_cached (init ∅))))
      as (Hcalls & _); [rewrite run_terrain; reflexivity|left; vm_compute; reflexivity|].
    exact Hcalls.
Defined.

Lemma open_meteo_result_witness :
  exists response r,
    fst (run net_open_meteo (OpenMeteo.fetch (RT := Reference.runtime) request_small)
             (init ∅)) = inr response
    /\ response = json_response 200 (result_value r)
    /\ elevations r = [VNum 1%float; VNum 2%float; VNull; VNum 4%float]
    /\ PrimFloat.leb (minElev r) 2%float = true
    /\ PrimFloat.leb 2%float (maxElev r) = true.
Proof.
  destruct (fst (run net_open_meteo
                     (OpenMeteo.fetch (RT := Reference.runtime) request_small)
                     (init ∅))) as [e|response] eqn:Hrun;
    [vm_compute in Hrun; discriminate|].
  assert (Hstatus : rstatus response = 200)
    by (pose proof Hrun as H; vm_compute in H; injection H as <-; reflexivity).
  destruct (open_meteo_result (RT := Reference.runtime) net_open_meteo request_small
              (init ∅) response ltac:(discriminate) Hrun Hstatus)
    as (c & elevRes & elevData & es & r & _ & Hin & _ & Hjson & Helev & Hresp
        & Hes & _ & Hb).
  assert (Hres : elevRes = open_meteo_four).
  { rewrite (calls_of_unique net_open_meteo _ (init ∅)
               [CallFetch (OpenMeteo.elevUrl (RT := Reference.runtime) center_small
                             20%float 2) (inr open_meteo_four)]) in Hin
      by (vm_compute; reflexivity).
    destruct Hin as [Hin|[]]. injection Hin as _ Hin. symmetry. exact Hin. }
  subst elevRes. cbn [json open_meteo_four] in Hjson. injection Hjson as <-.
  cbn in Helev. injection Helev as <-.
  exists response, r. split; [reflexivity|]. split; [exact Hresp|].
  split; [exact Hes|]. apply (Hb (VNum 2%float)); [cbn; tauto|reflexivity].
Defined.

Lemma telemetry_filter_spares_the_worker_witness :
  Sentry.beforeSend tt
    (Some (new_Error "Elevation API failed: 429 - Too Many Requests")) = Some tt
  /\ fst (run net_refusing (terrain (RT := Reference.runtime) worker_js request_small
                                    env_cached) (init ∅))
     = inr (error_response
              (new_Error "Elevation API failed: 429 - Too Many Requests")).
Proof.
  destruct (telemetry_filter_spares_the_worker (RT := Reference.runtime) worker_js
              net_refusing request_small env_cached (init ∅)
              (new_Error "Elevation API failed: 429 - Too Many Requests"))
    as (Hcaught & _ & _).
  destruct Hcaught as (Hresp & Hkind).
  - eexists. vm_compute. reflexivity.
  - split; [|exact Hresp].
    destruct Hkind as [(n & url & Hrej)|[[H|H]|[_ Hpass]]];
      [discriminate Hrej|discriminate H|discriminate H|].
    apply Hpass.
Defined.

Lemma telemetry_options_defaults_witness :
  Sentry.release
    (Sentry.options {| Sentry.SENTRY_DSN := VStr "https://key@sentry.example/1";
                       Sentry.CF_VERSION_METADATA := VUndef;
                       Sentry.ENVIRONMENT := VStr "" |}) = VStr "unknown"
  /\ Sentry.environment
       (Sentry.options {| Sentry.SENTRY_DSN := VStr "https://key@sentry.example/1";
                          Sentry.CF_VERSION_METADATA := VUndef;
                          Sentry.ENVIRONMENT := VStr "" |}) = VStr "production"
  /\ Sentry.release
       (Sentry.options {| Sentry.SENTRY_DSN := VNull;
                          Sentry.CF_VERSION_METADATA := VObj [("id", VStr "v42")];
                          Sentry.ENVIRONMENT := VStr "staging" |}) = VStr "v42".
Proof.
  destruct (telemetry_options_defaults
              {| Sentry.SENTRY_DSN := VStr "https://key@sentry.example/1";
                 Sentry.CF_VERSION_METADATA := VUndef;
                 Sentry.ENVIRONMENT := VStr "" |})
    as (_ & _ & Hunknown & _ & Hproduction & _).
  destruct (telemetry_options_defaults
              {| Sentry.SENTRY_DSN := VNull;
                 Sentry.CF_VERSION_METADATA := VObj [("id", VStr "v42")];
                 Sentry.ENVIRONMENT := VStr "staging" |})
    as (_ & _ & _ & Hversion & _).
  split; [apply Hunknown; left; reflexivity|].
  split; [apply Hproduction; right; reflexivity|].
  apply (Hversion [("id", VStr "v42")] "v42"); [reflexivity|reflexivity|discriminate].
Defined.

Lemma cached_flag_is_truthful_witness :
  exists response,
    fst (run net_paris (terrain (RT := Reference.runtime) worker_js
                                (get [("q", "Paris")]) env_cached) (init store_paris))
    = inr response
    /\ served_from_cache response = true
    /\ response = hit_response (VObj [("name", VStr "Paris")])
    /\ count is_elevation_call
             (calls_of net_paris (terrain (RT := Reference.runtime) worker_js
                                          (get [("q", "Paris")]) env_cached)
                       (init store_paris)) = 0%nat.
Proof.
  destruct (fst (run net_paris (terrain (RT := Reference.runtime) worker_js
                                        (get [("q", "Paris")]) env_cached)
                     (init store_paris))) as [e|response] eqn:Hrun;
    [vm_compute in Hrun; discriminate|].
  assert (Hflag : served_from_cache response = true)
    by (pose proof Hrun as H; vm_compute in H; injection H as <-; reflexivity).
  destruct (proj1 (cached_flag_is_truthful (RT := Reference.runtime) worker_js
                     net_paris (get [("q", "Paris")]) env_cached (init store_paris)
                     response Hrun) Hflag)
    as (_ & c & cached & Hc & _ & Hkv & _ & Hresp & Hcount & _).
  assert (Hcenter : c = center_paris)
    by (vm_compute in Hc; injection Hc as Hc; rewrite <- Hc; reflexivity).
  subst c. vm_compute in Hkv. injection Hkv as <-.
  exists response. repeat split; assumption.
Defined.

Lemma grid_spans_the_requested_size_witness :
  locations (RT := Reference.runtime) center0 20%float 40 !! 0%nat
  = Some {| lat := "36.409910"; lon := "-112.362072" |}
  /\ locations (RT := Reference.runtime) center0 20%float 40 !! 1599%nat
     = Some {| lat := "36.590090"; lon := "-112.137928" |}.
Proof.
  destruct (grid_spans_the_requested_size (RT := Reference.runtime) center0
              20%float 40) as (_ & _ & _ & _ & Hfirst & Hlast); [lia|].
  split.
  - etransitivity; [exact Hfirst|]. vm_compute. reflexivity.
  - etransitivity; [exact Hlast|]. vm_compute. reflexivity.
Defined.

Lemma fetcher_stops_at_first_failure_witness :
  let locs := locations (RT := Reference.runtime) center0 10%float 15 in
  List.length (contiguous_batches locs) = 3%nat
  /\ count is_elevation_call
           (calls_of net_second_fails
                     (fetch_elevations (RT := Reference.runtime) worker_js locs)
                     (init ∅)) = 2%nat
  /\ exists e,
       fst (run net_second_fails
                (fetch_elevations (RT := Reference.runtime) worker_js locs) (init ∅))
       = inl e.
Proof.
  intros locs.
  pose proof (fetcher_stops_at_first_failure (RT := Reference.runtime) worker_js
                net_second_fails locs (init ∅)) as H.
  cbv zeta in H.
  assert (Hfirst : first_failure (RT := Reference.runtime) net_second_fails
                                 (fetches (init ∅)) (contiguous_batches locs)
                   = Some 1%nat) by (vm_compute; reflexivity).
  rewrite Hfirst in H. destruct H as (_ & _ & Hcount & b & e & _ & _ & Hout).
  split; [vm_compute; reflexivity|]. split; [exact Hcount|].
  exists e. exact Hout.
Defined.

Lemma earlier_reads_batches_alike_witness :
  Earlier.read_batch (RT := Reference.runtime) (ok_results 4)
  = read_batch (RT := Reference.runtime) (ok_results 4)
  /\ Earlier.read_batch (RT := Reference.runtime) results_as_text
     = inr [VUndef; VUndef; VUndef]
  /\ exists e, read_batch (RT := Reference.runtime) results_as_text = inl e
               /\ ename e = "TypeError".
Proof.
  destruct (earlier_reads_batches_alike (RT := Reference.runtime) (ok_results 4))
    as [Halike _].
  destruct (earlier_reads_batches_alike (RT := Reference.runtime) results_as_text)
    as [_ Hstring].
  split.
  - assert (Hno : forall s,
               match json (ok_results 4) with
               | Some elevData => get_prop elevData "results"
               | None => VUndef
               end <> VStr s) by (intros s; discriminate).
    specialize (Halike Hno).
    destruct (Earlier.read_batch (RT := Reference.runtime) (ok_results 4))
      as [e|es] eqn:H1;
      destruct (read_batch (RT := Reference.runtime) (ok_results 4))
        as [e'|es'] eqn:H2; try contradiction.
    + vm_compute in H2. discriminate.
    + rewrite Halike. reflexivity.
  - destruct (Hstring (VObj [("results", VStr "n/a"); ("status", VStr "OK")]) "n/a")
      as [Hlater Hearlier]; try reflexivity; [discriminate|].
    split; [exact Hearlier|exact Hlater].
Defined.

Lemma earlier_worker_is_the_revision_witness :
  run net_four (Earlier.fetch (RT := Reference.runtime) request_small env_cached)
      (init ∅)
  = run net_four (fetch (RT := Reference.runtime) worker_earlier request_small
                        env_cached) (init ∅).
Proof.
  apply (earlier_worker_is_the_revision (RT := Reference.runtime) net_four
           request_small env_cached (init ∅)).
  intros n url elevRes elevData Hnet Hjson.
  injection Hnet as <-. injection Hjson as <-. reflexivity.
Defined.
